(** * SafeRoute: route characterization, weather context and the
      smart-recommendation engine

    A shallow embedding of the decision logic of the SafeRoute front end:

    - [RouteContext]   follows [src/context/RouteContext.tsx]
      (route data model, [analyzeRouteCharacteristics], [fetchRoutes],
      [selectRoute], [clearAll]);
    - [WeatherContext] follows [src/context/WeatherContext.tsx]
      ([mapCondition], unit conversions, [generateAlerts], [fetchWeather],
      [getRouteWeatherTags]);
    - [RoutesList]     follows the component that hosts
      [getSmartRecommendation].

    Numbers.  A JavaScript [number] that the program only ever produces as
    an integer (counts, percentages, rounded temperatures and wind speeds,
    months, epoch milliseconds) is a [Z].  Distances, durations, raw
    provider readings and scores are exact rationals ([Q]): the weights
    [0.4], [0.3], [1.3], [1.1], [1.15], [0.05] are the decimal fractions the
    source writes.  IEEE-754 rounding of these products is not part of the
    model.

    Asynchrony.  An [async] function is modelled by the state it leaves
    once it has run to completion; what the network answered is an
    explicit argument. *)

From Stdlib Require Import ZArith QArith Qround Lqa Lia.
From Stdlib Require Import List Bool String Ascii DecimalString.
From Stdlib Require Import Sorting.Sorted Sorting.Permutation.
From Stdlib Require DecimalZ.
Import ListNotations.

Set Implicit Arguments.

(* ------------------------------------------------------------------ *)
(** ** JavaScript helpers shared by the three modules *)

Module JS.

Open Scope Q_scope.

(** [`${n}`] for an integer-valued number. *)
Definition showZ (z : Z) : string := NilZero.string_of_int (Z.to_int z).

(** [Math.round]: nearest integer, halves towards plus infinity. *)
Definition round (x : Q) : Z := Qfloor (x + 0.5).

(** [Math.ceil (a / b)] on integers, [b > 0]. *)
Definition ceil_div (a b : Z) : Z := (- ((- a) / b))%Z.

(** [x > y] and [x < y] on rationals, as booleans. *)
Definition Qgtb (x y : Q) : bool := negb (Qle_bool x y).
Definition Qltb (x y : Q) : bool := negb (Qle_bool y x).

(** [x || d] where [x] may be [undefined]: [0] is falsy as well. *)
Definition orQ (x : option Q) (d : Q) : Q :=
  match x with
  | Some v => if Qeq_bool v 0 then d else v
  | None => d
  end.

(** [a || b] on possibly-undefined numbers, keeping the result optional
    so that the chain [a || b || 0] can be written as in the source. *)
Definition orOpt (x y : option Q) : option Q :=
  match x with
  | Some v => if Qeq_bool v 0 then y else x
  | None => y
  end.

(** [s || d] on strings: the empty string is falsy. *)
Definition orString (s : option string) (d : string) : string :=
  match s with
  | Some EmptyString | None => d
  | Some v => v
  end.

(** [arr.includes(s)] on an array of strings. *)
Definition includes (l : list string) (s : string) : bool :=
  existsb (String.eqb s) l.

(** [arr.slice(0, n)]. *)
Definition slice0 {A} (n : nat) (l : list A) : list A := firstn n l.

(** [Array.prototype.sort (cmp)]: a stable sort (ECMAScript 2019); [x] is
    placed before [y] when [cmp x y <= 0] and [x] came first.  Insertion
    from the right realises exactly that order. *)
Fixpoint insert {A} (cmp : A -> A -> Q) (x : A) (l : list A) : list A :=
  match l with
  | [] => [x]
  | y :: t => if Qle_bool (cmp x y) 0 then x :: y :: t
              else y :: insert cmp x t
  end.

Definition sort {A} (cmp : A -> A -> Q) (l : list A) : list A :=
  fold_right (insert cmp) [] l.

(** What a [fetch] + [response.json()] pair can end in. *)
Inductive Response (A : Type) : Type :=
| Rejected                (* the promise rejects: network error, bad JSON *)
| NotOk                   (* a response whose [ok] flag is false *)
| Ok (body : A).
Arguments Rejected {A}.
Arguments NotOk {A}.
Arguments Ok {A} body.

End JS.

(* ------------------------------------------------------------------ *)
(** ** RouteContext.tsx: data model *)

Module RouteContext.

Import JS.
Open Scope string_scope.

Record Coordinates := { lng : Q; lat : Q }.

Record Location := {
  name : string;
  address : string;
  coordinates : Coordinates
}.

Inductive Lighting := well_lit | mixed | dark.
Inductive Terrain := terrain_flat | slight_incline | terrain_steep.
Inductive Crossing := signal | crosswalk | busy_road.
Inductive RestSpot := bench | cafe | park.
Inductive RouteType := fastest | safest | comfortable | scenic.
Inductive SidewalkCoverage := continuous | partial | none.
Inductive HillLevel := flat | some_hills | steep.
Inductive TransportMode := driving_traffic | walking | cycling.

Record Maneuver := {
  maneuver_type : string;
  modifier : option string;
  location : Q * Q
}.

Record StepComfort := {
  step_lighting : Lighting;
  terrain : Terrain;
  step_shade : bool;
  crossing : option Crossing;
  restSpot : option RestSpot
}.

Record RouteStep := {
  instruction : string;
  step_distance : Q;
  step_duration : Q;
  maneuver : Maneuver;
  step_comfort : option StepComfort
}.

Record Safety := {
  lighting : string;
  lightingLevel : Lighting;
  crossings : string;
  crossingCount : Z;
  sidewalks : string;
  sidewalkCoverage : SidewalkCoverage;
  busyRoads : Z
}.

Record Comfort := {
  hills : string;
  hillLevel : HillLevel;
  shade : string;
  shadePercent : Z;
  restSpots : string;
  restSpotCount : Z;
  restSpotTypes : list RestSpot
}.

(** GeoJSON.LineString: only its coordinate list matters here. *)
Definition LineString := list (Q * Q).

Record RouteData := {
  id : string;
  type : RouteType;
  title : string;
  distance : Q;
  duration : Q;
  geometry : LineString;
  steps : list RouteStep;
  tags : list string;
  nightFriendly : bool;
  safety : Safety;
  comfort : Comfort
}.

Definition RouteType_eqb (a b : RouteType) : bool :=
  match a, b with
  | fastest, fastest | safest, safest
  | comfortable, comfortable | scenic, scenic => true
  | _, _ => false
  end.

Definition Lighting_eqb (a b : Lighting) : bool :=
  match a, b with
  | well_lit, well_lit | mixed, mixed | dark, dark => true
  | _, _ => false
  end.

Definition SidewalkCoverage_eqb (a b : SidewalkCoverage) : bool :=
  match a, b with
  | continuous, continuous | partial, partial | none, none => true
  | _, _ => false
  end.


(** *** What the Routing Provider (Mapbox Directions) returns *)

Record RawManeuver := {
  raw_type : string;
  raw_modifier : option string;
  raw_location : Q * Q;
  raw_instruction : string
}.

Record RawStep := {
  raw_maneuver : RawManeuver;
  raw_step_distance : Q;
  raw_step_duration : Q
}.

Record RawLeg := { raw_steps : list RawStep }.

Record RawRoute := {
  legs : list RawLeg;
  raw_distance : Q;
  raw_duration : Q;
  raw_geometry : LineString
}.

(** The JSON body; [data.routes] may be missing. *)
Record DirectionsBody := { data_routes : option (list RawRoute) }.

(** *** analyzeRouteCharacteristics *)

(** [Partial<RouteData>]: the four fields the characterizer fills in. *)
Record Characteristics := {
  c_tags : list string;
  c_nightFriendly : bool;
  c_safety : Safety;
  c_comfort : Comfort
}.

Definition types : list RouteType := [fastest; safest; comfortable; scenic].

(** [types[index % 4]] *)
Definition typeOfIndex (index : nat) : RouteType :=
  nth (index mod 4) types fastest.

(** [route.legs[0]?.steps || []] *)
Definition firstLegSteps (route : RawRoute) : list RawStep :=
  match legs route with
  | leg :: _ => raw_steps leg
  | [] => []
  end.

Definition isCrossingManeuver (s : RawStep) : bool :=
  String.eqb (raw_type (raw_maneuver s)) "turn"
  || String.eqb (raw_type (raw_maneuver s)) "end of road".

(** [steps.filter(...).length] *)
Definition countCrossings (route : RawRoute) : Z :=
  Z.of_nat (List.length (filter isCrossingManeuver (firstLegSteps route))).

Definition characteristics (crossingCount : Z) (t : RouteType)
  : Characteristics :=
  match t with
  | fastest => {|
      c_tags := ["Fastest"; "Direct route"];
      c_nightFriendly := false;
      c_safety := {|
        lighting := "Mixed lighting, some darker blocks";
        lightingLevel := mixed;
        crossings := showZ crossingCount ++ " major intersections";
        crossingCount := crossingCount;
        sidewalks := "Standard sidewalk coverage";
        sidewalkCoverage := partial;
        busyRoads := ceil_div crossingCount 2 |};
      c_comfort := {|
        hills := "Direct route, may include hills";
        hillLevel := some_hills;
        shade := "Limited shade (~30%)";
        shadePercent := 30;
        restSpots := "Few rest areas";
        restSpotCount := 1;
        restSpotTypes := [cafe] |} |}
  | safest => {|
      c_tags := ["High safety"; "Well lit"; "Night friendly"];
      c_nightFriendly := true;
      c_safety := {|
        lighting := "Well lit throughout";
        lightingLevel := well_lit;
        crossings := showZ (Z.max 1 (crossingCount - 1))
                     ++ " signalized crosswalks";
        crossingCount := Z.max 1 (crossingCount - 1);
        sidewalks := "Continuous sidewalks";
        sidewalkCoverage := continuous;
        busyRoads := Z.max 0 (ceil_div crossingCount 3) |};
      c_comfort := {|
        hills := "Moderate terrain";
        hillLevel := flat;
        shade := "About 60% shaded";
        shadePercent := 60;
        restSpots := "Multiple benches available";
        restSpotCount := 3;
        restSpotTypes := [bench; cafe] |} |}
  | comfortable => {|
      c_tags := ["High comfort"; "Shaded"; "Rest stops"];
      c_nightFriendly := true;
      c_safety := {|
        lighting := "Well lit with good visibility";
        lightingLevel := well_lit;
        crossings := showZ crossingCount ++ " controlled crossings";
        crossingCount := crossingCount;
        sidewalks := "Wide sidewalks throughout";
        sidewalkCoverage := continuous;
        busyRoads := 1 |};
      c_comfort := {|
        hills := "Gentle, mostly flat terrain";
        hillLevel := flat;
        shade := "Mostly shaded (75%)";
        shadePercent := 75;
        restSpots := "Benches, cafés, and parks nearby";
        restSpotCount := 5;
        restSpotTypes := [bench; cafe; park] |} |}
  | scenic => {|
      c_tags := ["Scenic views"; "Parks"; "Quieter streets"];
      c_nightFriendly := false;
      c_safety := {|
        lighting := "Mixed lighting along parks";
        lightingLevel := mixed;
        crossings := showZ (crossingCount + 1) ++ " crossings";
        crossingCount := crossingCount + 1;
        sidewalks := "Park paths and sidewalks";
        sidewalkCoverage := continuous;
        busyRoads := 0 |};
      c_comfort := {|
        hills := "Some gentle hills through parks";
        hillLevel := some_hills;
        shade := "Tree-lined paths (80%)";
        shadePercent := 80;
        restSpots := "Parks with benches throughout";
        restSpotCount := 6;
        restSpotTypes := [bench; park; cafe] |} |}
  end.

Definition analyzeRouteCharacteristics (route : RawRoute) (index : nat)
  : Characteristics :=
  characteristics (countCrossings route) (typeOfIndex index).

(** *** The provider's state *)

Record State := {
  origin : option Location;
  destination : option Location;
  routes : list RouteData;
  selectedRoute : option RouteData;
  transportMode : TransportMode;
  isLoading : bool;
  error : option string
}.

Definition DEFAULT_DESTINATION : Location := {|
  name := "6 MetroTech Center";
  address := "6 MetroTech Center, Brooklyn, NY 11201";
  coordinates := {| lng := -73.9857; lat := 40.6944 |} |}.

(** The [useState] initial values. *)
Definition initialState : State := {|
  origin := None;
  destination := Some DEFAULT_DESTINATION;
  routes := [];
  selectedRoute := None;
  transportMode := walking;
  isLoading := false;
  error := None |}.

Definition setOrigin (v : option Location) (s : State) : State :=
  {| origin := v; destination := destination s; routes := routes s;
     selectedRoute := selectedRoute s; transportMode := transportMode s;
     isLoading := isLoading s; error := error s |}.

Definition setDestination (v : option Location) (s : State) : State :=
  {| origin := origin s; destination := v; routes := routes s;
     selectedRoute := selectedRoute s; transportMode := transportMode s;
     isLoading := isLoading s; error := error s |}.

Definition setRoutes (v : list RouteData) (s : State) : State :=
  {| origin := origin s; destination := destination s; routes := v;
     selectedRoute := selectedRoute s; transportMode := transportMode s;
     isLoading := isLoading s; error := error s |}.

Definition setSelectedRoute (v : option RouteData) (s : State) : State :=
  {| origin := origin s; destination := destination s; routes := routes s;
     selectedRoute := v; transportMode := transportMode s;
     isLoading := isLoading s; error := error s |}.

Definition setTransportMode (v : TransportMode) (s : State) : State :=
  {| origin := origin s; destination := destination s; routes := routes s;
     selectedRoute := selectedRoute s; transportMode := v;
     isLoading := isLoading s; error := error s |}.

Definition setIsLoading (v : bool) (s : State) : State :=
  {| origin := origin s; destination := destination s; routes := routes s;
     selectedRoute := selectedRoute s; transportMode := transportMode s;
     isLoading := v; error := error s |}.

Definition setError (v : option string) (s : State) : State :=
  {| origin := origin s; destination := destination s; routes := routes s;
     selectedRoute := selectedRoute s; transportMode := transportMode s;
     isLoading := isLoading s; error := v |}.

(** Statements of a callback run one after the other. *)
Notation "s |> f" := (f s) (at level 45, left associativity, only parsing).

(** *** fetchRoutes: the transformation of the provider's answer *)

Fixpoint mapi_from {A B} (f : A -> nat -> B) (i : nat) (l : list A)
  : list B :=
  match l with
  | [] => []
  | x :: t => f x i :: mapi_from f (S i) t
  end.

(** [arr.map((x, index) => f x index)] *)
Definition mapi {A B} (f : A -> nat -> B) (l : list A) : list B :=
  mapi_from f 0 l.

Definition titles (t : RouteType) : string :=
  match t with
  | fastest => "Fastest Route"
  | safest => "Safest Route"
  | comfortable => "Most Comfortable"
  | scenic => "Scenic Route"
  end.

Definition comfortTypes : list Lighting := [well_lit; mixed; dark].
Definition terrainTypes : list Terrain :=
  [terrain_flat; slight_incline; terrain_flat].

Definition stepWithComfort (step : RawStep) (stepIndex : nat) : RouteStep :=
  {| instruction := raw_instruction (raw_maneuver step);
     step_distance := raw_step_distance step;
     step_duration := raw_step_duration step;
     maneuver := {|
       maneuver_type := raw_type (raw_maneuver step);
       modifier := raw_modifier (raw_maneuver step);
       location := raw_location (raw_maneuver step) |};
     step_comfort := Some {|
       step_lighting := nth (stepIndex mod 3) comfortTypes well_lit;
       terrain := nth (stepIndex mod 3) terrainTypes terrain_flat;
       step_shade := (stepIndex mod 2 =? 0)%nat;
       crossing := if String.eqb (raw_type (raw_maneuver step)) "turn"
                   then Some signal else None;
       restSpot := if (stepIndex mod 4 =? 0)%nat then Some cafe else None
     |} |}.

(** [route.legs[0]?.steps.map(...) || []] *)
Definition stepsWithComfort (route : RawRoute) : list RouteStep :=
  match legs route with
  | leg :: _ => mapi stepWithComfort (raw_steps leg)
  | [] => []
  end.

Definition transformRoute (route : RawRoute) (index : nat) : RouteData :=
  let type := typeOfIndex index in
  let characteristics := analyzeRouteCharacteristics route index in
  {| id := "route-" ++ showZ (Z.of_nat index);
     type := type;
     title := titles type;
     distance := raw_distance route;
     duration := raw_duration route;
     geometry := raw_geometry route;
     steps := stepsWithComfort route;
     tags := c_tags characteristics;
     nightFriendly := c_nightFriendly characteristics;
     safety := c_safety characteristics;
     comfort := c_comfort characteristics |}.

(** *** fetchRoutes: route variations for duplication *)

Record RouteProfile := {
  p_type : RouteType;
  p_title : string;
  multiplier : Q;
  p_tags : list string;
  p_nightFriendly : bool;
  p_safety : Safety;
  p_comfort : Comfort
}.

Definition routeProfiles : list RouteProfile := [
  {| p_type := fastest;
     p_title := "Fastest Route";
     multiplier := 1;
     p_tags := ["Fastest"; "Direct route"];
     p_nightFriendly := false;
     p_safety := {|
       lighting := "Mixed lighting, some darker blocks";
       lightingLevel := mixed;
       crossings := "4 major intersections";
       crossingCount := 4;
       sidewalks := "Standard sidewalk coverage";
       sidewalkCoverage := partial;
       busyRoads := 2 |};
     p_comfort := {|
       hills := "Direct route, may include hills";
       hillLevel := some_hills;
       shade := "Limited shade (~30%)";
       shadePercent := 30;
       restSpots := "Few rest areas";
       restSpotCount := 1;
       restSpotTypes := [cafe] |} |};
  {| p_type := safest;
     p_title := "Safest Route";
     multiplier := 1.1;
     p_tags := ["High safety"; "Well lit"; "Night friendly"];
     p_nightFriendly := true;
     p_safety := {|
       lighting := "Well lit throughout";
       lightingLevel := well_lit;
       crossings := "3 signalized crosswalks";
       crossingCount := 3;
       sidewalks := "Continuous sidewalks";
       sidewalkCoverage := continuous;
       busyRoads := 1 |};
     p_comfort := {|
       hills := "Moderate terrain";
       hillLevel := flat;
       shade := "About 60% shaded";
       shadePercent := 60;
       restSpots := "Multiple benches available";
       restSpotCount := 3;
       restSpotTypes := [bench; cafe] |} |};
  {| p_type := comfortable;
     p_title := "Most Comfortable";
     multiplier := 1.15;
     p_tags := ["High comfort"; "Shaded"; "Rest stops"];
     p_nightFriendly := true;
     p_safety := {|
       lighting := "Well lit with good visibility";
       lightingLevel := well_lit;
       crossings := "3 controlled crossings";
       crossingCount := 3;
       sidewalks := "Wide sidewalks throughout";
       sidewalkCoverage := continuous;
       busyRoads := 1 |};
     p_comfort := {|
       hills := "Gentle, mostly flat terrain";
       hillLevel := flat;
       shade := "Mostly shaded (75%)";
       shadePercent := 75;
       restSpots := "Benches, cafés, and parks nearby";
       restSpotCount := 5;
       restSpotTypes := [bench; cafe; park] |} |}
].

(** The object pushed by one turn of the loop: [{...baseRoute, id, type,
    title, tags, nightFriendly, duration, distance, safety, comfort}]. *)
Definition synthesize (baseRoute : RouteData) (index : nat)
  (profile : RouteProfile) : RouteData :=
  {| id := "route-" ++ showZ (Z.of_nat index);
     type := p_type profile;
     title := p_title profile;
     distance := (distance baseRoute
                  * (1 + (inject_Z (Z.of_nat index) * 0.05)))%Q;
     duration := (duration baseRoute * multiplier profile)%Q;
     geometry := geometry baseRoute;
     steps := steps baseRoute;
     tags := p_tags profile;
     nightFriendly := p_nightFriendly profile;
     safety := p_safety profile;
     comfort := p_comfort profile |}.

(** [while (transformedRoutes.length < 3) { ... push ... }].  Every turn
    makes the array one longer, so three turns are always enough; the
    fuel is that bound.  The loop is only entered with a non-empty array
    and [index < 3], so the last branch of the [match] is never taken. *)
Fixpoint ensureThree (fuel : nat) (transformedRoutes : list RouteData)
  : list RouteData :=
  match fuel with
  | O => transformedRoutes
  | S fuel' =>
      if (List.length transformedRoutes <? 3)%nat then
        let index := List.length transformedRoutes in
        match transformedRoutes, nth_error routeProfiles index with
        | baseRoute :: _, Some profile =>
            ensureThree fuel'
              (transformedRoutes ++ [synthesize baseRoute index profile])
        | _, _ => transformedRoutes
        end
      else transformedRoutes
  end.

(** [routes.find(r => r.type === 'safest') || routes[0]] *)
Definition pickSelected (rs : list RouteData) : option RouteData :=
  match find (fun r => RouteType_eqb (type r) safest) rs with
  | Some r => Some r
  | None => hd_error rs
  end.

(** *** fetchRoutes: the straight-line fallback and the callback itself *)

Section FetchRoutes.

(** The great-circle distance in meters between two coordinates, i.e. the
    value [R * c] of the Haversine computation in the [catch] block.  Its
    trigonometry is outside this development. *)
Variable haversine : Coordinates -> Coordinates -> Q.

Definition lngLat (l : Location) : Q * Q :=
  (lng (coordinates l), lat (coordinates l)).

Definition fallbackRoutes (origin destination : Location) : list RouteData :=
  let fallbackGeometry : LineString := [lngLat origin; lngLat destination] in
  let distance := haversine (coordinates origin) (coordinates destination) in
  let duration := (distance / 1.4)%Q in
  [ {| id := "fallback-fastest";
       type := fastest;
       title := "Fastest Route";
       distance := (distance * 0.95)%Q;
       duration := (duration * 0.9)%Q;
       geometry := fallbackGeometry;
       tags := ["Fastest"; "Direct route"];
       nightFriendly := false;
       steps := [
         {| instruction := "Head toward " ++ name destination;
            step_distance := (distance * 0.95)%Q;
            step_duration := (duration * 0.9)%Q;
            maneuver := {| maneuver_type := "depart"; modifier := None;
                           location := lngLat origin |};
            step_comfort := Some {|
              step_lighting := mixed; terrain := terrain_flat;
              step_shade := false; crossing := None; restSpot := None |} |};
         {| instruction := "Arrive at " ++ name destination;
            step_distance := 0;
            step_duration := 0;
            maneuver := {| maneuver_type := "arrive"; modifier := None;
                           location := lngLat destination |};
            step_comfort := Some {|
              step_lighting := well_lit; terrain := terrain_flat;
              step_shade := true; crossing := None; restSpot := None |} |} ];
       safety := {|
         lighting := "Mixed lighting conditions";
         lightingLevel := mixed;
         crossings := "3 intersections";
         crossingCount := 3;
         sidewalks := "Standard sidewalks";
         sidewalkCoverage := partial;
         busyRoads := 2 |};
       comfort := {|
         hills := "Direct route";
         hillLevel := some_hills;
         shade := "Limited shade (~30%)";
         shadePercent := 30;
         restSpots := "Few rest areas";
         restSpotCount := 1;
         restSpotTypes := [cafe] |} |};
    {| id := "fallback-safest";
       type := safest;
       title := "Safest Route";
       distance := distance;
       duration := duration;
       geometry := fallbackGeometry;
       tags := ["High safety"; "Well lit"; "Night friendly"];
       nightFriendly := true;
       steps := [
         {| instruction := "Head toward " ++ name destination
                           ++ " via well-lit streets";
            step_distance := distance;
            step_duration := duration;
            maneuver := {| maneuver_type := "depart"; modifier := None;
                           location := lngLat origin |};
            step_comfort := Some {|
              step_lighting := well_lit; terrain := terrain_flat;
              step_shade := true; crossing := Some signal;
              restSpot := None |} |};
         {| instruction := "Arrive at " ++ name destination;
            step_distance := 0;
            step_duration := 0;
            maneuver := {| maneuver_type := "arrive"; modifier := None;
                           location := lngLat destination |};
            step_comfort := Some {|
              step_lighting := well_lit; terrain := terrain_flat;
              step_shade := true; crossing := None; restSpot := None |} |} ];
       safety := {|
         lighting := "Well lit throughout";
         lightingLevel := well_lit;
         crossings := "2 signalized crossings";
         crossingCount := 2;
         sidewalks := "Continuous sidewalks";
         sidewalkCoverage := continuous;
         busyRoads := 1 |};
       comfort := {|
         hills := "Moderate terrain";
         hillLevel := flat;
         shade := "About 60% shaded";
         shadePercent := 60;
         restSpots := "Multiple benches available";
         restSpotCount := 3;
         restSpotTypes := [bench; cafe] |} |};
    {| id := "fallback-comfortable";
       type := comfortable;
       title := "Most Comfortable";
       distance := (distance * 1.1)%Q;
       duration := (duration * 1.15)%Q;
       geometry := fallbackGeometry;
       tags := ["High comfort"; "Shaded"; "Rest stops"];
       nightFriendly := true;
       steps := [
         {| instruction := "Head toward " ++ name destination
                           ++ " via shaded route";
            step_distance := (distance * 1.1)%Q;
            step_duration := (duration * 1.15)%Q;
            maneuver := {| maneuver_type := "depart"; modifier := None;
                           location := lngLat origin |};
            step_comfort := Some {|
              step_lighting := well_lit; terrain := terrain_flat;
              step_shade := true; crossing := None;
              restSpot := Some park |} |};
         {| instruction := "Arrive at " ++ name destination;
            step_distance := 0;
            step_duration := 0;
            maneuver := {| maneuver_type := "arrive"; modifier := None;
                           location := lngLat destination |};
            step_comfort := Some {|
              step_lighting := well_lit; terrain := terrain_flat;
              step_shade := true; crossing := None;
              restSpot := Some bench |} |} ];
       safety := {|
         lighting := "Good visibility";
         lightingLevel := well_lit;
         crossings := "2 controlled crossings";
         crossingCount := 2;
         sidewalks := "Wide sidewalks";
         sidewalkCoverage := continuous;
         busyRoads := 0 |};
       comfort := {|
         hills := "Gentle terrain";
         hillLevel := flat;
         shade := "Mostly shaded (75%)";
         shadePercent := 75;
         restSpots := "Rest spots and cafés nearby";
         restSpotCount := 5;
         restSpotTypes := [bench; cafe; park] |} |} ].

(** The body of the [try] block once the response is in: either the
    route list it would store, or [None] when it throws
    (rejected fetch, [!response.ok], [!data.routes], no route at all). *)
Definition tryTransform (response : Response DirectionsBody)
  : option (list RouteData) :=
  match response with
  | Rejected | NotOk => None
  | Ok data =>
      match data_routes data with
      | None | Some [] => None
      | Some raw => Some (ensureThree 3 (mapi transformRoute raw))
      end
  end.

(** [fetchRoutes (mode)], given what the Routing Provider answered.  The
    optional [mode] only selects the URL of the request. *)
Definition fetchRoutes (mode : option TransportMode)
  (response : Response DirectionsBody) (s : State) : State :=
  match origin s, destination s with
  | Some origin, Some destination =>
      let s := s |> setIsLoading true |> setError None in
      let s :=
        match tryTransform response with
        | Some transformedRoutes =>
            s |> setRoutes transformedRoutes
              |> setSelectedRoute (pickSelected transformedRoutes)
              |> setError None
        | None =>
            let fallback := fallbackRoutes origin destination in
            s |> setRoutes fallback
              |> setSelectedRoute (pickSelected fallback)
        end in
      s |> setIsLoading false
  | _, _ => s |> setError (Some "Please set both origin and destination")
  end.

End FetchRoutes.

Definition selectRoute (route : RouteData) (s : State) : State :=
  s |> setSelectedRoute (Some route).

Definition clearAll (s : State) : State :=
  s |> setOrigin None
    |> setDestination None
    |> setRoutes []
    |> setSelectedRoute None
    |> setError None.

End RouteContext.

(* ------------------------------------------------------------------ *)
(** ** WeatherContext.tsx *)

Module WeatherContext.

Import JS.
Open Scope string_scope.

Inductive WeatherCondition :=
| clear | clouds | rain | snow | fog | thunderstorm | drizzle | mist.

Record CurrentWeather := {
  temp : Z;              (* degrees Fahrenheit *)
  feelsLike : Z;
  condition : WeatherCondition;
  description : string;
  icon : string;
  precipitation : Q;     (* mm in last hour *)
  humidity : Q;
  windSpeed : Z;         (* mph *)
  uvIndex : Q;
  visibility : Q         (* meters *)
}.

Record HourlyForecast := {
  time : Z;              (* a Date, as epoch milliseconds *)
  h_temp : Z;
  h_condition : WeatherCondition;
  h_description : string;
  h_icon : string;
  precipProbability : Z; (* 0-100 *)
  h_precipitation : Q
}.

Record WeatherData := {
  current : CurrentWeather;
  hourly : list HourlyForecast;
  lastUpdated : Z;
  locationName : string
}.

Inductive Severity := yellow | orange | red.

Record WeatherAlert := {
  severity : Severity;
  title : string;
  message : string;
  alert_icon : string
}.

Inductive TimeOfDay :=
| early_morning | morning | midday | afternoon | evening | night | late_night.

Record TimeContext := {
  hour : Z;
  minute : Z;
  timeOfDay : TimeOfDay;
  isDark : bool;
  isRushHour : bool;
  isWeekend : bool;
  displayTime : string;
  sunriseTime : option string;
  sunsetTime : option string
}.

Definition WeatherCondition_eqb (a b : WeatherCondition) : bool :=
  match a, b with
  | clear, clear | clouds, clouds | rain, rain | snow, snow
  | fog, fog | thunderstorm, thunderstorm | drizzle, drizzle
  | mist, mist => true
  | _, _ => false
  end.

Definition TimeOfDay_eqb (a b : TimeOfDay) : bool :=
  match a, b with
  | early_morning, early_morning | morning, morning | midday, midday
  | afternoon, afternoon | evening, evening | night, night
  | late_night, late_night => true
  | _, _ => false
  end.

(** Map OpenWeatherMap conditions to the simplified conditions. *)
Definition mapCondition (weatherId : Z) : WeatherCondition :=
  if ((weatherId >=? 200) && (weatherId <? 300))%Z then thunderstorm
  else if ((weatherId >=? 300) && (weatherId <? 400))%Z then drizzle
  else if ((weatherId >=? 500) && (weatherId <? 600))%Z then rain
  else if ((weatherId >=? 600) && (weatherId <? 700))%Z then snow
  else if ((weatherId >=? 700) && (weatherId <? 800))%Z then fog
  else if (weatherId =? 800)%Z then clear
  else clouds.

Definition kelvinToFahrenheit (k : Q) : Z :=
  round ((k - 273.15) * 9 / 5 + 32)%Q.

Definition msToMph (ms : Q) : Z := round (ms * 2.237)%Q.

Definition getTimeOfDay (hour : Z) : TimeOfDay :=
  if ((hour >=? 5) && (hour <? 7))%Z then early_morning
  else if ((hour >=? 7) && (hour <? 12))%Z then morning
  else if ((hour >=? 12) && (hour <? 14))%Z then midday
  else if ((hour >=? 14) && (hour <? 17))%Z then afternoon
  else if ((hour >=? 17) && (hour <? 21))%Z then evening
  else if ((hour >=? 21) || (hour <? 1))%Z then night
  else late_night.

(** *** generateAlerts *)

Definition rainLikely (h : HourlyForecast) : bool :=
  (precipProbability h >? 50)%Z
  || WeatherCondition_eqb (h_condition h) rain
  || WeatherCondition_eqb (h_condition h) drizzle.

(** [cond ? push alert : skip] on the array under construction. *)
Definition pushIf {A} (c : bool) (x : A) (l : list A) : list A :=
  if c then (l ++ [x])%list else l.

(** [now] is the value of [Date.now()]. *)
Definition generateAlerts (now : Z) (data : WeatherData)
  : list WeatherAlert :=
  let current := current data in
  let hourly := hourly data in
  let newAlerts : list WeatherAlert := [] in
  (* Check for rain in next hour *)
  let rainSoon := find rainLikely (slice0 2 hourly) in
  let newAlerts :=
    match rainSoon with
    | Some rainSoon =>
        if negb (WeatherCondition_eqb (condition current) rain) then
          let minutes := round (inject_Z (time rainSoon - now) / 60000)%Q in
          (newAlerts ++ [ {|
            severity := yellow;
            title := "Rain Expected";
            message := "Rain likely in ~" ++ showZ minutes
                       ++ " min—covered route recommended";
            alert_icon := "🌧️" |} ])%list
        else newAlerts
    | None => newAlerts
    end in
  (* Thunderstorm warning *)
  let newAlerts :=
    pushIf (WeatherCondition_eqb (condition current) thunderstorm
            || existsb (fun h => WeatherCondition_eqb (h_condition h)
                                   thunderstorm) (slice0 3 hourly))
      {| severity := red;
         title := "Thunderstorm Warning";
         message := "Consider postponing or taking transit";
         alert_icon := "⛈️" |} newAlerts in
  (* Heat advisory *)
  let newAlerts :=
    pushIf ((temp current >? 90) || (feelsLike current >? 95))%Z
      {| severity := orange;
         title := "Heat Advisory";
         message := "Stay hydrated, take breaks in shade";
         alert_icon := "🥵" |} newAlerts in
  (* Cold warning *)
  let newAlerts :=
    pushIf ((temp current <? 32) || (feelsLike current <? 25))%Z
      {| severity := orange;
         title := "Cold Weather";
         message := "Bundle up, prefer shorter or wind-protected routes";
         alert_icon := "🥶" |} newAlerts in
  (* High wind *)
  let newAlerts :=
    pushIf (windSpeed current >? 20)%Z
      {| severity := yellow;
         title := "Windy Conditions";
         message := "Wind-protected routes recommended";
         alert_icon := "💨" |} newAlerts in
  (* Low visibility *)
  let newAlerts :=
    pushIf (Qltb (visibility current) 1000)
      {| severity := yellow;
         title := "Low Visibility";
         message := "Fog or mist—prefer well-lit main streets";
         alert_icon := "🌫️" |} newAlerts in
  (* Active rain/snow *)
  let newAlerts :=
    pushIf (WeatherCondition_eqb (condition current) rain
            || WeatherCondition_eqb (condition current) drizzle)
      {| severity := yellow;
         title := "Currently Raining";
         message := "Covered walkways prioritized";
         alert_icon := "☔" |} newAlerts in
  let newAlerts :=
    pushIf (WeatherCondition_eqb (condition current) snow)
      {| severity := orange;
         title := "Snow";
         message := "Watch for slippery surfaces, avoid steep slopes";
         alert_icon := "❄️" |} newAlerts in
  newAlerts.

(** *** calculateTimeContext *)

(** What [new Date()] is asked for: the local clock fields, the instant in
    epoch milliseconds, and the rendering of [toLocaleTimeString]. *)
Record Clock := {
  getHours : Z;
  getMinutes : Z;
  getDay : Z;        (* 0 = Sunday ... 6 = Saturday *)
  getMonth : Z;      (* 0 = January ... 11 = December *)
  getTime : Z
}.

Section TimeContext.

(** [date.toLocaleTimeString('en-US', { hour: 'numeric', minute: '2-digit' })]
    of the Date with the given epoch milliseconds. *)
Variable toLocaleTimeString : Z -> string.

(** A timestamp argument is truthy when it is given and not zero. *)
Definition truthyZ (x : option Z) : option Z :=
  match x with
  | Some v => if (v =? 0)%Z then None else Some v
  | None => None
  end.

Definition calculateTimeContext (now : Clock)
  (sunriseTimestamp sunsetTimestamp : option Z) : TimeContext :=
  let hour := getHours now in
  let minute := getMinutes now in
  let dayOfWeek := getDay now in
  let isWeekend := ((dayOfWeek =? 0) || (dayOfWeek =? 6))%Z in
  let isMorningRush := ((hour >=? 7) && (hour <? 9))%Z in
  let isEveningRush := ((hour >=? 17) && (hour <? 19))%Z in
  let isRushHour := negb isWeekend && (isMorningRush || isEveningRush) in
  let '(isDark, sunriseTime, sunsetTime) :=
    match truthyZ sunriseTimestamp, truthyZ sunsetTimestamp with
    | Some sunriseTimestamp, Some sunsetTimestamp =>
        let sunrise := (sunriseTimestamp * 1000)%Z in
        let sunset := (sunsetTimestamp * 1000)%Z in
        (((getTime now <? sunrise) || (getTime now >? sunset))%Z,
         Some (toLocaleTimeString sunrise),
         Some (toLocaleTimeString sunset))
    | _, _ =>
        let month := getMonth now in
        let isSummer := ((month >=? 4) && (month <=? 8))%Z in
        let sunriseHour := (if isSummer then 5.5 else 6.5)%Q in
        let sunsetHour := (if isSummer then 20 else 17.5)%Q in
        let currentHourDecimal := (inject_Z hour + inject_Z minute / 60)%Q in
        (Qltb currentHourDecimal sunriseHour
         || Qgtb currentHourDecimal sunsetHour, None, None)
    end in
  {| hour := hour;
     minute := minute;
     timeOfDay := getTimeOfDay hour;
     isDark := isDark;
     isRushHour := isRushHour;
     isWeekend := isWeekend;
     displayTime := toLocaleTimeString (getTime now);
     sunriseTime := sunriseTime;
     sunsetTime := sunsetTime |}.

End TimeContext.

(** *** The provider's state *)

Record SunTimes := { sunrise : option Z; sunset : option Z }.

Record State := {
  weather : option WeatherData;
  isLoading : bool;
  error : option string;
  alerts : list WeatherAlert;
  sunTimes : SunTimes
}.

Definition initialState : State := {|
  weather := None;
  isLoading := false;
  error := None;
  alerts := [];
  sunTimes := {| sunrise := None; sunset := None |} |}.

Definition setWeather (v : option WeatherData) (s : State) : State :=
  {| weather := v; isLoading := isLoading s; error := error s;
     alerts := alerts s; sunTimes := sunTimes s |}.

Definition setIsLoading (v : bool) (s : State) : State :=
  {| weather := weather s; isLoading := v; error := error s;
     alerts := alerts s; sunTimes := sunTimes s |}.

Definition setError (v : option string) (s : State) : State :=
  {| weather := weather s; isLoading := isLoading s; error := v;
     alerts := alerts s; sunTimes := sunTimes s |}.

Definition setAlerts (v : list WeatherAlert) (s : State) : State :=
  {| weather := weather s; isLoading := isLoading s; error := error s;
     alerts := v; sunTimes := sunTimes s |}.

Definition setSunTimes (v : SunTimes) (s : State) : State :=
  {| weather := weather s; isLoading := isLoading s; error := error s;
     alerts := alerts s; sunTimes := v |}.

Notation "s |> f" := (f s) (at level 45, left associativity, only parsing).

(** *** fetchWeather: the mock snapshot *)

(** The credential as shipped: empty, the user has to add a key. *)
Definition OPENWEATHER_API_KEY : string := "".

(** [Array.from({ length: 12 }, (_, i) => ...)] *)
Definition mockHourly (now : Z) : list HourlyForecast :=
  map (fun i : nat =>
         {| time := (now + Z.of_nat i * 3600000)%Z;
            h_temp := (72 - Z.of_nat i)%Z;
            h_condition := clear;
            h_description := "clear sky";
            h_icon := if (i <? 6)%nat then "01d" else "01n";
            precipProbability := 10;
            h_precipitation := 0 |})
      (seq 0 12).

Definition mockWeather (now : Z) : WeatherData := {|
  current := {|
    temp := 72;
    feelsLike := 70;
    condition := clear;
    description := "clear sky";
    icon := "01d";
    precipitation := 0;
    humidity := 45;
    windSpeed := 8;
    uvIndex := 5;
    visibility := 10000 |};
  hourly := mockHourly now;
  lastUpdated := now;
  locationName := "New York" |}.

(** *** fetchWeather: the provider's JSON bodies *)

Record WeatherEntry := {
  w_id : Z;
  w_description : string;
  w_icon : string
}.

(** [data.current] of the One Call API. *)
Record OneCallCurrent := {
  oc_sunrise : option Z;
  oc_sunset : option Z;
  oc_temp : Q;                 (* Kelvin *)
  oc_feels_like : Q;
  oc_weather : list WeatherEntry;
  oc_rain_1h : option Q;
  oc_snow_1h : option Q;
  oc_humidity : Q;
  oc_wind_speed : Q;           (* m/s *)
  oc_uvi : option Q;
  oc_visibility : option Q
}.

Record OneCallHour := {
  hr_dt : Z;
  hr_temp : Q;
  hr_weather : list WeatherEntry;
  hr_pop : option Q;
  hr_rain_1h : option Q;
  hr_snow_1h : option Q
}.

Record OneCallBody := {
  data_current : OneCallCurrent;
  data_hourly : list OneCallHour;
  data_timezone : string
}.

(** The body of the basic current-weather API. *)
Record BasicBody := {
  main_temp : Q;
  main_feels_like : Q;
  main_humidity : Q;
  b_weather : list WeatherEntry;
  b_rain_1h : option Q;
  b_snow_1h : option Q;
  wind_speed : Q;
  b_visibility : option Q;
  b_name : string;
  sys_sunrise : option Z;
  sys_sunset : option Z
}.

(** [timezone.split('/').pop()]: what follows the last slash. *)
Fixpoint lastSegment (cur s : string) : string :=
  match s with
  | EmptyString => cur
  | String c t =>
      if Ascii.eqb c "/" then lastSegment EmptyString t
      else lastSegment (cur ++ String c EmptyString) t
  end.

(** [s.replace('_', ' ')]: the first underscore only. *)
Fixpoint replaceUnderscore (s : string) : string :=
  match s with
  | EmptyString => EmptyString
  | String c t =>
      if Ascii.eqb c "_" then String " " t
      else String c (replaceUnderscore t)
  end.

(** Evaluation of an object literal that reads [weather[0].id] and the
    like: [None] stands for the TypeError thrown when the array is
    empty. *)
Definition convertHour (h : OneCallHour) : option HourlyForecast :=
  match hr_weather h with
  | w0 :: _ =>
      Some {| time := (hr_dt h * 1000)%Z;
              h_temp := kelvinToFahrenheit (hr_temp h);
              h_condition := mapCondition (w_id w0);
              h_description := w_description w0;
              h_icon := w_icon w0;
              precipProbability := round (orQ (hr_pop h) 0 * 100)%Q;
              h_precipitation :=
                orQ (orOpt (hr_rain_1h h) (hr_snow_1h h)) 0 |}
  | [] => None
  end.

Fixpoint convertHours (l : list OneCallHour) : option (list HourlyForecast) :=
  match l with
  | [] => Some []
  | h :: t =>
      match convertHour h with
      | Some h' =>
          match convertHours t with
          | Some t' => Some (h' :: t')
          | None => None
          end
      | None => None
      end
  end.

Definition convertOneCall (now : Z) (data : OneCallBody)
  : option WeatherData :=
  let c := data_current data in
  match oc_weather c with
  | w0 :: _ =>
      match convertHours (slice0 12 (data_hourly data)) with
      | Some hourly =>
          Some {|
            current := {|
              temp := kelvinToFahrenheit (oc_temp c);
              feelsLike := kelvinToFahrenheit (oc_feels_like c);
              condition := mapCondition (w_id w0);
              description := w_description w0;
              icon := w_icon w0;
              precipitation := orQ (orOpt (oc_rain_1h c) (oc_snow_1h c)) 0;
              humidity := oc_humidity c;
              windSpeed := msToMph (oc_wind_speed c);
              uvIndex := orQ (oc_uvi c) 0;
              visibility := orQ (oc_visibility c) 10000 |};
            hourly := hourly;
            lastUpdated := now;
            locationName :=
              orString
                (Some (replaceUnderscore
                         (lastSegment EmptyString (data_timezone data))))
                "Unknown" |}
      | None => None
      end
  | [] => None
  end.

Definition convertBasic (now : Z) (currentData : BasicBody)
  : option WeatherData :=
  match b_weather currentData with
  | w0 :: _ =>
      Some {|
        current := {|
          temp := kelvinToFahrenheit (main_temp currentData);
          feelsLike := kelvinToFahrenheit (main_feels_like currentData);
          condition := mapCondition (w_id w0);
          description := w_description w0;
          icon := w_icon w0;
          precipitation :=
            orQ (orOpt (b_rain_1h currentData) (b_snow_1h currentData)) 0;
          humidity := main_humidity currentData;
          windSpeed := msToMph (wind_speed currentData);
          uvIndex := 0;
          visibility := orQ (b_visibility currentData) 10000 |};
        hourly := [];
        lastUpdated := now;
        locationName := b_name currentData |}
  | [] => None
  end.

(** [if (a && b) setSunTimes({ sunrise: a, sunset: b })] *)
Definition storeSunTimes (a b : option Z) (s : State) : State :=
  match truthyZ a, truthyZ b with
  | Some a, Some b => s |> setSunTimes {| sunrise := Some a; sunset := Some b |}
  | _, _ => s
  end.

(** *** fetchWeather *)

(** The [catch] block. *)
Definition fetchFailed (s : State) : State :=
  s |> setError (Some "Failed to fetch weather data").

(** [fetchWeather (lat, lng)] for a given credential, clock reading and
    provider answers: [oneCall] is the answer of the One Call request,
    [basic] the answer the free current-weather request gets when the
    first one is not [ok].  The coordinates only appear in the URLs. *)
Definition fetchWeather (apiKey : string) (now : Z)
  (oneCall : Response OneCallBody) (basic : Response BasicBody)
  (lat lng : Q) (s : State) : State :=
  if String.eqb apiKey "" then
    (* Use mock data if no API key *)
    let mockWeather := mockWeather now in
    s |> setWeather (Some mockWeather)
      |> setAlerts (generateAlerts now mockWeather)
  else
    let s := s |> setIsLoading true |> setError None in
    let s :=
      match oneCall with
      | Rejected => fetchFailed s
      | NotOk =>
          (* Fall back to free current weather API if One Call fails *)
          match basic with
          | Rejected | NotOk => fetchFailed s
          | Ok currentData =>
              match convertBasic now currentData with
              | Some weatherData =>
                  s |> setWeather (Some weatherData)
                    |> setAlerts (generateAlerts now weatherData)
                    |> storeSunTimes (sys_sunrise currentData)
                                     (sys_sunset currentData)
              | None => fetchFailed s
              end
          end
      | Ok data =>
          let s := s |> storeSunTimes (oc_sunrise (data_current data))
                                      (oc_sunset (data_current data)) in
          match convertOneCall now data with
          | Some weatherData =>
              s |> setWeather (Some weatherData)
                |> setAlerts (generateAlerts now weatherData)
          | None => fetchFailed s
          end
      end in
    s |> setIsLoading false.

(** *** getRouteWeatherTags *)

Definition getRouteWeatherTags (weather : option WeatherData) : list string :=
  match weather with
  | None => []
  | Some weather =>
      let current := current weather in
      let tags : list string := [] in
      let tags :=
        pushIf (WeatherCondition_eqb (condition current) rain
                || WeatherCondition_eqb (condition current) drizzle
                || WeatherCondition_eqb (condition current) snow)
          "☂️ Covered routes preferred" tags in
      let tags :=
        pushIf ((temp current >? 85)%Z || Qgtb (uvIndex current) 6)
          "🌳 Shaded routes preferred" tags in
      let tags :=
        pushIf (windSpeed current >? 15)%Z "🏠 Wind-protected" tags in
      let tags :=
        pushIf (WeatherCondition_eqb (condition current) clear
                && (temp current >=? 60)%Z && (temp current <=? 80)%Z)
          "☀️ Great walking weather" tags in
      let tags :=
        pushIf (WeatherCondition_eqb (condition current) fog
                || Qltb (visibility current) 2000)
          "🌫️ Low visibility" tags in
      tags
  end.

End WeatherContext.

(* ------------------------------------------------------------------ *)
(** ** RoutesList: getSmartRecommendation *)

Module RoutesList.

Import JS.
Import RouteContext.
Import WeatherContext.
Open Scope string_scope.
Open Scope Q_scope.

Inductive RoutePreference := safe | fast | comfy.

Definition prefMap (p : RoutePreference) : RouteType :=
  match p with
  | safe => safest
  | fast => fastest
  | comfy => comfortable
  end.

(** The running [score] and [reasons] of one route. *)
Record Tally := { score : Q; reasons : list string }.

Definition add (n : Q) (t : Tally) : Tally :=
  {| score := score t + n; reasons := reasons t |}.

Definition push (r : string) (t : Tally) : Tally :=
  {| score := score t; reasons := (reasons t ++ [r])%list |}.

(** [if (c) { body }] *)
Definition when (c : bool) (body : Tally -> Tally) (t : Tally) : Tally :=
  if c then body t else t.

Notation "t |> f" := (f t) (at level 45, left associativity, only parsing).

(** One element of [scoredRoutes]. *)
Record Scored := { route : RouteData; total : Tally }.

Record Recommendation := {
  routeId : string;
  routeType : RouteType;
  reason : string
}.

(** Which arm of the reason cascade fired. *)
Inductive Branch :=
| RainBranch | SnowBranch | HeatBranch | ColdBranch | WindBranch
| DarkBranch | LateNightBranch | RushHourBranch | WeekendBranch
| AlertBranch | PreferenceBranch | ClearWeatherBranch | BestOverallBranch.

Section Recommendation.

(** Everything the closure reads: the route list, the stored preference,
    the weather snapshot (or [null]), the alerts, the time context and
    [new Date().getMonth()]. *)
Variable routes : list RouteData.
Variable routePreference : RoutePreference.
Variable weather : option WeatherData.
Variable alerts : list WeatherAlert.
Variable timeContext : TimeContext.
Variable month : Z.

(** [weather?.current.condition === c] *)
Definition conditionIs (c : WeatherCondition) : bool :=
  match weather with
  | Some w => WeatherCondition_eqb (condition (current w)) c
  | None => false
  end.

Definition isDark : bool := WeatherContext.isDark timeContext.
Definition isRushHour : bool := WeatherContext.isRushHour timeContext.
Definition isWeekend : bool := WeatherContext.isWeekend timeContext.
Definition currentTimeOfDay : TimeOfDay := timeOfDay timeContext.

Definition isRaining : bool :=
  conditionIs rain || conditionIs drizzle || conditionIs thunderstorm.
Definition isSnowing : bool := conditionIs snow.
Definition isHotWeather : bool :=
  match weather with
  | Some w => (temp (current w) >? 85)%Z
  | None => ((month >=? 5) && (month <=? 8))%Z
  end.
Definition isColdWeather : bool :=
  match weather with
  | Some w => (temp (current w) <? 40)%Z
  | None => false
  end.
Definition isWindy : bool :=
  match weather with
  | Some w => (windSpeed (current w) >? 15)%Z
  | None => false
  end.
Definition hasWeatherAlerts : bool := (0 <? List.length alerts)%nat.
Definition isMidDay : bool := TimeOfDay_eqb currentTimeOfDay midday.
Definition isLateNight : bool := TimeOfDay_eqb currentTimeOfDay late_night.

(** [isMidDay && weather && weather.current.temp > 75] *)
Definition middaySun : bool :=
  isMidDay &&
  match weather with
  | Some w => (temp (current w) >? 75)%Z
  | None => false
  end.

(** *** The scoring blocks, in source order *)

(** User preference weight (base score). *)
Definition preferenceBlock (route : RouteData) (t : Tally) : Tally :=
  t |> when (RouteType_eqb (type route) (prefMap routePreference))
         (fun t => t |> add 30 |> push "matches your preference").

(** Rain/Snow. *)
Definition rainSnowBlock (route : RouteData) (t : Tally) : Tally :=
  t |> when (isRaining || isSnowing)
         (fun t =>
            t |> add (inject_Z (restSpotCount (comfort route)) * 10)
              |> when (restSpotCount (comfort route) >=? 2)%Z
                   (push "has shelter spots")
              |> when (SidewalkCoverage_eqb
                         (sidewalkCoverage (safety route)) continuous)
                   (fun t => t |> add 20 |> push "continuous sidewalks")
              |> when (RouteType_eqb (type route) fastest)
                   (add (-15))).

(** Hot weather.  [shadePercent || 0] is [shadePercent] itself on
    integers. *)
Definition hotBlock (route : RouteData) (t : Tally) : Tally :=
  t |> when isHotWeather
         (fun t =>
            let shadeScore := shadePercent (comfort route) in
            t |> add (inject_Z shadeScore * 0.4)
              |> when (shadeScore >=? 60)%Z (push "good shade coverage")
              |> when (restSpotCount (comfort route) >=? 2)%Z
                   (fun t => t |> add 20 |> push "rest stops available")
              |> when (RouteType_eqb (type route) comfortable
                       || RouteType_eqb (type route) scenic)
                   (add 15)).

(** Cold weather. *)
Definition coldBlock (route : RouteData) (t : Tally) : Tally :=
  t |> when isColdWeather
         (fun t =>
            t |> when (RouteType_eqb (type route) fastest)
                   (fun t => t |> add 25 |> push "shorter exposure time")
              |> when (RouteType_eqb (type route) scenic) (add (-10))).

(** Windy. *)
Definition windBlock (route : RouteData) (t : Tally) : Tally :=
  t |> when isWindy
         (fun t =>
            t |> when (RouteType_eqb (type route) comfortable)
                   (fun t => t |> add 15 |> push "wind-protected")
              |> when (RouteType_eqb (type route) scenic) (add (-10))).

(** Dark hours. *)
Definition darkBlock (route : RouteData) (t : Tally) : Tally :=
  t |> when isDark
         (fun t =>
            let t :=
              match lightingLevel (safety route) with
              | well_lit => t |> add 45 |> push "well-lit for dark hours"
              | mixed => t |> add 10
              | dark => t |> add (-20)
              end in
            t |> when (nightFriendly route)
                   (fun t => t |> add 30 |> push "night-friendly")).

(** Late night (1-5 AM). *)
Definition lateNightBlock (route : RouteData) (t : Tally) : Tally :=
  t |> when isLateNight
         (fun t =>
            t |> when (RouteType_eqb (type route) safest)
                   (fun t => t |> add 35 |> push "safest for late night")
              |> when (RouteType_eqb (type route) scenic) (add (-25))).

(** Rush hour. *)
Definition rushHourBlock (route : RouteData) (t : Tally) : Tally :=
  t |> when isRushHour
         (fun t =>
            t |> when (SidewalkCoverage_eqb
                         (sidewalkCoverage (safety route)) continuous)
                   (fun t => t |> add 20
                               |> push "wide sidewalks for rush hour")
              |> when (crossingCount (safety route) >? 4)%Z (add (-10))).

(** Midday sun. *)
Definition middayBlock (route : RouteData) (t : Tally) : Tally :=
  t |> when middaySun
         (fun t =>
            t |> add (inject_Z (shadePercent (comfort route)) * 0.3)
              |> when (shadePercent (comfort route) >=? 60)%Z
                   (push "shaded for midday sun")).

(** Weekend. *)
Definition weekendBlock (route : RouteData) (t : Tally) : Tally :=
  t |> when (isWeekend && negb isDark && negb isRaining
             && negb isColdWeather)
         (when (RouteType_eqb (type route) scenic
                || RouteType_eqb (type route) comfortable)
            (fun t => t |> add 15 |> push "nice for weekend stroll")).

(** Safety bonuses (always apply). *)
Definition safetyBlock (route : RouteData) (t : Tally) : Tally :=
  t |> when (SidewalkCoverage_eqb
               (sidewalkCoverage (safety route)) continuous)
         (add 15)
    |> when (crossingCount (safety route) <=? 3)%Z
         (fun t => t |> add 10 |> push "fewer crossings").

(** [routes.reduce((a, r) => a + r.duration, 0) / routes.length] *)
Definition avgDuration : Q :=
  fold_left (fun a r => a + duration r) routes 0
  / inject_Z (Z.of_nat (List.length routes)).

(** Slight penalty for very long routes. *)
Definition lengthBlock (route : RouteData) (t : Tally) : Tally :=
  t |> when (Qgtb (duration route) (avgDuration * 1.3)) (add (-10)).

(** The callback of [routes.map]. *)
Definition scoreRoute (route : RouteData) : Scored :=
  let t := {| score := 0; reasons := [] |} in
  let t := t |> preferenceBlock route
             |> rainSnowBlock route
             |> hotBlock route
             |> coldBlock route
             |> windBlock route
             |> darkBlock route
             |> lateNightBlock route
             |> rushHourBlock route
             |> middayBlock route
             |> weekendBlock route
             |> safetyBlock route
             |> lengthBlock route in
  {| route := route; total := t |}.

(** [scoredRoutes.sort((a, b) => b.score - a.score)] *)
Definition byScore (a b : Scored) : Q := score (total b) - score (total a).

Definition scoredRoutes : list Scored := sort byScore (map scoreRoute routes).

(** *** The reason cascade *)

Definition idealClearWeather : bool :=
  match weather with
  | Some w => WeatherCondition_eqb (condition (current w)) clear
              && (temp (current w) >=? 60)%Z && (temp (current w) <=? 80)%Z
  | None => false
  end.

Definition reasonBranch (best : Scored) : Branch :=
  let has := includes (reasons (total best)) in
  if isRaining then RainBranch
  else if isSnowing then SnowBranch
  else if isHotWeather && has "good shade coverage" then HeatBranch
  else if isColdWeather && has "shorter exposure time" then ColdBranch
  else if isWindy && has "wind-protected" then WindBranch
  else if isDark && has "well-lit for dark hours" then DarkBranch
  else if isLateNight && has "safest for late night" then LateNightBranch
  else if isRushHour && has "wide sidewalks for rush hour"
       then RushHourBranch
  else if isWeekend && has "nice for weekend stroll" then WeekendBranch
  else if hasWeatherAlerts then AlertBranch
  else if has "matches your preference" then PreferenceBranch
  else if idealClearWeather then ClearWeatherBranch
  else BestOverallBranch.

(** [`${weather?.current.temp}`] *)
Definition tempText : string :=
  match weather with
  | Some w => showZ (temp (current w))
  | None => "undefined"
  end.

(** [alerts[0].title]; only read when [alerts] is not empty. *)
Definition topAlertTitle : string :=
  match alerts with
  | a :: _ => title a
  | [] => ""
  end.

Definition reasonText (b : Branch) : string :=
  match b with
  | RainBranch => "🌧️ Best for rainy weather"
  | SnowBranch => "❄️ Safest in snow"
  | HeatBranch => "☀️ Best for " ++ tempText ++ "°F heat"
  | ColdBranch => "🥶 Quickest in " ++ tempText ++ "°F cold"
  | WindBranch => "💨 Wind-protected route"
  | DarkBranch => "🌙 Best for " ++ displayTime timeContext ++ " walk"
  | LateNightBranch => "🌙 Safest for late night"
  | RushHourBranch => "🚶 Best for rush hour"
  | WeekendBranch => "🌳 Great for weekend walk"
  | AlertBranch => "⚠️ " ++ topAlertTitle
  | PreferenceBranch => "★ Recommended for you"
  | ClearWeatherBranch => "☀️ Great walking weather"
  | BestOverallBranch => "★ Best overall"
  end.

(** [scoredRoutes[0]] *)
Definition best : option Scored := hd_error scoredRoutes.

Definition getSmartRecommendation : option Recommendation :=
  if (List.length routes =? 0)%nat then None
  else
    match best with
    | Some best =>
        Some {| routeId := id (route best);
                routeType := type (route best);
                reason := reasonText (reasonBranch best) |}
    | None => None
    end.

End Recommendation.

(** *** The route cards *)

Definition formatDuration (seconds : Q) : string :=
  let mins := round (seconds / 60) in
  if (mins <? 60)%Z then showZ mins ++ " min"
  else
    let hours := (mins / 60)%Z in
    let remainMins := (mins mod 60)%Z in
    showZ hours ++ "h " ++ showZ remainMins ++ "m".

(** [smartRecommendation?.routeId === route.id] *)
Definition isRecommended (smartRecommendation : option Recommendation)
  (route : RouteData) : bool :=
  match smartRecommendation with
  | Some rec => String.eqb (routeId rec) (id route)
  | None => false
  end.

(** The comparator of the card list: put the recommended route first. *)
Definition recommendedFirst (smartRecommendation : option Recommendation)
  (a b : RouteData) : Q :=
  if isRecommended smartRecommendation a then -1
  else if isRecommended smartRecommendation b then 1
  else 0.

(** [[...routes].sort(...)]: the order in which the cards are shown. *)
Definition cardOrder (smartRecommendation : option Recommendation)
  (routes : list RouteData) : list RouteData :=
  sort (recommendedFirst smartRecommendation) routes.

End RoutesList.

(* ------------------------------------------------------------------ *)
(** ** App: pages and route selection *)

Module App.

Import RouteContext.

Inductive PageType := list | preview | steps | navigation.

(** The page shown and the route provider's state the handlers act on. *)
Record State := {
  currentPage : PageType;
  route : RouteContext.State
}.

Definition initialState : State :=
  {| currentPage := list; route := RouteContext.initialState |}.

Definition setCurrentPage (p : PageType) (s : State) : State :=
  {| currentPage := p; route := route s |}.

Definition handleRouteSelect (routeType : RouteType) (s : State) : State :=
  match find (fun r => RouteType_eqb (type r) routeType)
          (routes (route s)) with
  | Some r => {| currentPage := preview; route := selectRoute r (route s) |}
  | None => s
  end.

Definition handleBack (s : State) : State :=
  match currentPage s with
  | navigation => setCurrentPage steps s
  | steps => setCurrentPage preview s
  | preview => setCurrentPage list s
  | list => s
  end.

Definition handleStepByStep (s : State) : State := setCurrentPage steps s.

Definition handleStartNavigation (s : State) : State :=
  setCurrentPage navigation s.

(** The [onClick] of a route card: [onRouteSelect(route.type)]. *)
Definition clickCard (card : RouteData) (s : State) : State :=
  handleRouteSelect (type card) s.

End App.

(* ------------------------------------------------------------------ *)
(** ** WeatherBanner: the colours of the banner *)

Module WeatherBanner.

Import WeatherContext.
Open Scope string_scope.

(** [alerts[0]?.severity] *)
Definition topSeverity (alerts : list WeatherAlert) : option Severity :=
  match alerts with
  | topAlert :: _ => Some (severity topAlert)
  | [] => None
  end.

Definition getBgColor (weather : WeatherData) (alerts : list WeatherAlert)
  : string :=
  match topSeverity alerts with
  | Some red => "bg-red-50"
  | Some orange => "bg-orange-50"
  | Some yellow => "bg-amber-50"
  | None =>
      match condition (current weather) with
      | rain | drizzle => "bg-blue-50"
      | snow => "bg-slate-100"
      | thunderstorm => "bg-purple-50"
      | _ => "bg-emerald-50"
      end
  end.

Definition getTextColor (weather : WeatherData) (alerts : list WeatherAlert)
  : string :=
  match topSeverity alerts with
  | Some red => "text-red-700"
  | Some orange => "text-orange-700"
  | Some yellow => "text-amber-700"
  | None =>
      match condition (current weather) with
      | rain | drizzle => "text-blue-700"
      | snow => "text-slate-700"
      | thunderstorm => "text-purple-700"
      | _ => "text-emerald-700"
      end
  end.

End WeatherBanner.

(* ------------------------------------------------------------------ *)
(** ** StepByStep: the comfort notes of a step *)

Module StepByStep.

Import RouteContext.
Open Scope string_scope.

Definition pushIf {A} (c : bool) (x : A) (l : list A) : list A :=
  if c then (l ++ [x])%list else l.

Definition getComfortDescription (step : RouteStep) : list string :=
  let tags : list string := [] in
  match step_comfort step with
  | Some comfort =>
      (* Lighting *)
      let tags :=
        match step_lighting comfort with
        | well_lit => (tags ++ ["Well lit street"])%list
        | dark => (tags ++ ["Some darker areas"])%list
        | mixed => tags
        end in
      (* Shade *)
      let tags := pushIf (step_shade comfort) "Shaded path" tags in
      (* Terrain *)
      let tags :=
        match terrain comfort with
        | terrain_steep => (tags ++ ["Steep hill ahead"])%list
        | slight_incline => (tags ++ ["Gentle slope"])%list
        | terrain_flat => tags
        end in
      (* Crossing *)
      let tags :=
        match crossing comfort with
        | Some signal => (tags ++ ["Signalized crossing"])%list
        | Some busy_road => (tags ++ ["Busy road crossing"])%list
        | Some crosswalk | None => tags
        end in
      (* Rest spot *)
      let tags :=
        match restSpot comfort with
        | Some cafe => (tags ++ ["Café nearby"])%list
        | Some bench => (tags ++ ["Bench available"])%list
        | Some park => (tags ++ ["Park rest area"])%list
        | None => tags
        end in
      tags
  | None => tags
  end.

End StepByStep.

(* ------------------------------------------------------------------ *)
(** ** Navigation: the current step and what remains *)

Module Navigation.

Import JS RouteContext.

(** The effect that runs when the user's location changes, for the
    distance [dist] to the current step's maneuver: advance when closer
    than 20 m and not on the last step. *)
Definition autoAdvance (steps : list RouteStep) (dist : Q)
  (currentStepIndex : nat) : nat :=
  match nth_error steps currentStepIndex with
  | Some step =>
      if Qltb dist 20 && (currentStepIndex <? List.length steps - 1)%nat
      then (currentStepIndex + 1)%nat
      else currentStepIndex
  | None => currentStepIndex
  end.

(** [steps.slice(currentStepIndex)] *)
Definition remainingSteps (steps : list RouteStep) (currentStepIndex : nat)
  : list RouteStep :=
  skipn currentStepIndex steps.

Definition remainingDistance (steps : list RouteStep)
  (currentStepIndex : nat) : Q :=
  fold_left (fun acc step => acc + step_distance step)
    (remainingSteps steps currentStepIndex) 0.

Definition remainingTime (steps : list RouteStep) (currentStepIndex : nat)
  : Q :=
  fold_left (fun acc step => acc + step_duration step)
    (remainingSteps steps currentStepIndex) 0.

End Navigation.

(* ------------------------------------------------------------------ *)
(** ** Vocabulary of the statements *)

Import JS.

Section Ordering.

Variable A : Type.
Variable key : A -> Q.

(** The comparator of a descending sort on [key]. *)
Definition descending (a b : A) : Q := key b - key a.

(** [a] may stand before [b] in a descending list. *)
Definition notBelow (a b : A) : Prop := key b <= key a.

(** Elements whose key equals [v]. *)
Definition keyIs (v : Q) (x : A) : bool := Qeq_bool (key x) v.

(** [b] is the earliest element of [l] with the largest key. *)
Definition firstMax (l : list A) (b : A) : Prop :=
  exists l1 l2,
    l = (l1 ++ b :: l2)%list
    /\ Forall (fun x => key x < key b) l1
    /\ Forall (fun x => key x <= key b) l2.

End Ordering.

Import RouteContext WeatherContext RoutesList.

(** The total score [getSmartRecommendation] gives a route. *)
Definition routeScore (routes : list RouteData) (pref : RoutePreference)
  (weather : option WeatherData) (tc : TimeContext) (month : Z)
  (r : RouteData) : Q :=
  score (total (scoreRoute routes pref weather tc month r)).

(** What one scoring block adds to a fresh tally. *)
Definition contribution (block : RouteData -> Tally -> Tally)
  (r : RouteData) : Q :=
  score (block r {| score := 0; reasons := [] |}).

(** The tags one scoring block pushes on a fresh tally. *)
Definition tagsOf (block : RouteData -> Tally -> Tally) (r : RouteData)
  : list string :=
  reasons (block r {| score := 0; reasons := [] |}).

(** The same route with another lighting level and night-friendly flag. *)
Definition withLighting (l : Lighting) (nf : bool) (r : RouteData)
  : RouteData :=
  {| id := id r; type := type r; RouteContext.title := RouteContext.title r;
     distance := distance r; duration := duration r;
     geometry := geometry r; steps := steps r; tags := tags r;
     nightFriendly := nf;
     safety := {|
       lighting := lighting (safety r);
       lightingLevel := l;
       crossings := crossings (safety r);
       crossingCount := crossingCount (safety r);
       sidewalks := sidewalks (safety r);
       sidewalkCoverage := sidewalkCoverage (safety r);
       busyRoads := busyRoads (safety r) |};
     comfort := comfort r |}.

(** The contextual condition of each arm of the reason cascade. *)
Definition branchCondition (weather : option WeatherData)
  (alerts : list WeatherAlert) (tc : TimeContext) (month : Z)
  (b : Branch) : bool :=
  match b with
  | RainBranch => isRaining weather
  | SnowBranch => isSnowing weather
  | HeatBranch => isHotWeather weather month
  | ColdBranch => isColdWeather weather
  | WindBranch => isWindy weather
  | DarkBranch => RoutesList.isDark tc
  | LateNightBranch => isLateNight tc
  | RushHourBranch => RoutesList.isRushHour tc
  | WeekendBranch => RoutesList.isWeekend tc
  | AlertBranch => hasWeatherAlerts alerts
  | PreferenceBranch => true
  | ClearWeatherBranch => idealClearWeather weather
  | BestOverallBranch => true
  end.

(** The reason tag an arm of the cascade looks for, if it looks for one. *)
Definition branchTag (b : Branch) : option string :=
  match b with
  | HeatBranch => Some "good shade coverage"
  | ColdBranch => Some "shorter exposure time"
  | WindBranch => Some "wind-protected"
  | DarkBranch => Some "well-lit for dark hours"
  | LateNightBranch => Some "safest for late night"
  | RushHourBranch => Some "wide sidewalks for rush hour"
  | WeekendBranch => Some "nice for weekend stroll"
  | PreferenceBranch => Some "matches your preference"
  | RainBranch | SnowBranch | AlertBranch | ClearWeatherBranch
  | BestOverallBranch => None
  end%string.

(** The tags the rain/snow block can push. *)
Definition shelterTags : list string :=
  ["has shelter spots"; "continuous sidewalks"]%string.

(** The order of the cascade, top down. *)
Definition cascade : list Branch :=
  [RainBranch; SnowBranch; HeatBranch; ColdBranch; WindBranch; DarkBranch;
   LateNightBranch; RushHourBranch; WeekendBranch; AlertBranch;
   PreferenceBranch; ClearWeatherBranch; BestOverallBranch].

(** An arm fires when its condition holds and, where it looks for a tag,
    the winning route's reasons include it. *)
Definition fires (weather : option WeatherData) (alerts : list WeatherAlert)
  (tc : TimeContext) (month : Z) (best : Scored) (b : Branch) : bool :=
  branchCondition weather alerts tc month b
  && match branchTag b with
     | Some tag => includes (reasons (total best)) tag
     | None => true
     end.

(** *** The scoring rules as the specification words them *)

Module Spec.

Section Rules.

Variable routes : list RouteData.
Variable pref : RoutePreference.
Variable tc : TimeContext.
Variable r : RouteData.

Definition bonus (c : bool) (n : Q) : Q := if c then n else 0.

Definition continuousSidewalks : bool :=
  SidewalkCoverage_eqb (sidewalkCoverage (safety r)) continuous.

Definition typeIs (t : RouteType) : bool := RouteType_eqb (type r) t.

(** 1. Base preference match: +30 if the type equals the mapped
    preference. *)
Definition basePreference : Q := bonus (typeIs (prefMap pref)) 30.

(** 3. Dark: +45 well-lit, +10 mixed, -20 dark; +30 if night-friendly. *)
Definition darkRule : Q :=
  if WeatherContext.isDark tc then
    match lightingLevel (safety r) with
    | well_lit => 45
    | mixed => 10
    | dark => -20
    end + bonus (nightFriendly r) 30
  else 0.

(** 3. Late-night band: +35 safest, -25 scenic. *)
Definition lateNightRule : Q :=
  if TimeOfDay_eqb (timeOfDay tc) late_night then
    bonus (typeIs safest) 35 + bonus (typeIs scenic) (-25)
  else 0.

(** 3. Rush hour: +20 continuous sidewalks, -10 if more than 4
    crossings. *)
Definition rushHourRule : Q :=
  if WeatherContext.isRushHour tc then
    bonus continuousSidewalks 20
    + bonus (crossingCount (safety r) >? 4)%Z (-10)
  else 0.

(** 3. Weekend and not dark (no snapshot: neither raining nor cold):
    +15 scenic or comfortable.  The midday-shade rule needs a snapshot
    and adds nothing without one. *)
Definition weekendRule : Q :=
  if WeatherContext.isWeekend tc && negb (WeatherContext.isDark tc) then
    bonus (typeIs scenic || typeIs comfortable) 15
  else 0.

Definition timeRules : Q :=
  darkRule + lateNightRule + rushHourRule + weekendRule.

(** 4. Context-free bonuses: +15 continuous sidewalks, +10 if at most 3
    crossings. *)
Definition contextFree : Q :=
  bonus continuousSidewalks 15 + bonus (crossingCount (safety r) <=? 3)%Z 10.

(** 5. Length penalty: -10 if the duration exceeds 1.3 times the mean. *)
Definition lengthPenalty : Q :=
  bonus (Qgtb (duration r) (avgDuration routes * 1.3)) (-10).

(** The score of a route when no weather snapshot is present, as the
    specification has it. *)
Definition scoreWithoutWeather : Q :=
  basePreference + timeRules + contextFree + lengthPenalty.

End Rules.

End Spec.

(** The hot-weather block as it runs without a snapshot: in the months
    June to September ([getMonth] 5 to 8). *)
Definition seasonalHeat (month : Z) (r : RouteData) : Q :=
  if ((month >=? 5) && (month <=? 8))%Z then
    inject_Z (shadePercent (comfort r)) * 0.4
    + Spec.bonus (restSpotCount (comfort r) >=? 2)%Z 20
    + Spec.bonus (RouteType_eqb (type r) comfortable
                  || RouteType_eqb (type r) scenic) 15
  else 0.

(** *** Characterization and weather fetch *)

(** The number of maneuvers of kind "turn" or "end of road" in a step
    list, counted one step at a time. *)
Fixpoint turnsAndEnds (steps : list RawStep) : Z :=
  match steps with
  | [] => 0
  | s :: rest =>
      let kind := raw_type (raw_maneuver s) in
      (if String.eqb kind "turn" then 1
       else if String.eqb kind "end of road" then 1
       else 0) + turnsAndEnds rest
  end%Z.

(** The crossing count each route type reports for [n] such maneuvers. *)
Definition reportedCrossings (t : RouteType) (n : Z) : Z :=
  match t with
  | fastest | comfortable => n
  | safest => Z.max 1 (n - 1)
  | scenic => n + 1
  end%Z.

(** The live weather fetch ends in the [catch] block: a request is
    rejected, both requests are refused, or the body cannot be read. *)
Definition liveFetchFails (now : Z) (oneCall : Response OneCallBody)
  (basic : Response BasicBody) : bool :=
  match oneCall with
  | Rejected => true
  | NotOk =>
      match basic with
      | Rejected | NotOk => true
      | Ok currentData =>
          match convertBasic now currentData with
          | Some _ => false
          | None => true
          end
      end
  | Ok data =>
      match convertOneCall now data with
      | Some _ => false
      | None => true
      end
  end.

(** The lengths and times of a route's steps, added up. *)
Definition stepsDistance (r : RouteData) : Q :=
  fold_right Qplus 0 (map step_distance (steps r)).

Definition stepsDuration (r : RouteData) : Q :=
  fold_right Qplus 0 (map step_duration (steps r)).

(** *** Alerts and snapshots *)

(** The titles of the alert rules, in evaluation order. *)
Definition alertOrder : list string :=
  ["Rain Expected"; "Thunderstorm Warning"; "Heat Advisory"; "Cold Weather";
   "Windy Conditions"; "Low Visibility"; "Currently Raining"; "Snow"]%string.

(** [l] is [m] with some elements left out, the order kept. *)
Inductive subsequence {A : Type} : list A -> list A -> Prop :=
| subsequence_nil : subsequence [] []
| subsequence_skip (x : A) (l m : list A) :
    subsequence l m -> subsequence l (x :: m)
| subsequence_take (x : A) (l m : list A) :
    subsequence l m -> subsequence (x :: l) (x :: m).

(** The first two forecast points announce rain. *)
Definition rainAhead (data : WeatherData) : bool :=
  existsb rainLikely (slice0 2 (hourly data)).

(** The stored alerts are those of the stored snapshot. *)
Definition alertsMatch (s : WeatherContext.State) : Prop :=
  match weather s with
  | None => alerts s = []
  | Some w => exists now, alerts s = generateAlerts now w
  end.

(** No condition of a snapshot, current or forecast, is [mist]. *)
Definition mistFree (w : WeatherData) : Prop :=
  condition (current w) <> mist
  /\ Forall (fun h => h_condition h <> mist) (hourly w).

(** *** Sample inputs *)

Module Sample.

Open Scope string_scope.

Definition sampleStep (kind instruction : string) (span : Q) : RawStep := {|
  raw_maneuver := {|
    raw_type := kind;
    raw_modifier := None;
    raw_location := (-73.9965, 40.7295)%Q;
    raw_instruction := instruction |};
  raw_step_distance := span;
  raw_step_duration := span |}.

(** One alternative from the Routing Provider: 1000 m walked in 1000 s,
    with four maneuvers that count as crossings. *)
Definition rawWalk : RawRoute := {|
  legs := [ {| raw_steps := [
    sampleStep "depart" "Head south" 200;
    sampleStep "turn" "Turn left onto Broadway" 200;
    sampleStep "turn" "Turn right onto Canal Street" 200;
    sampleStep "end of road" "Turn left onto Bowery" 200;
    sampleStep "turn" "Turn right onto Jay Street" 200;
    sampleStep "arrive" "You have arrived" 0 ] |} ];
  raw_distance := 1000;
  raw_duration := 1000;
  raw_geometry := [(-73.9965, 40.7295)%Q; (-73.9857, 40.6944)%Q] |}.

(** Its transformation: the route ["route-0"], of type fastest. *)
Definition base : RouteData := transformRoute rawWalk 0.

(** The route set [fetchRoutes] stores when [rawWalk] is the only
    alternative. *)
Definition routes : list RouteData := ensureThree 3 (mapi transformRoute [rawWalk]).

Definition weekdayMorning : TimeContext := {|
  hour := 10; minute := 0; timeOfDay := morning;
  WeatherContext.isDark := false; WeatherContext.isRushHour := false;
  WeatherContext.isWeekend := false;
  displayTime := "10:00 AM"; sunriseTime := None; sunsetTime := None |}.

Definition weekdayNight : TimeContext := {|
  hour := 22; minute := 0; timeOfDay := night;
  WeatherContext.isDark := true; WeatherContext.isRushHour := false;
  WeatherContext.isWeekend := false;
  displayTime := "10:00 PM"; sunriseTime := None; sunsetTime := None |}.

(** A rainy snapshot at 50 degrees. *)
Definition rainy : WeatherData := {|
  current := {|
    temp := 50; feelsLike := 48; condition := rain;
    description := "light rain"; icon := "10d";
    precipitation := 1; humidity := 80; windSpeed := 5;
    uvIndex := 1; visibility := 8000 |};
  hourly := [];
  lastUpdated := 0;
  locationName := "New York" |}.

Definition washingtonSquare : Location := {|
  name := "Washington Square Park";
  address := "Washington Square, New York, NY 10012";
  coordinates := {| lng := -73.9965; lat := 40.7295 |} |}.

(** A Wednesday noon in January, and a clock rendering for it. *)
Definition noon : Clock := {|
  getHours := 12; getMinutes := 0; getDay := 3; getMonth := 0;
  getTime := 1768392000000 |}.

Definition noonText (instant : Z) : string := "12:00 PM".

(** The route provider's state once an origin has been chosen. *)
Definition ready : RouteContext.State :=
  RouteContext.initialState |> RouteContext.setOrigin (Some washingtonSquare).

(** A straight-line distance of 1400 m whatever the end points. *)
Definition flat1400 (a b : Coordinates) : Q := 1400.

(** The state after the sample path was fetched, and the app on its
    list page. *)
Definition fetched : RouteContext.State :=
  fetchRoutes flat1400 None (Ok {| data_routes := Some [rawWalk] |}) ready.

Definition app : App.State :=
  {| App.currentPage := App.list; App.route := fetched |}.

End Sample.

(* ================================================================== *)
(** * Properties *)

(** ** The sort: permutation, order, stability, first maximum *)

Section SortFacts.

Variable A : Type.
Variable key : A -> Q.

Abbreviation descending := (descending key).
Abbreviation notBelow := (notBelow key).
Abbreviation keyIs := (keyIs key).
Abbreviation firstMax := (firstMax key).

Lemma descending_le (x y : A) :
  Qle_bool (descending x y) 0 = true <-> key y <= key x.
Proof.
  unfold descending. rewrite Qle_bool_iff. split; intro H; lra.
Qed.

Lemma descending_gt (x y : A) :
  Qle_bool (descending x y) 0 = false -> key x < key y.
Proof.
  intro H. destruct (Qlt_le_dec (key x) (key y)) as [Hlt | Hle]; trivial.
  apply descending_le in Hle. congruence.
Qed.

Lemma insert_perm (x : A) (l : list A) :
  Permutation (insert descending x l) (x :: l).
Proof.
  induction l as [| y t IH]; simpl.
  - apply Permutation_refl.
  - destruct (Qle_bool (descending x y) 0).
    + apply Permutation_refl.
    + eapply perm_trans; [apply perm_skip, IH | apply perm_swap].
Qed.

Lemma sort_perm (l : list A) : Permutation (sort descending l) l.
Proof.
  induction l as [| x t IH]; simpl.
  - constructor.
  - eapply perm_trans; [apply insert_perm | apply perm_skip, IH].
Qed.

Lemma insert_sorted (x : A) (l : list A) :
  StronglySorted notBelow l -> StronglySorted notBelow (insert descending x l).
Proof.
  induction 1 as [| y t Hs IH Hall]; simpl.
  - repeat constructor.
  - destruct (Qle_bool (descending x y) 0) eqn:E.
    + apply descending_le in E. constructor.
      * constructor; assumption.
      * constructor; [exact E |].
        eapply Forall_impl; [| exact Hall].
        unfold notBelow. intros z Hz. lra.
    + apply descending_gt in E. constructor; [exact IH |].
      eapply Permutation_Forall.
      * apply Permutation_sym, insert_perm.
      * constructor; [unfold notBelow; lra | exact Hall].
Qed.

Lemma sort_sorted (l : list A) : StronglySorted notBelow (sort descending l).
Proof.
  induction l as [| x t IH]; simpl.
  - constructor.
  - apply insert_sorted, IH.
Qed.

Lemma insert_filter (v : Q) (x : A) (l : list A) :
  filter (keyIs v) (insert descending x l) = filter (keyIs v) (x :: l).
Proof.
  induction l as [| y t IH]; [reflexivity |].
  simpl insert. destruct (Qle_bool (descending x y) 0) eqn:E; [reflexivity |].
  apply descending_gt in E.
  change (filter (keyIs v) (y :: insert descending x t))
    with (if keyIs v y then y :: filter (keyIs v) (insert descending x t)
          else filter (keyIs v) (insert descending x t)).
  rewrite IH. simpl. unfold keyIs.
  destruct (Qeq_bool (key y) v) eqn:Ey, (Qeq_bool (key x) v) eqn:Ex;
    try reflexivity.
  apply Qeq_bool_iff in Ey, Ex. rewrite Ey, Ex in E.
  exfalso. exact (Qlt_irrefl _ E).
Qed.

Lemma sort_stable (v : Q) (l : list A) :
  filter (keyIs v) (sort descending l) = filter (keyIs v) l.
Proof.
  induction l as [| x t IH]; [reflexivity |].
  simpl sort. rewrite insert_filter. simpl. now rewrite IH.
Qed.

Lemma hd_insert (x : A) (l : list A) :
  hd_error (insert descending x l) =
  match hd_error l with
  | Some y => if Qle_bool (descending x y) 0 then Some x else Some y
  | None => Some x
  end.
Proof.
  destruct l as [| y t]; simpl; [reflexivity |].
  now destruct (Qle_bool (descending x y) 0).
Qed.

Lemma sort_hd_firstMax (l : list A) (b : A) :
  hd_error (sort descending l) = Some b -> firstMax l b.
Proof.
  revert b. induction l as [| x t IH]; intros b; simpl.
  - discriminate.
  - rewrite hd_insert. destruct (hd_error (sort descending t)) as [y |] eqn:E.
    + destruct (IH y eq_refl) as (l1 & l2 & -> & H1 & H2).
      destruct (Qle_bool (descending x y) 0) eqn:C; intros [= <-].
      * apply descending_le in C.
        exists [], (l1 ++ y :: l2)%list. repeat split; [constructor |].
        apply Forall_app. split.
        -- eapply Forall_impl; [| exact H1]. simpl. intros z Hz. lra.
        -- constructor; [exact C |].
           eapply Forall_impl; [| exact H2]. simpl. intros z Hz. lra.
      * apply descending_gt in C.
        exists (x :: l1), l2. repeat split; trivial.
        constructor; assumption.
    + intros [= <-]. destruct t as [| z t'].
      * exists [], []. repeat split; constructor.
      * exfalso. simpl in E. rewrite hd_insert in E.
        destruct (hd_error (sort descending t'));
          [destruct (Qle_bool _ _) |]; discriminate.
Qed.

Lemma sort_hd_some (l : list A) :
  l <> [] -> exists b, hd_error (sort descending l) = Some b.
Proof.
  destruct l as [| x t]; [congruence |]. intros _. simpl.
  rewrite hd_insert. destruct (hd_error (sort descending t)) as [y |].
  - destruct (Qle_bool _ _); eauto.
  - eauto.
Qed.

End SortFacts.

(** ** The score is the sum of what the blocks add *)

Ltac split_ifs :=
  repeat match goal with
         | |- context [if ?c then _ else _] => destruct c
         | |- context [match lightingLevel ?s with _ => _ end] =>
             destruct (lightingLevel s)
         end.

Ltac block_additive :=
  intros; unfold contribution, when, add, push; cbn [score reasons];
  split_ifs; cbn [score reasons]; ring.

Section BlockFacts.

Variable routes : list RouteData.
Variable pref : RoutePreference.
Variable weather : option WeatherData.
Variable tc : TimeContext.
Variable month : Z.

Lemma preferenceBlock_score r t :
  score (preferenceBlock pref r t)
  == score t + contribution (preferenceBlock pref) r.
Proof. unfold preferenceBlock. block_additive. Qed.

Lemma rainSnowBlock_score r t :
  score (rainSnowBlock weather r t)
  == score t + contribution (rainSnowBlock weather) r.
Proof. unfold rainSnowBlock. block_additive. Qed.

Lemma hotBlock_score r t :
  score (hotBlock weather month r t)
  == score t + contribution (hotBlock weather month) r.
Proof. unfold hotBlock. block_additive. Qed.

Lemma coldBlock_score r t :
  score (coldBlock weather r t)
  == score t + contribution (coldBlock weather) r.
Proof. unfold coldBlock. block_additive. Qed.

Lemma windBlock_score r t :
  score (windBlock weather r t)
  == score t + contribution (windBlock weather) r.
Proof. unfold windBlock. block_additive. Qed.

Lemma darkBlock_score r t :
  score (darkBlock tc r t) == score t + contribution (darkBlock tc) r.
Proof. unfold darkBlock. block_additive. Qed.

Lemma lateNightBlock_score r t :
  score (lateNightBlock tc r t)
  == score t + contribution (lateNightBlock tc) r.
Proof. unfold lateNightBlock. block_additive. Qed.

Lemma rushHourBlock_score r t :
  score (rushHourBlock tc r t)
  == score t + contribution (rushHourBlock tc) r.
Proof. unfold rushHourBlock. block_additive. Qed.

Lemma middayBlock_score r t :
  score (middayBlock weather tc r t)
  == score t + contribution (middayBlock weather tc) r.
Proof. unfold middayBlock. block_additive. Qed.

Lemma weekendBlock_score r t :
  score (weekendBlock weather tc r t)
  == score t + contribution (weekendBlock weather tc) r.
Proof. unfold weekendBlock. block_additive. Qed.

Lemma safetyBlock_score r t :
  score (safetyBlock r t) == score t + contribution safetyBlock r.
Proof. unfold safetyBlock. block_additive. Qed.

Lemma lengthBlock_score r t :
  score (lengthBlock routes r t)
  == score t + contribution (lengthBlock routes) r.
Proof. unfold lengthBlock. block_additive. Qed.

Lemma routeScore_sum r :
  routeScore routes pref weather tc month r
  == contribution (preferenceBlock pref) r
     + contribution (rainSnowBlock weather) r
     + contribution (hotBlock weather month) r
     + contribution (coldBlock weather) r
     + contribution (windBlock weather) r
     + contribution (darkBlock tc) r
     + contribution (lateNightBlock tc) r
     + contribution (rushHourBlock tc) r
     + contribution (middayBlock weather tc) r
     + contribution (weekendBlock weather tc) r
     + contribution safetyBlock r
     + contribution (lengthBlock routes) r.
Proof.
  unfold routeScore, scoreRoute. cbn [total].
  rewrite lengthBlock_score, safetyBlock_score, weekendBlock_score,
    middayBlock_score, rushHourBlock_score, lateNightBlock_score,
    darkBlock_score, windBlock_score, coldBlock_score, hotBlock_score,
    rainSnowBlock_score, preferenceBlock_score.
  cbn [score]. ring.
Qed.

End BlockFacts.

(** ** Scoring without a weather snapshot *)

Section NoSnapshot.

Variable routes : list RouteData.
Variable pref : RoutePreference.
Variable tc : TimeContext.
Variable month : Z.
Variable r : RouteData.

Ltac rule_eq :=
  unfold contribution, when, add, push, Spec.bonus, Spec.typeIs,
    Spec.continuousSidewalks;
  cbn [score reasons]; split_ifs; cbn [score reasons]; ring.

Lemma preference_contribution :
  contribution (preferenceBlock pref) r == Spec.basePreference pref r.
Proof. unfold preferenceBlock, Spec.basePreference. rule_eq. Qed.

Lemma rainSnow_contribution_none : contribution (rainSnowBlock None) r == 0.
Proof. reflexivity. Qed.

Lemma cold_contribution_none : contribution (coldBlock None) r == 0.
Proof. reflexivity. Qed.

Lemma wind_contribution_none : contribution (windBlock None) r == 0.
Proof. reflexivity. Qed.

Lemma midday_contribution_none : contribution (middayBlock None tc) r == 0.
Proof.
  unfold contribution, middayBlock, middaySun, when.
  now destruct (isMidDay tc).
Qed.

Lemma hot_contribution_none :
  contribution (hotBlock None month) r == seasonalHeat month r.
Proof.
  unfold hotBlock, seasonalHeat, isHotWeather.
  destruct ((month >=? 5) && (month <=? 8))%Z; rule_eq.
Qed.

Lemma dark_contribution :
  contribution (darkBlock tc) r == Spec.darkRule tc r.
Proof.
  unfold darkBlock, Spec.darkRule, RoutesList.isDark.
  destruct (WeatherContext.isDark tc); rule_eq.
Qed.

Lemma lateNight_contribution :
  contribution (lateNightBlock tc) r == Spec.lateNightRule tc r.
Proof.
  unfold lateNightBlock, Spec.lateNightRule, isLateNight, currentTimeOfDay.
  destruct (TimeOfDay_eqb (timeOfDay tc) late_night); rule_eq.
Qed.

Lemma rushHour_contribution :
  contribution (rushHourBlock tc) r == Spec.rushHourRule tc r.
Proof.
  unfold rushHourBlock, Spec.rushHourRule, RoutesList.isRushHour.
  destruct (WeatherContext.isRushHour tc); rule_eq.
Qed.

Lemma weekend_contribution_none :
  contribution (weekendBlock None tc) r == Spec.weekendRule tc r.
Proof.
  unfold weekendBlock, Spec.weekendRule, RoutesList.isWeekend,
    RoutesList.isDark.
  destruct (WeatherContext.isWeekend tc), (WeatherContext.isDark tc);
    cbn [andb negb isRaining isColdWeather conditionIs orb]; rule_eq.
Qed.

Lemma safety_contribution :
  contribution safetyBlock r == Spec.contextFree r.
Proof. unfold safetyBlock, Spec.contextFree. rule_eq. Qed.

Lemma length_contribution :
  contribution (lengthBlock routes) r == Spec.lengthPenalty routes r.
Proof. unfold lengthBlock, Spec.lengthPenalty. rule_eq. Qed.

End NoSnapshot.

(** C4 (as stated, refuted).  With no weather snapshot, in July, on a
    weekday morning, the sample route ["route-0"] earns nothing from the
    preference, time, context-free and length rules, and yet scores 12:
    the hot-weather rule (0.4 x 30 % shade), which the seasonal test
    switches on without any snapshot. *)
Lemma score_without_snapshot_counterexample :
  routeScore Sample.routes safe None Sample.weekdayMorning 6 Sample.base == 12
  /\ Spec.scoreWithoutWeather Sample.routes safe Sample.weekdayMorning
       Sample.base == 0
  /\ ~ routeScore Sample.routes safe None Sample.weekdayMorning 6 Sample.base
       == Spec.scoreWithoutWeather Sample.routes safe Sample.weekdayMorning
            Sample.base.
Proof.
  split; [| split].
  - vm_compute. reflexivity.
  - vm_compute. reflexivity.
  - intro H. vm_compute in H. discriminate H.
Qed.

(** C4 (amended).  With no weather snapshot, the rain/snow, cold, windy
    and midday-shade rules add nothing, and the score of every route is
    the base preference match, the time-conditioned rules, the
    context-free bonuses and the length penalty, plus the hot-weather
    rule whenever the month is June to September. *)
Theorem score_without_snapshot (routes : list RouteData)
  (pref : RoutePreference) (tc : TimeContext) (month : Z) (r : RouteData) :
  contribution (rainSnowBlock None) r == 0
  /\ contribution (coldBlock None) r == 0
  /\ contribution (windBlock None) r == 0
  /\ contribution (middayBlock None tc) r == 0
  /\ routeScore routes pref None tc month r
     == Spec.scoreWithoutWeather routes pref tc r + seasonalHeat month r.
Proof.
  repeat split; try reflexivity.
  - apply midday_contribution_none.
  - rewrite routeScore_sum.
    rewrite preference_contribution, rainSnow_contribution_none,
      hot_contribution_none, cold_contribution_none, wind_contribution_none,
      dark_contribution, lateNight_contribution, rushHour_contribution,
      midday_contribution_none, weekend_contribution_none,
      safety_contribution, length_contribution.
    unfold Spec.scoreWithoutWeather, Spec.timeRules. ring.
Qed.

(** ** Darkness *)

Ltac same_elsewhere r :=
  repeat match goal with
         | |- context [contribution ?B (withLighting ?l ?nf r)] =>
             lazymatch B with
             | darkBlock _ => fail
             | _ => change (contribution B (withLighting l nf r))
                      with (contribution B r)
             end
         end.

(** C7.  In the dark, whatever the route set, preference, snapshot and
    month, a well-lit night-friendly route scores strictly more than the
    route that differs from it only in being dark and not
    night-friendly. *)
Theorem dark_hours_monotone (routes : list RouteData)
  (pref : RoutePreference) (weather : option WeatherData)
  (tc : TimeContext) (month : Z) (r : RouteData) :
  WeatherContext.isDark tc = true ->
  routeScore routes pref weather tc month (withLighting dark false r)
  < routeScore routes pref weather tc month (withLighting well_lit true r).
Proof.
  intro Hdark. rewrite !routeScore_sum. same_elsewhere r.
  assert (Hlit : contribution (darkBlock tc) (withLighting well_lit true r)
                 == 75).
  { unfold contribution, darkBlock, when, RoutesList.isDark.
    rewrite Hdark. reflexivity. }
  assert (Hun : contribution (darkBlock tc) (withLighting dark false r)
                == -20).
  { unfold contribution, darkBlock, when, RoutesList.isDark.
    rewrite Hdark. reflexivity. }
  rewrite Hlit, Hun. lra.
Qed.

Lemma dark_hours_monotone_witness :
  routeScore Sample.routes safe (Some Sample.rainy) Sample.weekdayNight 0
    (withLighting dark false Sample.base)
  < routeScore Sample.routes safe (Some Sample.rainy) Sample.weekdayNight 0
      (withLighting well_lit true Sample.base).
Proof.
  apply (dark_hours_monotone Sample.routes safe (Some Sample.rainy)
           Sample.weekdayNight 0 Sample.base).
  reflexivity.
Defined.

(** ** The choice of the winner *)

Section Winner.

Variable routes : list RouteData.
Variable pref : RoutePreference.
Variable weather : option WeatherData.
Variable alerts : list WeatherAlert.
Variable tc : TimeContext.
Variable month : Z.

Abbreviation scoreOf := (fun s : Scored => score (total s)).
Abbreviation scored := (map (scoreRoute routes pref weather tc month) routes).

Lemma best_firstMax (b : Scored) :
  best routes pref weather tc month = Some b -> firstMax scoreOf scored b.
Proof. apply (sort_hd_firstMax scoreOf). Qed.

Lemma best_some :
  routes <> [] -> exists b, best routes pref weather tc month = Some b.
Proof.
  intro H. apply (sort_hd_some scoreOf).
  destruct routes; [congruence | discriminate].
Qed.

(** The winner, seen in the input list. *)
Lemma best_in_routes (b : Scored) :
  best routes pref weather tc month = Some b ->
  exists before chosen after,
    routes = (before ++ chosen :: after)%list
    /\ b = scoreRoute routes pref weather tc month chosen
    /\ Forall (fun r => routeScore routes pref weather tc month r
                        < routeScore routes pref weather tc month chosen)
         before
    /\ Forall (fun r => routeScore routes pref weather tc month r
                        <= routeScore routes pref weather tc month chosen)
         after.
Proof.
  intro H. destruct (best_firstMax H) as (l1 & l2 & Heq & H1 & H2).
  apply map_eq_app in Heq. destruct Heq as (before & rest & -> & <- & Hrest).
  apply map_eq_cons in Hrest.
  destruct Hrest as (chosen & after & -> & <- & <-).
  exists before, chosen, after. split; [reflexivity |].
  split; [reflexivity |].
  rewrite Forall_forall in H1, H2. split; apply Forall_forall; intros x Hx.
  - apply (H1 _ (in_map _ _ _ Hx)).
  - apply (H2 _ (in_map _ _ _ Hx)).
Qed.

Lemma recommendation_of_best (rec : Recommendation) :
  getSmartRecommendation routes pref weather alerts tc month = Some rec ->
  exists b,
    best routes pref weather tc month = Some b
    /\ routeId rec = id (route b)
    /\ routeType rec = type (route b)
    /\ reason rec
       = reasonText weather alerts tc (reasonBranch weather alerts tc month b).
Proof.
  unfold getSmartRecommendation.
  destruct (List.length routes =? 0)%nat; [discriminate |].
  destruct (best routes pref weather tc month) as [b |]; [| discriminate].
  intros [= <-]. exists b. repeat split.
Qed.

End Winner.

(** C1.  The engine answers [null] exactly on the empty route list, and
    on a non-empty list it answers one recommendation, whose identity and
    type are those of a route of the list. *)
Theorem recommendation_drawn_from_routes (routes : list RouteData)
  (pref : RoutePreference) (weather : option WeatherData)
  (alerts : list WeatherAlert) (tc : TimeContext) (month : Z) :
  (getSmartRecommendation routes pref weather alerts tc month = None
   <-> routes = [])
  /\ (routes <> [] ->
      exists rec r,
        getSmartRecommendation routes pref weather alerts tc month = Some rec
        /\ In r routes
        /\ routeId rec = id r
        /\ routeType rec = type r).
Proof.
  assert (Hne : routes <> [] ->
      exists rec r,
        getSmartRecommendation routes pref weather alerts tc month = Some rec
        /\ In r routes /\ routeId rec = id r /\ routeType rec = type r).
  { intro H. destruct (best_some pref weather tc month H) as [b Hb].
    destruct (best_in_routes _ _ _ _ _ Hb) as (l1 & r & l2 & Heq & -> & _).
    unfold getSmartRecommendation. rewrite Hb.
    destruct routes as [| x t]; [congruence |]. cbn [List.length Nat.eqb].
    eexists. exists r. split; [reflexivity |]. split; [| split; reflexivity].
    rewrite Heq. apply in_elt. }
  split; [split |]; trivial.
  - intro Hnone. destruct routes as [| x t]; [reflexivity |].
    destruct Hne as (rec & r & Hsome & _); [discriminate |]. congruence.
  - intros ->. reflexivity.
Qed.

Lemma recommendation_drawn_from_routes_witness :
  exists rec r,
    getSmartRecommendation Sample.routes safe (Some Sample.rainy) []
      Sample.weekdayNight 0 = Some rec
    /\ In r Sample.routes
    /\ routeId rec = id r
    /\ routeType rec = type r.
Proof.
  apply (proj2 (recommendation_drawn_from_routes Sample.routes safe
                  (Some Sample.rainy) [] Sample.weekdayNight 0)).
  discriminate.
Defined.

(** C8.  The scored candidates are put in descending order of total
    score by a stable sort (a permutation that keeps the input order among
    equal scores), and the recommendation is the first element: every
    route before the chosen one in the input scores strictly less, every
    route after it scores at most as much.  So among routes of equal top
    score the earliest in the input is chosen. *)
Theorem ties_keep_input_order (routes : list RouteData)
  (pref : RoutePreference) (weather : option WeatherData)
  (alerts : list WeatherAlert) (tc : TimeContext) (month : Z)
  (rec : Recommendation) :
  getSmartRecommendation routes pref weather alerts tc month = Some rec ->
  let candidates := map (scoreRoute routes pref weather tc month) routes in
  let sorted := scoredRoutes routes pref weather tc month in
  Permutation sorted candidates
  /\ StronglySorted
       (fun a b => score (total b) <= score (total a)) sorted
  /\ (forall v,
        filter (fun s => Qeq_bool (score (total s)) v) sorted
        = filter (fun s => Qeq_bool (score (total s)) v) candidates)
  /\ exists before chosen after,
       routes = (before ++ chosen :: after)%list
       /\ routeId rec = id chosen
       /\ routeType rec = type chosen
       /\ Forall (fun r => routeScore routes pref weather tc month r
                           < routeScore routes pref weather tc month chosen)
            before
       /\ Forall (fun r => routeScore routes pref weather tc month r
                           <= routeScore routes pref weather tc month chosen)
            after.
Proof.
  intros Hrec candidates sorted. repeat split.
  - apply (sort_perm (fun s : Scored => score (total s))).
  - apply (sort_sorted (fun s : Scored => score (total s))).
  - intro v. apply (sort_stable (fun s : Scored => score (total s))).
  - destruct (recommendation_of_best _ _ _ _ _ _ Hrec)
      as (b & Hb & Hid & Hty & _).
    destruct (best_in_routes _ _ _ _ _ Hb) as (l1 & r & l2 & Heq & -> & H1 & H2).
    exists l1, r, l2. repeat split; assumption.
Qed.

Lemma ties_keep_input_order_witness :
  exists before chosen after,
    Sample.routes = (before ++ chosen :: after)%list
    /\ "route-1"%string = id chosen
    /\ safest = type chosen
    /\ Forall (fun r => routeScore Sample.routes fast None Sample.weekdayNight 0 r
                        < routeScore Sample.routes fast None
                            Sample.weekdayNight 0 chosen) before
    /\ Forall (fun r => routeScore Sample.routes fast None Sample.weekdayNight 0 r
                        <= routeScore Sample.routes fast None
                             Sample.weekdayNight 0 chosen) after.
Proof.
  apply (ties_keep_input_order Sample.routes fast None [] Sample.weekdayNight 0
           (rec := {| routeId := "route-1"; routeType := safest;
                      reason := "🌙 Best for 10:00 PM walk" |})).
  vm_compute. reflexivity.
Defined.

(** The tie behind that witness: at night the synthesized safest and
    comfortable routes both score 100, the fastest one 40, and the
    earlier of the two leaders, ["route-1"], is recommended. *)
Example tie_at_night :
  map (fun r => Qred (routeScore Sample.routes fast None
                        Sample.weekdayNight 0 r)) Sample.routes
  = [40; 100; 100]
  /\ map type Sample.routes = [fastest; safest; comfortable]
  /\ getSmartRecommendation Sample.routes fast None [] Sample.weekdayNight 0
     = Some {| routeId := "route-1"; routeType := safest;
               reason := "🌙 Best for 10:00 PM walk" |}.
Proof. vm_compute. repeat split. Qed.

(** ** The reason cascade *)

(** C2 (as stated, refuted).  In the rain, with the single route
    ["route-0"] (one rest spot, partial sidewalks, four crossings), the
    winner has collected no reason tag at all, and the engine still
    answers the rain reason instead of falling through. *)
Lemma rain_reason_counterexample :
  exists b,
    best [Sample.base] safe (Some Sample.rainy) Sample.weekdayMorning 0
    = Some b
    /\ reasons (total b) = []
    /\ reasonBranch (Some Sample.rainy) [] Sample.weekdayMorning 0 b
       = RainBranch
    /\ getSmartRecommendation [Sample.base] safe (Some Sample.rainy) []
         Sample.weekdayMorning 0
       = Some {| routeId := "route-0"; routeType := fastest;
                 reason := "🌧️ Best for rainy weather" |}.
Proof. eexists. vm_compute. repeat split. Qed.

Ltac next_arm :=
  match goal with
  | |- context [if ?c then _ else _] => destruct c eqn:?
  end; try reflexivity.

(** C2 (amended).  The reason is that of the first arm of the cascade
    that fires.  The heat, cold, wind, darkness, late-night, rush-hour and
    weekend arms fire only when their condition holds and the winning
    route's reasons contain their tag, the preference arm when the
    reasons contain its tag; the rain, snow, alert and clear-weather arms
    look at no tag and fire on their condition alone, so in the rain the
    reason is the rain reason whatever the winner's reasons are. *)
Theorem reason_is_first_firing_arm (weather : option WeatherData)
  (alerts : list WeatherAlert) (tc : TimeContext) (month : Z)
  (best : Scored) :
  let arm := reasonBranch weather alerts tc month best in
  find (fires weather alerts tc month best) cascade = Some arm
  /\ branchCondition weather alerts tc month arm = true
  /\ match branchTag arm with
     | Some tag => includes (reasons (total best)) tag = true
     | None => True
     end
  /\ (isRaining weather = true -> arm = RainBranch)
  /\ (isRaining weather = false -> isSnowing weather = true ->
      arm = SnowBranch).
Proof.
  assert (Hfind : find (fires weather alerts tc month best) cascade
                  = Some (reasonBranch weather alerts tc month best)).
  { cbv beta iota zeta delta
      [find cascade fires branchCondition branchTag reasonBranch].
    rewrite !andb_true_r, !andb_true_l.
    do 12 next_arm. }
  cbv zeta. split; [exact Hfind |].
  apply find_some in Hfind. destruct Hfind as [_ Hfires].
  unfold fires in Hfires. apply andb_prop in Hfires.
  destruct Hfires as [Hcond Htag].
  split; [exact Hcond |]. split.
  - destruct (branchTag _); [exact Htag | exact I].
  - unfold reasonBranch. split.
    + intros ->. reflexivity.
    + intros -> ->. reflexivity.
Qed.

(** ** Route characterization *)

Lemma countCrossings_turnsAndEnds (route : RawRoute) :
  countCrossings route = turnsAndEnds (firstLegSteps route).
Proof.
  unfold countCrossings. induction (firstLegSteps route) as [| s rest IH].
  - reflexivity.
  - cbn [filter turnsAndEnds]. unfold isCrossingManeuver at 1.
    destruct (String.eqb (raw_type (raw_maneuver s)) "turn");
      [| destruct (String.eqb (raw_type (raw_maneuver s)) "end of road")];
      cbn [orb List.length]; rewrite <- IH; lia.
Qed.

(** C5 (as stated, refuted).  The sample path has four maneuvers of kind
    "turn" or "end of road"; at round-robin index 1 (type safest) the
    produced profile reports three crossings, at index 3 (scenic)
    five. *)
Lemma crossing_count_counterexample :
  turnsAndEnds (firstLegSteps Sample.rawWalk) = 4%Z
  /\ type (transformRoute Sample.rawWalk 1) = safest
  /\ crossingCount (safety (transformRoute Sample.rawWalk 1)) = 3%Z
  /\ type (transformRoute Sample.rawWalk 3) = scenic
  /\ crossingCount (safety (transformRoute Sample.rawWalk 3)) = 5%Z.
Proof. repeat split. Qed.

(** C5 (amended).  With [n] the number of maneuvers of kind "turn" or
    "end of road" in the steps of the path's first leg, the reported
    crossing count is [n] for the types fastest and comfortable,
    [max 1 (n - 1)] for safest and [n + 1] for scenic. *)
Theorem crossing_count_by_type (route : RawRoute) (index : nat) :
  let n := turnsAndEnds (firstLegSteps route) in
  let produced := transformRoute route index in
  type produced = typeOfIndex index
  /\ crossingCount (c_safety (analyzeRouteCharacteristics route index))
     = reportedCrossings (typeOfIndex index) n
  /\ crossingCount (safety produced) = reportedCrossings (type produced) n.
Proof.
  cbv zeta. unfold transformRoute, analyzeRouteCharacteristics.
  cbn [type safety]. rewrite countCrossings_turnsAndEnds.
  repeat split; destruct (typeOfIndex index); reflexivity.
Qed.

(** ** Route selection state *)

(** C10.  [clearAll] empties origin, destination, route list, selection
    and error, and leaves the transport mode and the loading flag as they
    were. *)
Theorem clearAll_frame (s : RouteContext.State) :
  clearAll s
  = {| origin := None;
       destination := None;
       routes := [];
       selectedRoute := None;
       transportMode := transportMode s;
       RouteContext.isLoading := RouteContext.isLoading s;
       RouteContext.error := None |}
  /\ transportMode (clearAll s) = transportMode s.
Proof. split; reflexivity. Qed.

(** ** Fewer than three alternatives *)

(** C6 (as stated, refuted).  With the sample path as the only
    alternative (1000 m, 1000 s) the synthesized safest route lasts
    1000 x 1.10 = 1100 s, but is 1000 x 1.05 = 1050 m long, not
    1000 x 1.10; the synthesized comfortable route lasts 1150 s and is
    1000 x 1.10 = 1100 m long, not 1000 x 1.15. *)
Lemma synthesized_distance_counterexample :
  exists base s1 s2,
    routes (fetchRoutes Sample.flat1400 None
              (Ok {| data_routes := Some [Sample.rawWalk] |}) Sample.ready)
    = [base; s1; s2]
    /\ distance base == 1000 /\ duration base == 1000
    /\ type s1 = safest
    /\ duration s1 == 1100
    /\ distance s1 == 1050
    /\ ~ distance s1 == distance base * 1.10
    /\ type s2 = comfortable
    /\ duration s2 == 1150
    /\ distance s2 == 1100
    /\ ~ distance s2 == distance base * 1.15.
Proof.
  do 3 eexists. split; [vm_compute; reflexivity |].
  repeat split; try (vm_compute; reflexivity); intro H; vm_compute in H;
    discriminate H.
Qed.

Section FewerThanThree.

Variable haversine : Coordinates -> Coordinates -> Q.
Variable mode : option TransportMode.

Lemma stored_routes (response : Response DirectionsBody)
  (s : RouteContext.State) (o d : Location) :
  origin s = Some o -> destination s = Some d ->
  routes (fetchRoutes haversine mode response s)
  = match tryTransform response with
    | Some transformed => transformed
    | None => fallbackRoutes haversine o d
    end
  /\ RouteContext.error (fetchRoutes haversine mode response s) = None.
Proof.
  intros Ho Hd. unfold fetchRoutes. rewrite Ho, Hd.
  destruct (tryTransform response); split; reflexivity.
Qed.

Lemma transformed_three (raw : list RawRoute) :
  raw <> [] ->
  let stored := ensureThree 3 (mapi transformRoute raw) in
  (3 <= List.length stored)%nat
  /\ map type (firstn 3 stored) = [fastest; safest; comfortable].
Proof.
  destruct raw as [| r0 [| r1 [| r2 rest]]]; [congruence | | |]; intros _;
    cbv zeta.
  - split; [apply Nat.le_refl | reflexivity].
  - split; [apply Nat.le_refl | reflexivity].
  - unfold mapi. cbn [mapi_from ensureThree List.length Nat.ltb Nat.leb].
    split; [cbn [List.length]; lia | reflexivity].
Qed.

(** C6 (amended).  Once origin and destination are set, whatever the
    Routing Provider answers, [fetchRoutes] stores at least three routes,
    the first three of types fastest, safest and comfortable, and
    surfaces no error.  The fastest route is always the provider's first
    result (or the fallback), never a synthesized one.  A missing safest
    route is synthesized from the first result with duration x 1.10 and
    distance x 1.05, a missing comfortable route with duration x 1.15 and
    distance x 1.10 (the distance factor is 1 + 0.05 x index); both keep
    the geometry and the steps of the first result. *)
Theorem fetchRoutes_three_types (response : Response DirectionsBody)
  (s : RouteContext.State) (o d : Location) :
  origin s = Some o -> destination s = Some d ->
  let stored := routes (fetchRoutes haversine mode response s) in
  (3 <= List.length stored)%nat
  /\ map type (firstn 3 stored) = [fastest; safest; comfortable]
  /\ RouteContext.error (fetchRoutes haversine mode response s) = None
  /\ (forall r0,
        response = Ok {| data_routes := Some [r0] |} ->
        let base := transformRoute r0 0 in
        exists s1 s2,
          stored = [base; s1; s2]
          /\ type s1 = safest
          /\ duration s1 == duration base * 1.10
          /\ distance s1 == distance base * 1.05
          /\ geometry s1 = geometry base /\ steps s1 = steps base
          /\ type s2 = comfortable
          /\ duration s2 == duration base * 1.15
          /\ distance s2 == distance base * 1.10
          /\ geometry s2 = geometry base /\ steps s2 = steps base)
  /\ (forall r0 r1,
        response = Ok {| data_routes := Some [r0; r1] |} ->
        let base := transformRoute r0 0 in
        exists s2,
          stored = [base; transformRoute r1 1; s2]
          /\ type s2 = comfortable
          /\ duration s2 == duration base * 1.15
          /\ distance s2 == distance base * 1.10
          /\ geometry s2 = geometry base /\ steps s2 = steps base).
Proof.
  intros Ho Hd stored.
  destruct (stored_routes response s Ho Hd) as [Hstored Herr].
  fold stored in Hstored.
  assert (Hthree : (3 <= List.length stored)%nat
                   /\ map type (firstn 3 stored)
                      = [fastest; safest; comfortable]).
  { rewrite Hstored. unfold tryTransform.
    destruct response as [| | [[[| r0 rest] |]]];
      try (split; [apply Nat.le_refl | reflexivity]).
    apply transformed_three. discriminate. }
  destruct Hthree as [Hlen Htypes].
  split; [exact Hlen |]. split; [exact Htypes |]. split; [exact Herr |].
  split.
  - intros r0 -> base. rewrite Hstored. cbn [tryTransform data_routes].
    eexists. eexists. split; [reflexivity |].
    cbn [type duration distance geometry steps synthesize multiplier p_type
         routeProfiles nth_error List.length mapi mapi_from app].
    subst base. repeat split; try reflexivity;
      change (inject_Z (Z.of_nat 1)) with 1;
      change (inject_Z (Z.of_nat 2)) with 2; ring.
  - intros r0 r1 -> base. rewrite Hstored. cbn [tryTransform data_routes].
    eexists. split; [reflexivity |].
    cbn [type duration distance geometry steps synthesize multiplier p_type
         routeProfiles nth_error List.length mapi mapi_from app].
    subst base. repeat split; try reflexivity;
      change (inject_Z (Z.of_nat 2)) with 2; ring.
Qed.

End FewerThanThree.

Lemma fetchRoutes_three_types_witness :
  map type
    (firstn 3 (routes (fetchRoutes Sample.flat1400 None Rejected
                         Sample.ready)))
  = [fastest; safest; comfortable].
Proof.
  apply (fetchRoutes_three_types Sample.flat1400 None Rejected Sample.ready
           (o := Sample.washingtonSquare) (d := DEFAULT_DESTINATION));
    reflexivity.
Defined.

(** ** Weather fetch *)

Lemma mock_has_no_alert (now : Z) : generateAlerts now (mockWeather now) = [].
Proof. reflexivity. Qed.

(** C3 (as stated, refuted).  With a credential configured and the
    request rejected, the component stores no snapshot at all, and sets
    the error state. *)
Lemma failed_fetch_counterexample :
  let s' := fetchWeather "demo-key" 0 Rejected Rejected 40.7295 (-73.9965)
              WeatherContext.initialState in
  WeatherContext.error s' = Some "Failed to fetch weather data"%string
  /\ weather s' = None
  /\ weather s' <> Some (mockWeather 0).
Proof. repeat split. discriminate. Qed.

(** C3 (amended).  With no credential configured, [fetchWeather] stores
    the clear-weather mock snapshot and an empty alert list and touches
    neither the error state nor the loading flag, so the error stays
    [null].  With a credential configured and a failing live fetch, no
    mock is produced: the previous snapshot and alerts stay, the loading
    flag is cleared and the error state becomes
    "Failed to fetch weather data". *)
Theorem fetchWeather_failure_policy (apiKey : string) (now : Z)
  (oneCall : Response OneCallBody) (basic : Response BasicBody)
  (lat lng : Q) (s : WeatherContext.State) :
  fetchWeather "" now oneCall basic lat lng s
  = {| weather := Some (mockWeather now);
       WeatherContext.isLoading := WeatherContext.isLoading s;
       WeatherContext.error := WeatherContext.error s;
       alerts := [];
       sunTimes := sunTimes s |}
  /\ (apiKey <> ""%string ->
      liveFetchFails now oneCall basic = true ->
      let s' := fetchWeather apiKey now oneCall basic lat lng s in
      weather s' = weather s
      /\ alerts s' = alerts s
      /\ WeatherContext.isLoading s' = false
      /\ WeatherContext.error s'
         = Some "Failed to fetch weather data"%string).
Proof.
  split; [reflexivity |].
  intros Hkey Hfail. unfold fetchWeather.
  apply String.eqb_neq in Hkey. rewrite Hkey. cbv zeta.
  unfold liveFetchFails in Hfail.
  destruct oneCall as [| | data].
  - repeat split.
  - destruct basic as [| | currentData]; [repeat split | repeat split |].
    destruct (convertBasic now currentData); [discriminate |]. repeat split.
  - destruct (convertOneCall now data); [discriminate |].
    unfold storeSunTimes.
    destruct (truthyZ (oc_sunrise (data_current data)));
      destruct (truthyZ (oc_sunset (data_current data))); repeat split.
Qed.

Lemma fetchWeather_failure_policy_witness :
  let s' := fetchWeather "demo-key" 0 NotOk Rejected 40.7295 (-73.9965)
              WeatherContext.initialState in
  weather s' = None
  /\ alerts s' = []
  /\ WeatherContext.isLoading s' = false
  /\ WeatherContext.error s' = Some "Failed to fetch weather data"%string.
Proof.
  apply (proj2 (fetchWeather_failure_policy "demo-key" 0 NotOk Rejected
                  40.7295 (-73.9965) WeatherContext.initialState)).
  - discriminate.
  - reflexivity.
Defined.

(** C9 (as stated, refuted).  With no credential, the stored mock
    snapshot is clear at 72 degrees, and [getRouteWeatherTags] answers
    one tag, not the empty list. *)
Lemma mock_weather_tags_counterexample :
  let s' := fetchWeather OPENWEATHER_API_KEY 0 Rejected Rejected
              40.7295 (-73.9965) WeatherContext.initialState in
  getRouteWeatherTags (weather s') = ["☀️ Great walking weather"%string]
  /\ getRouteWeatherTags (weather s') <> [].
Proof. split; [reflexivity | discriminate]. Qed.

(** C9 (amended).  With no credential, the snapshot stored is the mock:
    condition clear, 72 degrees; the alert list is empty; and
    [getRouteWeatherTags] answers exactly the tag
    "Great walking weather". *)
Theorem mock_weather_scenario (now : Z) (oneCall : Response OneCallBody)
  (basic : Response BasicBody) (lat lng : Q) (s : WeatherContext.State) :
  let s' := fetchWeather OPENWEATHER_API_KEY now oneCall basic lat lng s in
  weather s' = Some (mockWeather now)
  /\ condition (current (mockWeather now)) = clear
  /\ temp (current (mockWeather now)) = 72%Z
  /\ alerts s' = []
  /\ getRouteWeatherTags (weather s') = ["☀️ Great walking weather"%string].
Proof. repeat split. Qed.

(** ** A run of the whole pipeline *)

(** One alternative from the provider, no credential for the weather, a
    weekday night, preference [safe]: the stored set has three routes, the
    mock snapshot is clear at 72 degrees, and the safest route is
    recommended for the night walk. *)
Example night_walk_scenario :
  let stored :=
    routes (fetchRoutes Sample.flat1400 None
              (Ok {| data_routes := Some [Sample.rawWalk] |}) Sample.ready) in
  let w :=
    fetchWeather OPENWEATHER_API_KEY 0 Rejected Rejected 40.7295 (-73.9965)
      WeatherContext.initialState in
  map (fun r => Qred (routeScore stored safe (weather w) Sample.weekdayNight 0 r))
    stored = [10; 130; 100]
  /\ getSmartRecommendation stored safe (weather w) (alerts w)
       Sample.weekdayNight 0
     = Some {| routeId := "route-1"; routeType := safest;
               reason := "🌙 Best for 10:00 PM walk" |}.
Proof. vm_compute. split; reflexivity. Qed.

(* ================================================================== *)
(** * Further properties of the route provider *)

(** ** Indexed maps and decimal rendering *)

Lemma mapi_from_length {A B} (f : A -> nat -> B) (i : nat) (l : list A) :
  List.length (mapi_from f i l) = List.length l.
Proof.
  revert i. induction l as [| x t IH]; intro i; cbn; [reflexivity |].
  now rewrite IH.
Qed.

Lemma mapi_from_nth {A B} (f : A -> nat -> B) (i k : nat) (l : list A) :
  nth_error (mapi_from f i l) k
  = option_map (fun x => f x (i + k)%nat) (nth_error l k).
Proof.
  revert i k. induction l as [| x t IH]; intros i k.
  - now destruct k.
  - destruct k as [| k]; cbn.
    + now rewrite Nat.add_0_r.
    + rewrite IH. now rewrite Nat.add_succ_r.
Qed.

Lemma to_int_not_nil (z : Z) :
  Z.to_int z <> Decimal.Pos Decimal.Nil
  /\ Z.to_int z <> Decimal.Neg Decimal.Nil.
Proof.
  assert (H : Z.to_int z = Decimal.norm (Z.to_int z)).
  { rewrite <- (DecimalZ.to_of (Z.to_int z)). now rewrite DecimalZ.of_to. }
  split; intro E; rewrite E in H; discriminate H.
Qed.

Lemma showZ_inj (a b : Z) : showZ a = showZ b -> a = b.
Proof.
  unfold showZ. intro H. apply DecimalZ.to_int_inj.
  assert (Some (Z.to_int a) = Some (Z.to_int b)) as [= E]; [| exact E].
  destruct (to_int_not_nil a) as [Ha1 Ha2].
  destruct (to_int_not_nil b) as [Hb1 Hb2].
  rewrite <- (NilZero.isi _ Ha1 Ha2), <- (NilZero.isi _ Hb1 Hb2).
  now rewrite H.
Qed.

Lemma routeId_inj (i j : nat) :
  ("route-" ++ showZ (Z.of_nat i))%string
  = ("route-" ++ showZ (Z.of_nat j))%string -> i = j.
Proof.
  cbn [String.append]. intros [= H]. apply showZ_inj in H. lia.
Qed.

(** ** What [fetchRoutes] stores *)

Section StoredRoutes.

Variable haversine : Coordinates -> Coordinates -> Q.
Variable mode : option TransportMode.

(** The state after a fetch that ran, field by field. *)
Lemma fetchRoutes_ran (response : Response DirectionsBody)
  (s : RouteContext.State) (o d : Location) :
  origin s = Some o -> destination s = Some d ->
  let stored :=
    match tryTransform response with
    | Some transformed => transformed
    | None => fallbackRoutes haversine o d
    end in
  fetchRoutes haversine mode response s
  = {| origin := Some o;
       destination := Some d;
       routes := stored;
       selectedRoute := pickSelected stored;
       transportMode := transportMode s;
       RouteContext.isLoading := false;
       RouteContext.error := None |}.
Proof.
  intros Ho Hd. unfold fetchRoutes. rewrite Ho, Hd.
  destruct (tryTransform response);
    unfold RouteContext.setIsLoading, RouteContext.setError,
      setSelectedRoute, setRoutes;
    cbn [origin destination routes selectedRoute transportMode
         RouteContext.isLoading RouteContext.error];
    rewrite Ho, Hd; reflexivity.
Qed.

Lemma ensureThree_enough (fuel : nat) (l : list RouteData) :
  (3 <= List.length l)%nat -> ensureThree fuel l = l.
Proof.
  intro H. destruct fuel; [reflexivity |]. cbn [ensureThree].
  destruct (Nat.ltb_spec (List.length l) 3); [lia | reflexivity].
Qed.

(** The routes built from a non-empty provider answer: position [i]
    holds type [types[i % 4]] and id ["route-i"], synthesized entries
    included. *)
Lemma transformed_nth (raw : list RawRoute) (i : nat) (r : RouteData) :
  nth_error (ensureThree 3 (mapi transformRoute raw)) i = Some r ->
  type r = typeOfIndex i
  /\ id r = ("route-" ++ showZ (Z.of_nat i))%string.
Proof.
  destruct raw as [| r0 [| r1 [| r2 rest]]].
  - destruct i; discriminate.
  - destruct i as [| [| [| i]]]; cbn; intros [= <-] || discriminate ||
      destruct i; try discriminate; split; reflexivity.
  - destruct i as [| [| [| i]]]; cbn; intros [= <-] || discriminate ||
      destruct i; try discriminate; split; reflexivity.
  - rewrite ensureThree_enough
      by (unfold mapi; rewrite mapi_from_length; cbn [List.length]; lia).
    unfold mapi. rewrite mapi_from_nth.
    destruct (nth_error (r0 :: r1 :: r2 :: rest) i); [| discriminate].
    intros [= <-]. split; reflexivity.
Qed.

Lemma transformed_length (raw : list RawRoute) :
  raw <> [] ->
  List.length (ensureThree 3 (mapi transformRoute raw))
  = Nat.max 3 (List.length raw).
Proof.
  destruct raw as [| r0 [| r1 [| r2 rest]]]; [congruence | | |]; intros _;
    try reflexivity.
  rewrite ensureThree_enough
    by (unfold mapi; rewrite mapi_from_length; cbn [List.length]; lia).
  unfold mapi. rewrite mapi_from_length. cbn [List.length]. lia.
Qed.

End StoredRoutes.

Lemma ensureThree_extends (fuel : nat) (l : list RouteData) :
  exists more, ensureThree fuel l = (l ++ more)%list.
Proof.
  revert l. induction fuel as [| fuel IH]; intro l; cbn [ensureThree].
  - exists []. now rewrite app_nil_r.
  - destruct (List.length l <? 3)%nat; [| exists []; now rewrite app_nil_r].
    destruct l as [| baseRoute t]; [exists []; reflexivity |].
    destruct (nth_error routeProfiles (List.length (baseRoute :: t)))
      as [profile |]; [| exists []; now rewrite app_nil_r].
    destruct (IH ((baseRoute :: t)
                  ++ [synthesize baseRoute (List.length (baseRoute :: t))
                        profile])%list) as [more Hmore].
    rewrite Hmore, <- app_assoc. eexists. reflexivity.
Qed.

Section StoredFacts.

Variable haversine : Coordinates -> Coordinates -> Q.
Variable mode : option TransportMode.

(** X1.  When the Routing Provider answers with at least one
    alternative, [fetchRoutes] stores [max 3 n] routes for [n]
    alternatives; the route at position [i] has id ["route-i"] and type
    [types[i % 4]], and for [i < n] it is the transformation of the
    provider's alternative [i]: synthesized entries only follow the
    provider's own. *)
Theorem stored_positions (raw : list RawRoute) (s : RouteContext.State)
  (o d : Location) :
  origin s = Some o -> destination s = Some d -> raw <> [] ->
  let stored :=
    routes (fetchRoutes haversine mode
              (Ok {| data_routes := Some raw |}) s) in
  List.length stored = Nat.max 3 (List.length raw)
  /\ forall i r,
       nth_error stored i = Some r ->
       type r = typeOfIndex i
       /\ id r = ("route-" ++ showZ (Z.of_nat i))%string
       /\ forall alternative,
            nth_error raw i = Some alternative ->
            r = transformRoute alternative i.
Proof.
  intros Ho Hd Hraw stored. subst stored.
  rewrite (fetchRoutes_ran haversine mode _ s Ho Hd).
  cbn [routes tryTransform data_routes].
  destruct raw as [| r0 rest] eqn:Eraw; [congruence |]. rewrite <- Eraw.
  split; [apply transformed_length; congruence |].
  intros i r Hnth.
  destruct (transformed_nth raw i Hnth) as [Hty Hid].
  split; [exact Hty |]. split; [exact Hid |].
  intros alternative Halt.
  destruct (ensureThree_extends 3 (mapi transformRoute raw)) as [more Hmore].
  rewrite Hmore in Hnth.
  assert (Hin : nth_error (mapi transformRoute raw) i
                = Some (transformRoute alternative i)).
  { unfold mapi. rewrite mapi_from_nth, Halt. reflexivity. }
  rewrite nth_error_app1 in Hnth.
  - congruence.
  - apply nth_error_Some. congruence.
Qed.

Lemma tryTransform_some (response : Response DirectionsBody)
  (stored : list RouteData) :
  tryTransform response = Some stored ->
  exists raw,
    raw <> [] /\ stored = ensureThree 3 (mapi transformRoute raw).
Proof.
  unfold tryTransform.
  destruct response as [| | [[raw |]]]; try discriminate.
  cbn [data_routes]. destruct raw as [| r0 rest]; [discriminate |].
  intros [= <-]. exists (r0 :: rest). split; [discriminate | reflexivity].
Qed.

(** X2.  Whatever the Routing Provider answers, the routes stored by
    [fetchRoutes] carry pairwise different ids. *)
Theorem stored_ids_unique (response : Response DirectionsBody)
  (s : RouteContext.State) (o d : Location) :
  origin s = Some o -> destination s = Some d ->
  NoDup (map id (routes (fetchRoutes haversine mode response s))).
Proof.
  intros Ho Hd. rewrite (fetchRoutes_ran haversine mode response s Ho Hd).
  cbn [routes]. destruct (tryTransform response) as [stored |] eqn:E.
  - destruct (tryTransform_some response E) as (raw & _ & ->).
    apply NoDup_nth_error. intros i j Hi Hij.
    rewrite !nth_error_map in Hij.
    destruct (nth_error (ensureThree 3 (mapi transformRoute raw)) i)
      as [ri |] eqn:Ei.
    + destruct (nth_error (ensureThree 3 (mapi transformRoute raw)) j)
        as [rj |] eqn:Ej; [| cbn in Hij; discriminate Hij].
      destruct (transformed_nth raw i Ei) as [_ Hidi].
      destruct (transformed_nth raw j Ej) as [_ Hidj].
      cbn in Hij. injection Hij as Hij. rewrite Hidi, Hidj in Hij.
      now apply routeId_inj.
    + apply nth_error_None in Ei. rewrite length_map in Hi. lia.
  - cbn. repeat constructor; cbn; intuition discriminate.
Qed.

(** X3.  After a fetch that ran, the selection is the stored route at
    position 1, which is of type safest; the loading flag is down, no
    error is set, and origin, destination and transport mode are as
    before. *)
Theorem fetch_selects_safest (response : Response DirectionsBody)
  (s : RouteContext.State) (o d : Location) :
  origin s = Some o -> destination s = Some d ->
  let s' := fetchRoutes haversine mode response s in
  (exists r, selectedRoute s' = Some r
             /\ nth_error (routes s') 1 = Some r
             /\ type r = safest)
  /\ RouteContext.isLoading s' = false
  /\ RouteContext.error s' = None
  /\ origin s' = origin s
  /\ destination s' = destination s
  /\ transportMode s' = transportMode s.
Proof.
  intros Ho Hd s'. subst s'.
  rewrite (fetchRoutes_ran haversine mode response s Ho Hd).
  cbn [routes selectedRoute RouteContext.isLoading RouteContext.error
       origin destination transportMode].
  split; [| now rewrite Ho, Hd].
  set (stored := match tryTransform response with
                 | Some transformed => transformed
                 | None => fallbackRoutes haversine o d
                 end).
  assert (Htypes : map type (firstn 3 stored)
                   = [fastest; safest; comfortable]).
  { subst stored. unfold tryTransform.
    destruct response as [| | [[[| r0 rest] |]]]; try reflexivity.
    apply transformed_three. discriminate. }
  destruct stored as [| a [| b [| c rest]]]; try discriminate Htypes.
  cbn in Htypes. injection Htypes as Ha Hb Hc.
  exists b. unfold pickSelected. cbn [find]. rewrite Ha, Hb. cbn.
  repeat split.
Qed.

(** X4.  The stored routes have pairwise different types exactly when
    the provider gave at most four alternatives: from the fifth on the
    round robin repeats a type. *)
Theorem stored_types_unique_iff (raw : list RawRoute)
  (s : RouteContext.State) (o d : Location) :
  origin s = Some o -> destination s = Some d -> raw <> [] ->
  NoDup (map type (routes (fetchRoutes haversine mode
                             (Ok {| data_routes := Some raw |}) s)))
  <-> (List.length raw <= 4)%nat.
Proof.
  intros Ho Hd Hraw.
  rewrite (fetchRoutes_ran haversine mode _ s Ho Hd).
  cbn [routes tryTransform data_routes].
  destruct raw as [| r0 rest] eqn:Eraw; [congruence |]. rewrite <- Eraw.
  assert (Hlen := transformed_length (raw := raw)).
  rewrite Eraw in Hlen at 1. specialize (Hlen ltac:(discriminate)).
  set (stored := ensureThree 3 (mapi transformRoute raw)) in *.
  assert (Hty : forall i t, nth_error (map type stored) i = Some t ->
                            t = typeOfIndex i).
  { intros i t. rewrite nth_error_map.
    destruct (nth_error stored i) as [r |] eqn:E; [| discriminate].
    intros [= <-]. apply (transformed_nth raw i E). }
  split.
  - intro Hnd. destruct (Nat.le_gt_cases (List.length raw) 4) as [| Hbig];
      [assumption | exfalso].
    rewrite NoDup_nth_error in Hnd.
    assert (H04 : (0 < List.length (map type stored))%nat)
      by (rewrite length_map; lia).
    specialize (Hnd 0%nat 4%nat H04).
    destruct (nth_error (map type stored) 0) as [t0 |] eqn:E0;
      [| apply nth_error_None in E0; lia].
    destruct (nth_error (map type stored) 4) as [t4 |] eqn:E4;
      [| apply nth_error_None in E4; rewrite length_map in E4; lia].
    apply Hty in E0, E4. subst t0 t4.
    specialize (Hnd eq_refl). discriminate Hnd.
  - intro Hsmall. apply NoDup_nth_error. intros i j Hi Hij.
    rewrite length_map in Hi.
    destruct (nth_error (map type stored) i) as [ti |] eqn:Ei;
      [| apply nth_error_None in Ei; rewrite length_map in Ei; lia].
    symmetry in Hij. assert (Hj : (j < List.length stored)%nat).
    { rewrite <- (length_map type). apply nth_error_Some. congruence. }
    apply Hty in Ei, Hij. subst ti.
    assert (i < 4 /\ j < 4)%nat as [Hi4 Hj4] by lia.
    destruct i as [| [| [| [| i]]]]; try lia;
      destruct j as [| [| [| [| j]]]]; try lia;
      try reflexivity; discriminate Hij.
Qed.

(** X5.  While origin or destination is missing, [fetchRoutes] only sets
    the error message; so right after [clearAll] a fetch stores no route
    and no selection, whatever the provider would have answered. *)
Theorem fetch_refused_without_ends (response : Response DirectionsBody)
  (s : RouteContext.State) :
  (origin s = None \/ destination s = None ->
   fetchRoutes haversine mode response s
   = RouteContext.setError
       (Some "Please set both origin and destination"%string) s)
  /\ (let s' := fetchRoutes haversine mode response (clearAll s) in
      routes s' = []
      /\ selectedRoute s' = None
      /\ RouteContext.error s'
         = Some "Please set both origin and destination"%string
      /\ RouteContext.isLoading s' = RouteContext.isLoading s
      /\ transportMode s' = transportMode s).
Proof.
  split.
  - unfold fetchRoutes. intros [H | H]; rewrite H; [reflexivity |].
    now destruct (origin s).
  - repeat split.
Qed.

(** X6.  In the straight-line fallback every route has two steps whose
    distances and durations add up to the route's own, and when the two
    ends are apart the three routes are strictly ordered, fastest below
    safest below comfortable, in duration and in distance. *)
Theorem fallback_routes_consistent (o d : Location) :
  let fallback := fallbackRoutes haversine o d in
  Forall (fun r => List.length (steps r) = 2%nat
                   /\ stepsDistance r == distance r
                   /\ stepsDuration r == duration r) fallback
  /\ (0 < haversine (coordinates o) (coordinates d) ->
      exists f sf c,
        fallback = [f; sf; c]
        /\ duration f < duration sf /\ duration sf < duration c
        /\ distance f < distance sf /\ distance sf < distance c).
Proof.
  cbv zeta. split.
  - unfold fallbackRoutes, stepsDistance, stepsDuration.
    repeat constructor; cbn [steps map fold_right step_distance
                             step_duration distance duration]; ring.
  - intro Hpos. unfold fallbackRoutes. do 3 eexists.
    split; [reflexivity |]. cbn [duration distance].
    set (dist := haversine (coordinates o) (coordinates d)) in *.
    assert (Hdur : 0 < dist / 1.4).
    { apply Qlt_shift_div_l; [reflexivity | lra]. }
    repeat split; lra.
Qed.

End StoredFacts.

Lemma stored_positions_witness :
  List.length
    (routes (fetchRoutes Sample.flat1400 None
               (Ok {| data_routes := Some [Sample.rawWalk] |}) Sample.ready))
  = 3%nat.
Proof.
  apply (stored_positions Sample.flat1400 None (raw := [Sample.rawWalk])
           Sample.ready (o := Sample.washingtonSquare)
           (d := DEFAULT_DESTINATION)).
  - reflexivity.
  - reflexivity.
  - discriminate.
Defined.

Lemma stored_ids_unique_witness :
  NoDup (map id (routes (fetchRoutes Sample.flat1400 None
                           (Ok {| data_routes := Some [Sample.rawWalk] |})
                           Sample.ready))).
Proof.
  apply (stored_ids_unique Sample.flat1400 None _ Sample.ready
           (o := Sample.washingtonSquare) (d := DEFAULT_DESTINATION));
    reflexivity.
Defined.

Lemma fetch_selects_safest_witness :
  RouteContext.isLoading (fetchRoutes Sample.flat1400 None NotOk Sample.ready)
  = false.
Proof.
  apply (fetch_selects_safest Sample.flat1400 None NotOk Sample.ready
           (o := Sample.washingtonSquare) (d := DEFAULT_DESTINATION));
    reflexivity.
Defined.

Lemma stored_types_unique_iff_witness :
  NoDup (map type (routes (fetchRoutes Sample.flat1400 None
                             (Ok {| data_routes := Some [Sample.rawWalk] |})
                             Sample.ready))).
Proof.
  apply (stored_types_unique_iff Sample.flat1400 None (raw := [Sample.rawWalk])
           Sample.ready (o := Sample.washingtonSquare)
           (d := DEFAULT_DESTINATION)).
  - reflexivity.
  - reflexivity.
  - discriminate.
  - cbn. lia.
Defined.

(** ** Fetch, then recommend *)

Section FetchThenRecommend.

Variable haversine : Coordinates -> Coordinates -> Q.
Variable mode : option TransportMode.

(** X7.  After a fetch that ran, every preference has a stored route of
    the type it maps to, and the engine recommends a stored route
    whatever the preference, weather, alerts, time and month. *)
Theorem fetch_then_recommend (response : Response DirectionsBody)
  (s : RouteContext.State) (o d : Location) :
  origin s = Some o -> destination s = Some d ->
  let stored := routes (fetchRoutes haversine mode response s) in
  (forall pref, exists r, In r stored /\ type r = prefMap pref)
  /\ (forall pref weather alerts tc month,
        exists rec r,
          getSmartRecommendation stored pref weather alerts tc month
          = Some rec
          /\ In r stored /\ routeId rec = id r /\ routeType rec = type r).
Proof.
  intros Ho Hd stored.
  assert (Htypes : map type (firstn 3 stored)
                   = [fastest; safest; comfortable]).
  { subst stored. rewrite (fetchRoutes_ran haversine mode response s Ho Hd).
    cbn [routes]. unfold tryTransform.
    destruct response as [| | [[[| r0 rest] |]]]; try reflexivity.
    apply transformed_three. discriminate. }
  destruct stored as [| a [| b [| c rest]]] eqn:E; try discriminate Htypes.
  cbn in Htypes. injection Htypes as Ha Hb Hc. rewrite <- E. split.
  - intro pref. rewrite E.
    destruct pref; [exists b | exists a | exists c]; cbn; auto.
  - intros pref weather alerts tc month.
    assert (Hne : stored <> []) by (rewrite E; discriminate).
    destruct (best_some pref weather tc month Hne) as [w Hw].
    destruct (best_in_routes _ _ _ _ _ Hw) as (l1 & r & l2 & Heq & -> & _).
    unfold getSmartRecommendation. rewrite Hw.
    destruct stored as [| x t]; [congruence |]. cbn [List.length Nat.eqb].
    eexists. exists r. split; [reflexivity |].
    split; [rewrite Heq; apply in_elt | split; reflexivity].
Qed.

(** X8.  In a route set built from a single alternative of positive
    duration, and in the fallback set for two distinct ends, no route is
    more than 1.3 times the mean duration: the length penalty is never
    applied there. *)
Theorem no_length_penalty_on_synthesized_sets (r0 : RawRoute)
  (o d : Location) :
  (0 < raw_duration r0 ->
   let stored := ensureThree 3 (mapi transformRoute [r0]) in
   Forall (fun r => Qgtb (duration r) (avgDuration stored * 1.3) = false)
     stored)
  /\ (0 < haversine (coordinates o) (coordinates d) ->
      let fallback := fallbackRoutes haversine o d in
      Forall (fun r => Qgtb (duration r) (avgDuration fallback * 1.3) = false)
        fallback).
Proof.
  assert (Hle : forall x y, x <= y -> Qgtb x y = false).
  { intros x y H. unfold Qgtb. apply Qle_bool_iff in H. now rewrite H. }
  split.
  - intros Hpos stored. subst stored.
    cbn [ensureThree mapi mapi_from List.length Nat.ltb Nat.leb nth_error
         routeProfiles app].
    unfold avgDuration.
    cbn [fold_left List.length duration synthesize transformRoute
         multiplier].
    change (inject_Z (Z.of_nat 3)) with 3.
    set (t := raw_duration r0) in *.
    assert (Havg : (0 + t + t * 1.1 + t * 1.15) / 3
                   == (t + t * 1.1 + t * 1.15) * (1 # 3)).
    { unfold Qdiv. change (/ 3) with (1 # 3). ring. }
    repeat apply Forall_cons; try apply Forall_nil; apply Hle;
      cbn [duration synthesize transformRoute multiplier]; fold t;
      rewrite Havg; lra.
  - intros Hpos fallback. subst fallback. unfold fallbackRoutes, avgDuration.
    cbn [fold_left List.length duration].
    change (inject_Z (Z.of_nat 3)) with 3.
    set (dist := haversine (coordinates o) (coordinates d)) in *.
    assert (Ht : 0 < dist / 1.4).
    { apply Qlt_shift_div_l; [reflexivity | lra]. }
    set (t := dist / 1.4) in *.
    assert (Havg : (0 + t * 0.9 + t + t * 1.15) / 3
                   == (t * 0.9 + t + t * 1.15) * (1 # 3)).
    { unfold Qdiv. change (/ 3) with (1 # 3). ring. }
    repeat apply Forall_cons; try apply Forall_nil; apply Hle;
      cbn [duration synthesize transformRoute multiplier]; fold t;
      rewrite Havg; lra.
Qed.

End FetchThenRecommend.

Lemma fetch_then_recommend_witness :
  exists r,
    In r (routes (fetchRoutes Sample.flat1400 None Rejected Sample.ready))
    /\ type r = prefMap comfy.
Proof.
  apply (fetch_then_recommend Sample.flat1400 None Rejected Sample.ready
           (o := Sample.washingtonSquare) (d := DEFAULT_DESTINATION));
    reflexivity.
Defined.

(* ================================================================== *)
(** * Further properties of the weather provider *)

(** ** Alerts *)

Lemma find_existsb {A} (f : A -> bool) (l : list A) :
  existsb f l = match find f l with Some _ => true | None => false end.
Proof.
  induction l as [| x t IH]; [reflexivity |]. cbn.
  destruct (f x); [reflexivity | exact IH].
Qed.

Ltac alert_cases :=
  unfold generateAlerts, pushIf;
  repeat match goal with
         | |- context [find ?f ?l] => destruct (find f l)
         | |- context [if ?c then _ else _] => destruct c
         end.

Ltac pick_titles :=
  cbn [map title app];
  repeat (apply subsequence_take || apply subsequence_skip);
  apply subsequence_nil.

(** X9.  The alerts come out in the fixed order of the rules, each rule
    at most once: their titles are the rule titles with some left out.
    At most seven of the eight can appear together. *)
Theorem alerts_follow_rule_order (now : Z) (data : WeatherData) :
  subsequence (map title (generateAlerts now data)) alertOrder
  /\ (List.length (generateAlerts now data) <= 7)%nat.
Proof.
  split.
  - alert_cases; pick_titles.
  - unfold generateAlerts, pushIf.
    destruct (condition (current data));
      cbn [WeatherCondition_eqb negb orb];
      repeat match goal with
             | |- context [find ?f ?l] => destruct (find f l)
             | |- context [if ?c then _ else _] => destruct c
             end; cbn [List.length app]; lia.
Qed.

Ltac alert_cases_for H :=
  unfold generateAlerts, pushIf; rewrite H;
  cbn [WeatherCondition_eqb negb orb];
  repeat match goal with
         | |- context [find ?f ?l] => destruct (find f l)
         | |- context [if ?c then _ else _] => destruct c
         end;
  cbn [map title app In hd_error option_map List.length Nat.ltb Nat.leb].

(** X10.  Active precipitation always raises an alert: rain and drizzle
    give "Currently Raining", a thunderstorm "Thunderstorm Warning", snow
    "Snow"; while it rains, "Rain Expected" is never given.  So whenever
    the engine sees rain or snow in a snapshot, the alerts generated from
    that snapshot are not empty. *)
Theorem precipitation_always_alerts (now : Z) (data : WeatherData) :
  let titles := map title (generateAlerts now data) in
  (condition (current data) = rain ->
   In "Currently Raining"%string titles
   /\ ~ In "Rain Expected"%string titles)
  /\ (condition (current data) = drizzle ->
      In "Currently Raining"%string titles)
  /\ (condition (current data) = thunderstorm ->
      In "Thunderstorm Warning"%string titles)
  /\ (condition (current data) = snow -> In "Snow"%string titles)
  /\ (isRaining (Some data) || isSnowing (Some data) = true ->
      hasWeatherAlerts (generateAlerts now data) = true).
Proof.
  cbv zeta. repeat split.
  - revert H. intro H. alert_cases_for H; auto 10.
  - revert H. intro H. alert_cases_for H; intuition discriminate.
  - intro H. alert_cases_for H; auto 10.
  - intro H. alert_cases_for H; auto 10.
  - intro H. alert_cases_for H; auto 10.
  - unfold isRaining, isSnowing, conditionIs, hasWeatherAlerts.
    destruct (condition (current data)) eqn:H;
      cbn [WeatherCondition_eqb orb]; try discriminate; intros _;
      alert_cases_for H; reflexivity.
Qed.

(** X11.  The top alert is the one of the first rule that applies.  When
    rain is ahead in the next two forecast points and the condition is not
    rain, the top alert is the yellow "Rain Expected", even during a
    thunderstorm; otherwise an active or forecast thunderstorm puts the
    red "Thunderstorm Warning" on top. *)
Theorem top_alert_by_rule_order (now : Z) (data : WeatherData) :
  let top := hd_error (generateAlerts now data) in
  let storm :=
    WeatherCondition_eqb (condition (current data)) thunderstorm
    || existsb (fun h => WeatherCondition_eqb (h_condition h) thunderstorm)
         (slice0 3 (hourly data)) in
  (rainAhead data = true -> condition (current data) <> rain ->
   option_map title top = Some "Rain Expected"%string
   /\ option_map severity top = Some yellow)
  /\ (rainAhead data = false \/ condition (current data) = rain ->
      storm = true ->
      option_map title top = Some "Thunderstorm Warning"%string
      /\ option_map severity top = Some red).
Proof.
  cbv zeta. unfold rainAhead. rewrite find_existsb. split.
  - intros Hahead Hrain. unfold generateAlerts.
    destruct (find rainLikely (slice0 2 (hourly data))); [| discriminate].
    assert (E : WeatherCondition_eqb (condition (current data)) rain = false)
      by (destruct (condition (current data)); congruence || reflexivity).
    rewrite E. cbn [negb app]. unfold pushIf.
    repeat match goal with
           | |- context [if ?c then _ else _] => destruct c
           end; split; reflexivity.
  - intros Hquiet Hstorm. unfold generateAlerts. rewrite Hstorm.
    assert (E : match find rainLikely (slice0 2 (hourly data)) with
                | Some rainSoon =>
                    negb (WeatherCondition_eqb (condition (current data))
                            rain)
                | None => false
                end = false).
    { destruct Hquiet as [Hq | Hq].
      - destruct (find rainLikely (slice0 2 (hourly data)));
          [discriminate | reflexivity].
      - rewrite Hq. now destruct (find rainLikely (slice0 2 (hourly data))). }
    destruct (find rainLikely (slice0 2 (hourly data))) as [rainSoon |].
    + apply negb_false_iff in E. rewrite E. cbn [negb]. unfold pushIf.
      repeat match goal with
             | |- context [if ?c then _ else _] => destruct c
             end; split; reflexivity.
    + unfold pushIf.
      repeat match goal with
             | |- context [if ?c then _ else _] => destruct c
             end; split; reflexivity.
Qed.

(** ** The fetch and the stored state *)

(** X12.  [fetchWeather] keeps alerts and snapshot in step: if the
    stored alerts are those of the stored snapshot before the call (as in
    the initial state), they are so after it, on every path. *)
Theorem fetchWeather_keeps_alerts_in_step (apiKey : string) (now : Z)
  (oneCall : Response OneCallBody) (basic : Response BasicBody)
  (lat lng : Q) (s : WeatherContext.State) :
  alertsMatch s ->
  alertsMatch (fetchWeather apiKey now oneCall basic lat lng s).
Proof.
  intro H. unfold fetchWeather.
  destruct (String.eqb apiKey ""); [exists now; reflexivity |].
  cbv zeta. destruct oneCall as [| | data].
  - exact H.
  - destruct basic as [| | currentData]; [exact H | exact H |].
    destruct (convertBasic now currentData) as [w |]; [| exact H].
    unfold alertsMatch, storeSunTimes.
    destruct (truthyZ (sys_sunrise currentData));
      destruct (truthyZ (sys_sunset currentData)); exists now; reflexivity.
  - destruct (convertOneCall now data) as [w |].
    + exists now. reflexivity.
    + unfold alertsMatch, storeSunTimes in *.
      destruct (truthyZ (oc_sunrise (data_current data)));
        destruct (truthyZ (oc_sunset (data_current data))); exact H.
Qed.

Lemma fetchWeather_keeps_alerts_in_step_witness :
  alertsMatch (fetchWeather "demo-key" 0 NotOk Rejected 40.7295 (-73.9965)
                 WeatherContext.initialState).
Proof.
  apply (fetchWeather_keeps_alerts_in_step "demo-key" 0 NotOk Rejected
           40.7295 (-73.9965) WeatherContext.initialState).
  reflexivity.
Defined.

(** X13.  With a credential, the error state after [fetchWeather] tells
    exactly whether this fetch failed: a success clears an earlier error,
    stores the converted snapshot with its alerts, and the loading flag
    is down either way.  Without a credential an earlier error is left
    in place. *)
Theorem fetchWeather_error_tracks_last_fetch (apiKey : string) (now : Z)
  (oneCall : Response OneCallBody) (basic : Response BasicBody)
  (lat lng : Q) (s : WeatherContext.State) :
  (apiKey <> ""%string ->
   let s' := fetchWeather apiKey now oneCall basic lat lng s in
   WeatherContext.error s'
   = (if liveFetchFails now oneCall basic
      then Some "Failed to fetch weather data"%string else None)
   /\ WeatherContext.isLoading s' = false
   /\ (liveFetchFails now oneCall basic = false ->
       exists w, weather s' = Some w
                 /\ alerts s' = generateAlerts now w
                 /\ lastUpdated w = now))
  /\ WeatherContext.error (fetchWeather "" now oneCall basic lat lng s)
     = WeatherContext.error s.
Proof.
  split; [| reflexivity].
  intros Hkey. unfold fetchWeather.
  apply String.eqb_neq in Hkey. rewrite Hkey. cbv zeta.
  unfold liveFetchFails, storeSunTimes.
  destruct oneCall as [| | data].
  - repeat split. discriminate.
  - destruct basic as [| | currentData];
      [repeat split; discriminate | repeat split; discriminate |].
    unfold convertBasic.
    destruct (b_weather currentData) as [| w0 ws];
      [repeat split; discriminate |].
    destruct (truthyZ (sys_sunrise currentData));
      destruct (truthyZ (sys_sunset currentData));
      repeat split; eexists; repeat split.
  - destruct (truthyZ (oc_sunrise (data_current data)));
      destruct (truthyZ (oc_sunset (data_current data)));
      (destruct (convertOneCall now data) as [w |] eqn:E;
       [| repeat split; discriminate]);
      (repeat split; exists w; repeat split;
       unfold convertOneCall in E;
       destruct (oc_weather (data_current data)); [discriminate |];
       destruct (convertHours (slice0 12 (data_hourly data)));
       [| discriminate]; injection E as <-; reflexivity).
Qed.

Lemma fetchWeather_error_tracks_last_fetch_witness :
  WeatherContext.isLoading
    (fetchWeather "demo-key" 0 Rejected Rejected 40.7295 (-73.9965)
       WeatherContext.initialState) = false.
Proof.
  apply (proj1 (fetchWeather_error_tracks_last_fetch "demo-key" 0 Rejected
                  Rejected 40.7295 (-73.9965) WeatherContext.initialState)).
  discriminate.
Defined.

(** ** Unit conversions and condition codes *)

Lemma round_near (x : Q) :
  x - 0.5 < inject_Z (round x) /\ inject_Z (round x) <= x + 0.5.
Proof.
  unfold round. split.
  - assert (H := Qlt_floor (x + 0.5)). rewrite inject_Z_plus in H.
    change (inject_Z 1) with 1 in H. lra.
  - apply Qfloor_le.
Qed.

Lemma round_monotone (x y : Q) : x <= y -> (round x <= round y)%Z.
Proof. intro H. unfold round. apply Qfloor_resp_le. lra. Qed.

(** X14.  The displayed temperature is within half a degree of the exact
    Fahrenheit value of the Kelvin reading, the displayed wind speed
    within half a mile per hour of 2.237 times the reading; both
    conversions are monotone, and a non-negative wind reading never shows
    as negative. *)
Theorem conversions_round_to_nearest (k k' ms ms' : Q) :
  (let exact := (k - 273.15) * 9 / 5 + 32 in
   exact - 0.5 < inject_Z (kelvinToFahrenheit k)
   /\ inject_Z (kelvinToFahrenheit k) <= exact + 0.5)
  /\ (k <= k' -> (kelvinToFahrenheit k <= kelvinToFahrenheit k')%Z)
  /\ (ms * 2.237 - 0.5 < inject_Z (msToMph ms)
      /\ inject_Z (msToMph ms) <= ms * 2.237 + 0.5)
  /\ (ms <= ms' -> (msToMph ms <= msToMph ms')%Z)
  /\ (0 <= ms -> (0 <= msToMph ms)%Z).
Proof.
  unfold kelvinToFahrenheit, msToMph. cbv zeta.
  split; [apply round_near |].
  split; [intro H; apply round_monotone; unfold Qdiv;
          change (/ 5) with (1 # 5); lra |].
  split; [apply round_near |].
  split; [intro H; apply round_monotone; lra |].
  intro H. change 0%Z with (round 0). apply round_monotone. lra.
Qed.

Lemma mapCondition_not_mist (weatherId : Z) : mapCondition weatherId <> mist.
Proof.
  unfold mapCondition.
  repeat match goal with
         | |- context [if ?c then _ else _] => destruct c
         end; discriminate.
Qed.

Lemma convertHours_none (l : list OneCallHour) :
  convertHours l = None <-> Exists (fun h => hr_weather h = []) l.
Proof.
  induction l as [| h t IH]; cbn [convertHours].
  - split; [discriminate | intro H; inversion H].
  - unfold convertHour. destruct (hr_weather h) as [| w0 ws] eqn:E.
    + split; [intros _; now constructor | reflexivity].
    + destruct (convertHours t) as [t' |].
      * split; [discriminate |]. intro H. inversion H as [? ? Hh | ? ? Ht].
        -- congruence.
        -- apply IH in Ht. discriminate.
      * split; [| reflexivity]. intros _. apply Exists_cons_tl.
        now apply IH.
Qed.

Lemma convertHours_some (l : list OneCallHour) (l' : list HourlyForecast) :
  convertHours l = Some l' ->
  List.length l' = List.length l
  /\ map time l' = map (fun h => (hr_dt h * 1000)%Z) l
  /\ Forall (fun h => h_condition h <> mist) l'.
Proof.
  revert l'. induction l as [| h t IH]; intros l'; cbn [convertHours].
  - intros [= <-]. repeat split. constructor.
  - unfold convertHour. destruct (hr_weather h) as [| w0 ws]; [discriminate |].
    destruct (convertHours t) as [t' |]; [| discriminate].
    intros [= <-]. destruct (IH t' eq_refl) as (Hlen & Htime & Hmist).
    cbn. rewrite Hlen, Htime. repeat split.
    constructor; [apply mapCondition_not_mist | exact Hmist].
Qed.

(** X15.  The One Call body cannot be converted exactly when its current
    weather array is empty or one of the first twelve hourly entries has
    an empty weather array.  When it can, the snapshot keeps the first
    twelve hourly entries (all of them if fewer) with their times in
    milliseconds, is stamped with the time of the fetch, and its location
    name is never empty. *)
Theorem oneCall_conversion (now : Z) (data : OneCallBody) :
  (convertOneCall now data = None
   <-> oc_weather (data_current data) = []
       \/ Exists (fun h => hr_weather h = []) (slice0 12 (data_hourly data)))
  /\ forall w,
       convertOneCall now data = Some w ->
       List.length (hourly w) = Nat.min 12 (List.length (data_hourly data))
       /\ map time (hourly w)
          = map (fun h => (hr_dt h * 1000)%Z) (slice0 12 (data_hourly data))
       /\ lastUpdated w = now
       /\ locationName w <> ""%string.
Proof.
  unfold convertOneCall. split.
  - destruct (oc_weather (data_current data)) as [| w0 ws].
    + split; [now left | reflexivity].
    + destruct (convertHours (slice0 12 (data_hourly data))) as [hs |] eqn:E.
      * split; [discriminate |]. intros [H | H]; [discriminate |].
        apply convertHours_none in H. congruence.
      * split; [| reflexivity]. intros _. right.
        now apply convertHours_none.
  - intros w.
    destruct (oc_weather (data_current data)) as [| w0 ws]; [discriminate |].
    destruct (convertHours (slice0 12 (data_hourly data))) as [hs |] eqn:E;
      [| discriminate].
    intros [= <-]. cbn [hourly lastUpdated locationName].
    destruct (convertHours_some _ E) as (Hlen & Htime & _).
    rewrite Hlen. unfold slice0. rewrite length_firstn.
    repeat split; [exact Htime |].
    unfold orString.
    destruct (replaceUnderscore (lastSegment "" (data_timezone data)));
      discriminate.
Qed.

(** X16.  A precipitation chance between 0 and 1, or a missing one, is
    shown as a whole percentage between 0 and 100. *)
Theorem precip_probability_bounds (h : OneCallHour) (h' : HourlyForecast) :
  convertHour h = Some h' ->
  match hr_pop h with
  | Some pop => 0 <= pop /\ pop <= 1
  | None => True
  end ->
  (0 <= precipProbability h' <= 100)%Z.
Proof.
  unfold convertHour. destruct (hr_weather h) as [| w0 ws]; [discriminate |].
  intros [= <-] Hpop. cbn [precipProbability].
  assert (Hrange : 0 <= orQ (hr_pop h) 0 * 100
                   /\ orQ (hr_pop h) 0 * 100 <= 100).
  { unfold orQ. destruct (hr_pop h) as [pop |]; [| lra].
    destruct (Qeq_bool pop 0); lra. }
  destruct Hrange as [Hlo Hhi].
  split.
  - change 0%Z with (round 0). now apply round_monotone.
  - change 100%Z with (round 100). now apply round_monotone.
Qed.

Lemma precip_probability_bounds_witness :
  (0 <= precipProbability
          {| time := 0; h_temp := 62; h_condition := rain;
             h_description := "light rain"; h_icon := "10d";
             precipProbability := 35; h_precipitation := 0 |} <= 100)%Z.
Proof.
  apply (precip_probability_bounds
           {| hr_dt := 0; hr_temp := 290;
              hr_weather := [ {| w_id := 500;
                                 w_description := "light rain";
                                 w_icon := "10d" |} ];
              hr_pop := Some 0.35; hr_rain_1h := None;
              hr_snow_1h := None |}).
  - reflexivity.
  - cbn. lra.
Defined.

(** X17.  No fetch path produces the condition [mist]: the mock is
    clear and [mapCondition] never answers [mist], so a state whose
    snapshot is free of it stays so. *)
Theorem fetchWeather_never_mist (apiKey : string) (now : Z)
  (oneCall : Response OneCallBody) (basic : Response BasicBody)
  (lat lng : Q) (s : WeatherContext.State) :
  (forall w, weather s = Some w -> mistFree w) ->
  forall w,
    weather (fetchWeather apiKey now oneCall basic lat lng s) = Some w ->
    mistFree w.
Proof.
  intros Hs w. unfold fetchWeather.
  destruct (String.eqb apiKey "").
  - cbn. intros [= <-]. split; [discriminate |].
    cbn. repeat constructor; discriminate.
  - cbv zeta. unfold storeSunTimes. destruct oneCall as [| | data].
    + apply Hs.
    + destruct basic as [| | currentData]; try apply Hs.
      destruct (convertBasic now currentData) as [wb |] eqn:E; [| apply Hs].
      unfold convertBasic in E.
      destruct (b_weather currentData) as [| w0 ws]; [discriminate |].
      injection E as <-.
      destruct (truthyZ (sys_sunrise currentData));
        destruct (truthyZ (sys_sunset currentData));
        cbn; intros [= <-]; (split; [apply mapCondition_not_mist |
                                     constructor]).
    + destruct (convertOneCall now data) as [wo |] eqn:E.
      * cbn. intros [= <-]. unfold convertOneCall in E.
        destruct (oc_weather (data_current data)) as [| w0 ws];
          [discriminate |].
        destruct (convertHours (slice0 12 (data_hourly data))) as [hs |] eqn:Eh;
          [| discriminate].
        injection E as <-. split; [apply mapCondition_not_mist |].
        apply (convertHours_some _ Eh).
      * destruct (truthyZ (oc_sunrise (data_current data)));
          destruct (truthyZ (oc_sunset (data_current data))); apply Hs.
Qed.

Lemma fetchWeather_never_mist_witness : mistFree (mockWeather 0).
Proof.
  apply (fetchWeather_never_mist "" 0 Rejected Rejected 40.7295 (-73.9965)
           WeatherContext.initialState).
  - intros w H. discriminate H.
  - reflexivity.
Defined.

(** ** Time context *)

Ltac settle_cmp :=
  repeat match goal with
         | |- context [(?a >=? ?b)%Z] => rewrite (Z.geb_leb a b)
         | |- context [(?a >? ?b)%Z] => rewrite (Z.gtb_ltb a b)
         | |- context [(?a <? ?b)%Z] =>
             first [ rewrite (proj2 (Z.ltb_lt a b)) by lia
                   | rewrite (proj2 (Z.ltb_ge a b)) by lia ]
         | |- context [(?a <=? ?b)%Z] =>
             first [ rewrite (proj2 (Z.leb_le a b)) by lia
                   | rewrite (proj2 (Z.leb_gt a b)) by lia ]
         end;
  cbn [andb orb negb].

Lemma hour_bands (h : Z) :
  (h < 1 \/ 1 <= h < 5 \/ 5 <= h < 7 \/ 7 <= h < 12 \/ 12 <= h < 14
   \/ 14 <= h < 17 \/ 17 <= h < 21 \/ 21 <= h)%Z.
Proof. lia. Qed.

Lemma getTimeOfDay_late_night (h : Z) :
  getTimeOfDay h = late_night <-> (1 <= h < 5)%Z.
Proof.
  unfold getTimeOfDay.
  destruct (hour_bands h) as [H | [H | [H | [H | [H | [H | [H | H]]]]]]];
    settle_cmp; split; intro E; (discriminate E || lia || reflexivity).
Qed.

Lemma getTimeOfDay_rush (h : Z) :
  ((7 <= h < 9)%Z -> getTimeOfDay h = morning)
  /\ ((17 <= h < 19)%Z -> getTimeOfDay h = evening).
Proof.
  unfold getTimeOfDay. split; intro H; settle_cmp; reflexivity.
Qed.

Section TimeFacts.

Variable toLocaleTimeString : Z -> string.

Lemma calculateTimeContext_fields (now : Clock) (sunrise sunset : option Z) :
  let tc := calculateTimeContext toLocaleTimeString now sunrise sunset in
  timeOfDay tc = getTimeOfDay (getHours now)
  /\ WeatherContext.isWeekend tc
     = ((getDay now =? 0) || (getDay now =? 6))%Z
  /\ WeatherContext.isRushHour tc
     = negb ((getDay now =? 0) || (getDay now =? 6))%Z
       && (((getHours now >=? 7) && (getHours now <? 9))
           || ((getHours now >=? 17) && (getHours now <? 19)))%Z.
Proof.
  cbv zeta. unfold calculateTimeContext.
  destruct (truthyZ sunrise); [destruct (truthyZ sunset) |];
    repeat split.
Qed.

(** X18.  In a computed time context the band is that of the hour;
    rush hour only occurs on weekdays and inside the morning or evening
    band, and the late-night band is exactly the hours 1 to 4.  So the
    engine's rush-hour rule never meets its late-night rule nor its
    weekend rule. *)
Theorem time_context_bands (now : Clock) (sunrise sunset : option Z) :
  let tc := calculateTimeContext toLocaleTimeString now sunrise sunset in
  timeOfDay tc = getTimeOfDay (getHours now)
  /\ (WeatherContext.isRushHour tc = true ->
      WeatherContext.isWeekend tc = false
      /\ (timeOfDay tc = morning \/ timeOfDay tc = evening))
  /\ (timeOfDay tc = late_night <-> (1 <= getHours now < 5)%Z)
  /\ RoutesList.isRushHour tc && isLateNight tc = false
  /\ RoutesList.isRushHour tc && RoutesList.isWeekend tc = false.
Proof.
  intro tc.
  destruct (calculateTimeContext_fields now sunrise sunset)
    as (Hband & Hweekend & Hrush).
  fold tc in Hband, Hweekend, Hrush.
  assert (Hwhen : WeatherContext.isRushHour tc = true ->
                  WeatherContext.isWeekend tc = false
                  /\ ((7 <= getHours now < 9)%Z
                      \/ (17 <= getHours now < 19)%Z)).
  { rewrite Hrush, Hweekend. intro H. apply andb_prop in H as [Hw Hh].
    split; [now apply negb_true_iff |].
    apply orb_prop in Hh as [Hh | Hh]; apply andb_prop in Hh as [H1 H2];
      apply Z.geb_le in H1; apply Z.ltb_lt in H2; [left | right]; lia. }
  split; [exact Hband |]. split; [| split; [| split]].
  - intro H. destruct (Hwhen H) as [Hw Hh]. split; [exact Hw |].
    rewrite Hband. destruct Hh as [Hh | Hh];
      [left | right]; now apply getTimeOfDay_rush.
  - rewrite Hband. apply getTimeOfDay_late_night.
  - unfold RoutesList.isRushHour, isLateNight, currentTimeOfDay.
    destruct (WeatherContext.isRushHour tc) eqn:E; [| reflexivity].
    destruct (Hwhen eq_refl) as [_ Hh]. cbn [andb]. rewrite Hband.
    destruct Hh as [Hh | Hh]; apply getTimeOfDay_rush in Hh; now rewrite Hh.
  - unfold RoutesList.isRushHour, RoutesList.isWeekend.
    destruct (WeatherContext.isRushHour tc) eqn:E; [| reflexivity].
    destruct (Hwhen eq_refl) as [Hw _]. now rewrite Hw.
Qed.

End TimeFacts.

Section DarknessFacts.

Variable toLocaleTimeString : Z -> string.

(** The darkness test of the seasonal heuristic. *)
Lemma heuristic_darkness (summer : bool) (h m : Z) :
  (0 <= m < 60)%Z ->
  let sunriseHour := if summer then 5.5 else 6.5 in
  let sunsetHour := if summer then 20 else 17.5 in
  let t := inject_Z h + inject_Z m / 60 in
  ((7 <= h <= 16)%Z -> Qltb t sunriseHour || Qgtb t sunsetHour = false)
  /\ ((h <= 4 \/ 21 <= h)%Z -> Qltb t sunriseHour || Qgtb t sunsetHour = true).
Proof.
  intros Hm. cbv zeta.
  assert (Hm0 : 0 <= inject_Z m / 60).
  { apply Qle_shift_div_l; [reflexivity |]. rewrite Qmult_0_l.
    change 0 with (inject_Z 0). rewrite <- Zle_Qle. lia. }
  assert (Hm1 : inject_Z m / 60 < 1).
  { apply Qlt_shift_div_r; [reflexivity |]. rewrite Qmult_1_l.
    change 60 with (inject_Z 60). rewrite <- Zlt_Qlt. lia. }
  set (frac := inject_Z m / 60) in *.
  unfold Qltb, Qgtb. split.
  - intros [H7 H16].
    assert (H7' : 7 <= inject_Z h)
      by (change 7 with (inject_Z 7); rewrite <- Zle_Qle; lia).
    assert (H16' : inject_Z h <= 16)
      by (change 16 with (inject_Z 16); rewrite <- Zle_Qle; lia).
    apply orb_false_iff. split; apply negb_false_iff; apply Qle_bool_iff;
      destruct summer; lra.
  - intros [H4 | H21].
    + assert (H4' : inject_Z h <= 4)
        by (change 4 with (inject_Z 4); rewrite <- Zle_Qle; lia).
      apply orb_true_iff. left. apply negb_true_iff.
      apply not_true_is_false. rewrite Qle_bool_iff. destruct summer; lra.
    + assert (H21' : 21 <= inject_Z h)
        by (change 21 with (inject_Z 21); rewrite <- Zle_Qle; lia).
      apply orb_true_iff. right. apply negb_true_iff.
      apply not_true_is_false. rewrite Qle_bool_iff. destruct summer; lra.
Qed.

(** X19.  Without usable sun times (one of them missing, or given as 0)
    darkness follows the clock alone, and no sunrise or sunset text is
    produced: from 7:00 to 16:59 it is never dark, before 5:00 and from
    21:00 on it always is, whatever the month. *)
Theorem darkness_without_sun_times (now : Clock) (sunrise sunset : option Z) :
  sunrise = None \/ sunrise = Some 0%Z \/ sunset = None \/ sunset = Some 0%Z ->
  (0 <= getMinutes now < 60)%Z ->
  let tc := calculateTimeContext toLocaleTimeString now sunrise sunset in
  sunriseTime tc = None /\ sunsetTime tc = None
  /\ ((7 <= getHours now <= 16)%Z -> WeatherContext.isDark tc = false)
  /\ ((getHours now <= 4 \/ 21 <= getHours now)%Z ->
      WeatherContext.isDark tc = true).
Proof.
  intros Hsun Hmin. cbv zeta. unfold calculateTimeContext.
  destruct (heuristic_darkness
              ((getMonth now >=? 4) && (getMonth now <=? 8))%Z
              (getHours now) Hmin) as [Hday Hnight].
  assert (E : truthyZ sunrise = None \/ truthyZ sunset = None).
  { destruct Hsun as [-> | [-> | [-> | ->]]]; cbn; auto. }
  destruct (truthyZ sunrise) as [a |]; [destruct (truthyZ sunset) as [b |] |].
  - destruct E; discriminate.
  - cbn [sunriseTime sunsetTime WeatherContext.isDark]. auto.
  - cbn [sunriseTime sunsetTime WeatherContext.isDark]. auto.
Qed.

End DarknessFacts.

Lemma darkness_without_sun_times_witness :
  WeatherContext.isDark
    (calculateTimeContext Sample.noonText Sample.noon (Some 0%Z) None)
  = false.
Proof.
  apply (darkness_without_sun_times Sample.noonText Sample.noon
           (sunrise := Some 0%Z) (sunset := None)).
  - right. left. reflexivity.
  - cbn. lia.
  - cbn. lia.
Defined.

(** ** Weather tags *)

(** X20.  [getRouteWeatherTags] answers no tag without a snapshot, never
    more than four tags, and never both "Covered routes preferred" and
    "Great walking weather". *)
Theorem weather_tags_bounded (weather : option WeatherData) :
  getRouteWeatherTags None = []
  /\ (List.length (getRouteWeatherTags weather) <= 4)%nat
  /\ ~ (In "☂️ Covered routes preferred"%string (getRouteWeatherTags weather)
        /\ In "☀️ Great walking weather"%string
             (getRouteWeatherTags weather)).
Proof.
  split; [reflexivity |].
  destruct weather as [w |]; [| cbn; split; [lia | tauto]].
  unfold getRouteWeatherTags, pushIf.
  destruct (condition (current w));
    cbn [WeatherCondition_eqb orb andb];
    repeat match goal with
           | |- context [if ?c then _ else _] => destruct c
           end; cbn [List.length app In];
    (split; [lia | intuition discriminate]).
Qed.

(* ================================================================== *)
(** * Further properties of the route list and its callers *)

(** ** The order of the cards *)

Section CardOrder.

Variable rec : Recommendation.

Abbreviation cmp := (recommendedFirst (Some rec)).
Abbreviation marked := (isRecommended (Some rec)).

Lemma insert_unmarked (x : RouteData) (l : list RouteData) :
  marked x = false -> Forall (fun y => marked y = false) l ->
  insert cmp x l = x :: l.
Proof.
  intros Hx Hl. destruct l as [| y t]; [reflexivity |].
  inversion Hl as [| ? ? Hy Ht]; subst.
  cbn [insert]. unfold recommendedFirst. rewrite Hx, Hy. reflexivity.
Qed.

Lemma sort_unmarked (l : list RouteData) :
  Forall (fun y => marked y = false) l -> sort cmp l = l.
Proof.
  induction 1 as [| x t Hx Ht IH]; [reflexivity |].
  cbn [sort fold_right]. fold (sort cmp t). rewrite IH.
  now apply insert_unmarked.
Qed.

Lemma insert_marked (x : RouteData) (l : list RouteData) :
  marked x = true -> insert cmp x l = x :: l.
Proof.
  intro Hx. destruct l as [| y t]; [reflexivity |].
  cbn [insert]. unfold recommendedFirst. rewrite Hx. reflexivity.
Qed.

(** With the recommended route the only marked one, sorting moves it to
    the front and keeps every other route in place. *)
Lemma sort_marked_first (before after : list RouteData)
  (chosen : RouteData) :
  marked chosen = true ->
  Forall (fun y => marked y = false) before ->
  Forall (fun y => marked y = false) after ->
  sort cmp (before ++ chosen :: after) = chosen :: (before ++ after)%list.
Proof.
  intros Hc Hb Ha. induction Hb as [| x t Hx Ht IH].
  - cbn [app sort fold_right]. fold (sort cmp after).
    rewrite (sort_unmarked Ha). now apply insert_marked.
  - cbn [app sort fold_right]. fold (sort cmp (t ++ chosen :: after)).
    rewrite IH. cbn [insert]. unfold recommendedFirst at 1.
    rewrite Hx, Hc. cbn [Qle_bool Qnum Qden Z.mul Z.leb Z.compare
                          Pos.mul Pos.compare Pos.compare_cont].
    f_equal. apply insert_unmarked; [exact Hx |].
    apply Forall_app. split; assumption.
Qed.

End CardOrder.

Lemma unique_id_marks_one (before after : list RouteData)
  (chosen : RouteData) (rec : Recommendation) :
  NoDup (map id (before ++ chosen :: after)) ->
  routeId rec = id chosen ->
  isRecommended (Some rec) chosen = true
  /\ Forall (fun y => isRecommended (Some rec) y = false) before
  /\ Forall (fun y => isRecommended (Some rec) y = false) after.
Proof.
  intros Hnd Hid. unfold isRecommended. rewrite Hid.
  split; [apply String.eqb_refl |].
  rewrite map_app in Hnd. cbn [map] in Hnd.
  apply NoDup_remove_2 in Hnd.
  split; apply Forall_forall; intros y Hy; apply String.eqb_neq;
    intro E; apply Hnd; apply in_or_app; [left | right];
    rewrite E; now apply in_map.
Qed.

(** X21.  When the routes carry pairwise different ids, the card list
    shows the route the engine recommends first and the other routes
    after it in their stored order; the recommended mark is on that first
    card and on no other. *)
Theorem recommended_card_first (routes : list RouteData)
  (pref : RoutePreference) (weather : option WeatherData)
  (alerts : list WeatherAlert) (tc : TimeContext) (month : Z) :
  NoDup (map id routes) -> routes <> [] ->
  let smartRecommendation :=
    getSmartRecommendation routes pref weather alerts tc month in
  exists before chosen after,
    routes = (before ++ chosen :: after)%list
    /\ cardOrder smartRecommendation routes
       = chosen :: (before ++ after)%list
    /\ isRecommended smartRecommendation chosen = true
    /\ Forall (fun r => isRecommended smartRecommendation r = false)
         (before ++ after).
Proof.
  intros Hnd Hne smartRecommendation.
  destruct (best_some pref weather tc month Hne) as [b Hb].
  destruct (best_in_routes _ _ _ _ _ Hb) as (l1 & r & l2 & Heq & Hbr & _).
  assert (Hrec : smartRecommendation
                 = Some {| routeId := id r; routeType := type r;
                           reason := reasonText weather alerts tc
                                       (reasonBranch weather alerts tc
                                          month b) |}).
  { subst smartRecommendation. unfold getSmartRecommendation. rewrite Hb.
    destruct routes; [congruence |]. cbn [List.length Nat.eqb].
    rewrite Hbr. reflexivity. }
  rewrite Hrec. rewrite Heq in Hnd.
  destruct (@unique_id_marks_one l1 l2 r
              {| routeId := id r; routeType := type r;
                 reason := reasonText weather alerts tc
                             (reasonBranch weather alerts tc month b) |}
              Hnd eq_refl) as (Hc & H1 & H2).
  exists l1, r, l2. split; [exact Heq |].
  split; [| split; [exact Hc | apply Forall_app; split; assumption]].
  unfold cardOrder. rewrite Heq. now apply sort_marked_first.
Qed.

Lemma recommended_card_first_witness :
  exists before chosen after,
    Sample.routes = (before ++ chosen :: after)%list
    /\ cardOrder (getSmartRecommendation Sample.routes fast None []
                    Sample.weekdayNight 0) Sample.routes
       = chosen :: (before ++ after)%list
    /\ isRecommended (getSmartRecommendation Sample.routes fast None []
                        Sample.weekdayNight 0) chosen = true
    /\ Forall (fun r => isRecommended
                          (getSmartRecommendation Sample.routes fast None []
                             Sample.weekdayNight 0) r = false)
         (before ++ after).
Proof.
  apply (recommended_card_first (routes := Sample.routes) fast None []
           Sample.weekdayNight 0).
  - cbn. repeat constructor; cbn; intuition discriminate.
  - discriminate.
Defined.

(** ** The reasons a route collects *)

Ltac block_tags :=
  intros; unfold tagsOf, when, add, push; cbn [score reasons];
  split_ifs; cbn [score reasons app]; rewrite ?app_nil_r, <- ?app_assoc;
  reflexivity.

Section ReasonFacts.

Variable routes : list RouteData.
Variable pref : RoutePreference.
Variable weather : option WeatherData.
Variable tc : TimeContext.
Variable month : Z.

Lemma preferenceBlock_tags r t :
  reasons (preferenceBlock pref r t)
  = (reasons t ++ tagsOf (preferenceBlock pref) r)%list.
Proof. unfold preferenceBlock. block_tags. Qed.

Lemma rainSnowBlock_tags r t :
  reasons (rainSnowBlock weather r t)
  = (reasons t ++ tagsOf (rainSnowBlock weather) r)%list.
Proof. unfold rainSnowBlock. block_tags. Qed.

Lemma hotBlock_tags r t :
  reasons (hotBlock weather month r t)
  = (reasons t ++ tagsOf (hotBlock weather month) r)%list.
Proof. unfold hotBlock. block_tags. Qed.

Lemma coldBlock_tags r t :
  reasons (coldBlock weather r t)
  = (reasons t ++ tagsOf (coldBlock weather) r)%list.
Proof. unfold coldBlock. block_tags. Qed.

Lemma windBlock_tags r t :
  reasons (windBlock weather r t)
  = (reasons t ++ tagsOf (windBlock weather) r)%list.
Proof. unfold windBlock. block_tags. Qed.

Lemma darkBlock_tags r t :
  reasons (darkBlock tc r t) = (reasons t ++ tagsOf (darkBlock tc) r)%list.
Proof. unfold darkBlock. block_tags. Qed.

Lemma lateNightBlock_tags r t :
  reasons (lateNightBlock tc r t)
  = (reasons t ++ tagsOf (lateNightBlock tc) r)%list.
Proof. unfold lateNightBlock. block_tags. Qed.

Lemma rushHourBlock_tags r t :
  reasons (rushHourBlock tc r t)
  = (reasons t ++ tagsOf (rushHourBlock tc) r)%list.
Proof. unfold rushHourBlock. block_tags. Qed.

Lemma middayBlock_tags r t :
  reasons (middayBlock weather tc r t)
  = (reasons t ++ tagsOf (middayBlock weather tc) r)%list.
Proof. unfold middayBlock. block_tags. Qed.

Lemma weekendBlock_tags r t :
  reasons (weekendBlock weather tc r t)
  = (reasons t ++ tagsOf (weekendBlock weather tc) r)%list.
Proof. unfold weekendBlock. block_tags. Qed.

Lemma safetyBlock_tags r t :
  reasons (safetyBlock r t) = (reasons t ++ tagsOf safetyBlock r)%list.
Proof. unfold safetyBlock. block_tags. Qed.

Lemma lengthBlock_tags r t :
  reasons (lengthBlock routes r t)
  = (reasons t ++ tagsOf (lengthBlock routes) r)%list.
Proof. unfold lengthBlock. block_tags. Qed.

Lemma includes_app (l m : list string) (tag : string) :
  includes (l ++ m) tag = includes l tag || includes m tag.
Proof. unfold includes. apply existsb_app. Qed.

(** A tag is among a route's reasons when one of the twelve blocks
    pushed it. *)
Lemma includes_by_block (r : RouteData) (tag : string) :
  includes (reasons (total (scoreRoute routes pref weather tc month r))) tag
  = includes (tagsOf (preferenceBlock pref) r) tag
    || includes (tagsOf (rainSnowBlock weather) r) tag
    || includes (tagsOf (hotBlock weather month) r) tag
    || includes (tagsOf (coldBlock weather) r) tag
    || includes (tagsOf (windBlock weather) r) tag
    || includes (tagsOf (darkBlock tc) r) tag
    || includes (tagsOf (lateNightBlock tc) r) tag
    || includes (tagsOf (rushHourBlock tc) r) tag
    || includes (tagsOf (middayBlock weather tc) r) tag
    || includes (tagsOf (weekendBlock weather tc) r) tag
    || includes (tagsOf safetyBlock r) tag
    || includes (tagsOf (lengthBlock routes) r) tag.
Proof.
  unfold scoreRoute. cbn [total].
  rewrite lengthBlock_tags, safetyBlock_tags, weekendBlock_tags,
    middayBlock_tags, rushHourBlock_tags, lateNightBlock_tags,
    darkBlock_tags, windBlock_tags, coldBlock_tags, hotBlock_tags,
    rainSnowBlock_tags, preferenceBlock_tags.
  cbn [reasons app]. rewrite !includes_app. reflexivity.
Qed.

End ReasonFacts.

Ltac tags_eval :=
  unfold tagsOf, preferenceBlock, rainSnowBlock, hotBlock, coldBlock,
    windBlock, darkBlock, lateNightBlock, rushHourBlock, middayBlock,
    weekendBlock, safetyBlock, lengthBlock, when, push, add;
  cbn [score reasons]; split_ifs; reflexivity.

Ltac drop_silent_blocks :=
  repeat match goal with
         | |- context [includes (tagsOf ?blk ?r) ?tag] =>
             let E := fresh "E" in
             assert (E : includes (tagsOf blk r) tag = false) by tags_eval;
             rewrite E; clear E
         end;
  cbn [orb]; rewrite ?orb_false_r.

Section TagFacts.

Variable routes : list RouteData.
Variable pref : RoutePreference.
Variable weather : option WeatherData.
Variable tc : TimeContext.
Variable month : Z.
Variable r : RouteData.

Abbreviation collected :=
  (reasons (total (scoreRoute routes pref weather tc month r))).

Lemma preference_tag :
  includes collected "matches your preference"
  = RouteType_eqb (type r) (prefMap pref).
Proof.
  rewrite includes_by_block. drop_silent_blocks.
  unfold tagsOf, preferenceBlock, when, push, add.
  now destruct (RouteType_eqb (type r) (prefMap pref)).
Qed.

Lemma shade_tag :
  includes collected "good shade coverage"
  = isHotWeather weather month && (shadePercent (comfort r) >=? 60)%Z.
Proof.
  rewrite includes_by_block. drop_silent_blocks.
  unfold tagsOf, hotBlock, when, push, add.
  destruct (isHotWeather weather month); [| reflexivity].
  cbn [andb score reasons].
  destruct (shadePercent (comfort r) >=? 60)%Z; split_ifs; reflexivity.
Qed.

Lemma exposure_tag :
  includes collected "shorter exposure time"
  = isColdWeather weather && RouteType_eqb (type r) fastest.
Proof.
  rewrite includes_by_block. drop_silent_blocks.
  unfold tagsOf, coldBlock, when, push, add.
  destruct (isColdWeather weather); [| reflexivity].
  cbn [andb score reasons].
  destruct (RouteType_eqb (type r) fastest); split_ifs; reflexivity.
Qed.

Lemma wind_tag :
  includes collected "wind-protected"
  = isWindy weather && RouteType_eqb (type r) comfortable.
Proof.
  rewrite includes_by_block. drop_silent_blocks.
  unfold tagsOf, windBlock, when, push, add.
  destruct (isWindy weather); [| reflexivity].
  cbn [andb score reasons].
  destruct (RouteType_eqb (type r) comfortable); split_ifs; reflexivity.
Qed.

Lemma lit_tag :
  includes collected "well-lit for dark hours"
  = RoutesList.isDark tc && Lighting_eqb (lightingLevel (safety r)) well_lit.
Proof.
  rewrite includes_by_block. drop_silent_blocks.
  unfold tagsOf, darkBlock, when, push, add.
  destruct (RoutesList.isDark tc); [| reflexivity].
  cbn [andb score reasons].
  destruct (lightingLevel (safety r)); split_ifs; reflexivity.
Qed.

Lemma lateNight_tag :
  includes collected "safest for late night"
  = isLateNight tc && RouteType_eqb (type r) safest.
Proof.
  rewrite includes_by_block. drop_silent_blocks.
  unfold tagsOf, lateNightBlock, when, push, add.
  destruct (isLateNight tc); [| reflexivity].
  cbn [andb score reasons].
  destruct (RouteType_eqb (type r) safest); split_ifs; reflexivity.
Qed.

Lemma rushHour_tag :
  includes collected "wide sidewalks for rush hour"
  = RoutesList.isRushHour tc
    && SidewalkCoverage_eqb (sidewalkCoverage (safety r)) continuous.
Proof.
  rewrite includes_by_block. drop_silent_blocks.
  unfold tagsOf, rushHourBlock, when, push, add.
  destruct (RoutesList.isRushHour tc); [| reflexivity].
  cbn [andb score reasons].
  destruct (SidewalkCoverage_eqb (sidewalkCoverage (safety r)) continuous);
    split_ifs; reflexivity.
Qed.

Lemma weekend_tag :
  includes collected "nice for weekend stroll"
  = RoutesList.isWeekend tc && negb (RoutesList.isDark tc)
    && negb (isRaining weather) && negb (isColdWeather weather)
    && (RouteType_eqb (type r) scenic || RouteType_eqb (type r) comfortable).
Proof.
  rewrite includes_by_block. drop_silent_blocks.
  unfold tagsOf, weekendBlock, when, push, add.
  destruct (RoutesList.isWeekend tc && negb (RoutesList.isDark tc)
            && negb (isRaining weather) && negb (isColdWeather weather));
    [| reflexivity].
  cbn [andb].
  now destruct (RouteType_eqb (type r) scenic
                || RouteType_eqb (type r) comfortable).
Qed.

End TagFacts.

Lemma RouteType_eqb_eq (a b : RouteType) : RouteType_eqb a b = true -> a = b.
Proof. destruct a, b; (reflexivity || discriminate). Qed.

Lemma Lighting_eqb_eq (a b : Lighting) : Lighting_eqb a b = true -> a = b.
Proof. destruct a, b; (reflexivity || discriminate). Qed.

Lemma SidewalkCoverage_eqb_eq (a b : SidewalkCoverage) :
  SidewalkCoverage_eqb a b = true -> a = b.
Proof. destruct a, b; (reflexivity || discriminate). Qed.

(** Split on the first test of a cascade of [if]s under a [match]. *)
Ltac take_arm E :=
  match goal with
  | |- match (if ?c then _ else _) with _ => _ end =>
      destruct c eqn:E; cbv iota
  end.

(** X22.  A reason that names a quality of the route is only given for
    a route that has it: the heat reason for a route at least 60 % shaded
    in hot weather, the cold reason for the fastest route, the wind reason
    for the comfortable one, the darkness reason for a well-lit route in
    the dark, the late-night reason for the safest route, the rush-hour
    reason for continuous sidewalks, the weekend reason for a scenic or
    comfortable route, and "Recommended for you" for the route type the
    preference maps to. *)
Theorem reason_fits_route (routes : list RouteData) (pref : RoutePreference)
  (weather : option WeatherData) (alerts : list WeatherAlert)
  (tc : TimeContext) (month : Z) (r : RouteData) :
  let scored := scoreRoute routes pref weather tc month r in
  match reasonBranch weather alerts tc month scored with
  | HeatBranch =>
      isHotWeather weather month = true
      /\ (60 <= shadePercent (comfort r))%Z
  | ColdBranch => isColdWeather weather = true /\ type r = fastest
  | WindBranch => isWindy weather = true /\ type r = comfortable
  | DarkBranch =>
      WeatherContext.isDark tc = true
      /\ lightingLevel (safety r) = well_lit
  | LateNightBranch => timeOfDay tc = late_night /\ type r = safest
  | RushHourBranch =>
      WeatherContext.isRushHour tc = true
      /\ sidewalkCoverage (safety r) = continuous
  | WeekendBranch =>
      WeatherContext.isWeekend tc = true
      /\ (type r = scenic \/ type r = comfortable)
  | PreferenceBranch => type r = prefMap pref
  | RainBranch | SnowBranch | AlertBranch | ClearWeatherBranch
  | BestOverallBranch => True
  end.
Proof.
  cbv zeta. unfold reasonBranch.
  rewrite preference_tag, shade_tag, exposure_tag, wind_tag, lit_tag,
    lateNight_tag, rushHour_tag, weekend_tag.
  take_arm E; [exact I |]. clear E.
  take_arm E; [exact I |]. clear E.
  take_arm E.
  { apply andb_prop in E as [Hhot E]. apply andb_prop in E as [_ E].
    split; [exact Hhot | apply Z.geb_le in E; lia]. }
  clear E. take_arm E.
  { apply andb_prop in E as [Hcold E]. apply andb_prop in E as [_ E].
    split; [exact Hcold | now apply RouteType_eqb_eq]. }
  clear E. take_arm E.
  { apply andb_prop in E as [Hwind E]. apply andb_prop in E as [_ E].
    split; [exact Hwind | now apply RouteType_eqb_eq]. }
  clear E. take_arm E.
  { apply andb_prop in E as [Hdark E]. apply andb_prop in E as [_ E].
    split; [exact Hdark | now apply Lighting_eqb_eq]. }
  clear E. take_arm E.
  { apply andb_prop in E as [Hlate E]. apply andb_prop in E as [_ E].
    split; [| now apply RouteType_eqb_eq].
    unfold isLateNight, currentTimeOfDay in Hlate.
    now destruct (timeOfDay tc). }
  clear E. take_arm E.
  { apply andb_prop in E as [Hrush E]. apply andb_prop in E as [_ E].
    split; [exact Hrush | now apply SidewalkCoverage_eqb_eq]. }
  clear E. take_arm E.
  { apply andb_prop in E as [Hweekend E]. apply andb_prop in E as [_ E].
    split; [exact Hweekend |].
    apply orb_prop in E as [E | E]; apply RouteType_eqb_eq in E; auto. }
  clear E. take_arm E; [exact I |]. clear E.
  take_arm E; [now apply RouteType_eqb_eq |]. clear E.
  take_arm E; exact I.
Qed.

(** ** What the score looks at *)

(** X23.  The score and the reasons of a route depend on eight of its
    fields only: type, duration, night-friendly flag, lighting level,
    crossing count, sidewalk coverage, shade percent and rest-spot count.
    Id, title, distance, geometry, steps, tags, busy-road count, hill
    level and every descriptive text never influence them. *)
Theorem score_reads_eight_fields (routes : list RouteData)
  (pref : RoutePreference) (weather : option WeatherData)
  (tc : TimeContext) (month : Z) (r r' : RouteData) :
  type r = type r' ->
  duration r = duration r' ->
  nightFriendly r = nightFriendly r' ->
  lightingLevel (safety r) = lightingLevel (safety r') ->
  crossingCount (safety r) = crossingCount (safety r') ->
  sidewalkCoverage (safety r) = sidewalkCoverage (safety r') ->
  shadePercent (comfort r) = shadePercent (comfort r') ->
  restSpotCount (comfort r) = restSpotCount (comfort r') ->
  total (scoreRoute routes pref weather tc month r)
  = total (scoreRoute routes pref weather tc month r').
Proof.
  intros Hty Hdu Hnf Hli Hcr Hsw Hsh Hrs.
  unfold scoreRoute. cbn [total].
  unfold preferenceBlock, rainSnowBlock, hotBlock, coldBlock, windBlock,
    darkBlock, lateNightBlock, rushHourBlock, middayBlock, weekendBlock,
    safetyBlock, lengthBlock.
  rewrite Hty, Hdu, Hnf, Hli, Hcr, Hsw, Hsh, Hrs. reflexivity.
Qed.

Lemma score_reads_eight_fields_witness :
  total (scoreRoute Sample.routes safe (Some Sample.rainy)
           Sample.weekdayNight 0 (transformRoute Sample.rawWalk 0))
  = total (scoreRoute Sample.routes safe (Some Sample.rainy)
             Sample.weekdayNight 0 (transformRoute Sample.rawWalk 4)).
Proof.
  apply (@score_reads_eight_fields Sample.routes safe (Some Sample.rainy)
           Sample.weekdayNight 0 (transformRoute Sample.rawWalk 0)
           (transformRoute Sample.rawWalk 4)); reflexivity.
Defined.

(** ** Selecting a card *)

Lemma find_first_of_type (routes : list RouteData) (card : RouteData) :
  In card routes ->
  exists before first after,
    routes = (before ++ first :: after)%list
    /\ find (fun r => RouteType_eqb (type r) (type card)) routes = Some first
    /\ type first = type card
    /\ Forall (fun r => type r <> type card) before.
Proof.
  induction routes as [| x t IH]; [intros [] |].
  intros Hin. cbn [find].
  destruct (RouteType_eqb (type x) (type card)) eqn:E.
  - exists [], x, t. repeat split; [now apply RouteType_eqb_eq | constructor].
  - assert (Hne : type x <> type card).
    { intro H. rewrite H in E. now destruct (type card). }
    destruct Hin as [-> | Hin]; [congruence |].
    destruct (IH Hin) as (b & f & a & -> & Hf & Hty & Hb).
    exists (x :: b), f, a. repeat split; try assumption.
    constructor; assumption.
Qed.

(** X24.  Clicking the card of a stored route opens the preview with the
    first stored route of the card's type selected.  That is the clicked
    route itself whenever the stored types are pairwise different; when a
    type occurs twice, the later card selects the earlier route. *)
Theorem click_selects_first_of_type (card : RouteData) (s : App.State) :
  In card (routes (App.route s)) ->
  exists before first after,
    routes (App.route s) = (before ++ first :: after)%list
    /\ type first = type card
    /\ Forall (fun r => type r <> type card) before
    /\ App.clickCard card s
       = {| App.currentPage := App.preview;
            App.route := selectRoute first (App.route s) |}
    /\ (NoDup (map type (routes (App.route s))) -> first = card).
Proof.
  intro Hin. destruct (find_first_of_type _ _ Hin)
    as (b & f & a & Heq & Hfind & Hty & Hb).
  exists b, f, a. split; [exact Heq |]. split; [exact Hty |].
  split; [exact Hb |]. split.
  - unfold App.clickCard, App.handleRouteSelect. now rewrite Hfind.
  - intro Hnd. rewrite Heq in Hin, Hnd.
    apply in_app_or in Hin. destruct Hin as [Hin | [Hin | Hin]].
    + rewrite Forall_forall in Hb. now destruct (Hb _ Hin).
    + exact Hin.
    + exfalso. rewrite map_app in Hnd. cbn [map] in Hnd.
      apply NoDup_remove_2 in Hnd. apply Hnd. apply in_or_app. right.
      rewrite Hty. now apply in_map.
Qed.

Lemma click_selects_first_of_type_witness :
  exists before first after,
    routes (App.route Sample.app) = (before ++ first :: after)%list
    /\ type first = type Sample.base
    /\ Forall (fun r => type r <> type Sample.base) before
    /\ App.clickCard Sample.base Sample.app
       = {| App.currentPage := App.preview;
            App.route := selectRoute first (App.route Sample.app) |}
    /\ (NoDup (map type (routes (App.route Sample.app))) ->
        first = Sample.base).
Proof.
  apply (click_selects_first_of_type Sample.base Sample.app).
  left. reflexivity.
Defined.

(** X25.  The back button walks navigation, steps, preview, list and
    stays on the list: three presses reach the list from any page, and
    neither it nor the two forward buttons touch the route provider's
    state. *)
Theorem back_reaches_list (s : App.State) :
  App.currentPage (App.handleBack (App.handleBack (App.handleBack s)))
  = App.list
  /\ (App.currentPage s = App.list -> App.handleBack s = s)
  /\ App.handleBack (App.handleStartNavigation s) = App.handleStepByStep s
  /\ App.route (App.handleBack s) = App.route s
  /\ App.route (App.handleStepByStep s) = App.route s
  /\ App.route (App.handleStartNavigation s) = App.route s.
Proof.
  destruct s as [page ctx]. repeat split.
  - destruct page; reflexivity.
  - cbn. intros ->. reflexivity.
  - destruct page; reflexivity.
Qed.

(** ** The banner *)

Lemma pushIf_keeps {A} (c : bool) (x : A) (l : list A) :
  l <> [] -> WeatherContext.pushIf c x l <> [].
Proof.
  unfold WeatherContext.pushIf. destruct c; [| trivial].
  intros _ H. apply app_eq_nil in H as [_ H]. discriminate H.
Qed.

Lemma pushIf_true {A} (x : A) (l : list A) :
  WeatherContext.pushIf true x l <> [].
Proof.
  unfold WeatherContext.pushIf. intro H.
  apply app_eq_nil in H as [_ H]. discriminate H.
Qed.

(** Rain, drizzle, snow and thunderstorm each switch one rule on. *)
Lemma precipitation_raises_alert (now : Z) (w : WeatherData) :
  match condition (current w) with
  | rain | drizzle | snow | thunderstorm => generateAlerts now w <> []
  | _ => True
  end.
Proof.
  unfold generateAlerts. cbv zeta.
  destruct (condition (current w)); try exact I;
    cbn [WeatherCondition_eqb orb];
    repeat (apply pushIf_true || apply pushIf_keeps).
Qed.

(** X26.  Background and text colour of the banner always have the
    same hue.  When the alerts are those generated from the snapshot, the
    hue is red, orange or amber with an alert and emerald without one:
    the blue, slate and purple of rain, snow and thunderstorm are never
    shown, since those conditions always raise an alert. *)
Theorem banner_colours (now : Z) (w : WeatherData)
  (alerts : list WeatherAlert) :
  In (WeatherBanner.getBgColor w alerts, WeatherBanner.getTextColor w alerts)
    [("bg-red-50", "text-red-700"); ("bg-orange-50", "text-orange-700");
     ("bg-amber-50", "text-amber-700"); ("bg-blue-50", "text-blue-700");
     ("bg-slate-100", "text-slate-700"); ("bg-purple-50", "text-purple-700");
     ("bg-emerald-50", "text-emerald-700")]%string
  /\ In (WeatherBanner.getBgColor w (generateAlerts now w))
       ["bg-red-50"; "bg-orange-50"; "bg-amber-50"; "bg-emerald-50"]%string
  /\ (WeatherBanner.getBgColor w (generateAlerts now w)
      = "bg-emerald-50"%string
      <-> generateAlerts now w = []).
Proof.
  split.
  - unfold WeatherBanner.getBgColor, WeatherBanner.getTextColor.
    destruct (WeatherBanner.topSeverity alerts) as [[| |] |];
      [| | | destruct (condition (current w))]; cbn; auto 10.
  - assert (Hrain := precipitation_raises_alert now w).
    unfold WeatherBanner.getBgColor.
    destruct (generateAlerts now w) as [| top rest].
    + cbn [WeatherBanner.topSeverity].
      destruct (condition (current w)); try (now destruct Hrain);
        split; cbn; auto 10; split; reflexivity.
    + cbn [WeatherBanner.topSeverity].
      destruct (severity top); split; cbn; auto 10;
        split; intro E; discriminate E.
Qed.

(** ** The notes of a step *)

Lemma mapi_from_In {A B} (f : A -> nat -> B) (i : nat) (l : list A) (y : B) :
  In y (mapi_from f i l) -> exists x k, In x l /\ y = f x k.
Proof.
  revert i. induction l as [| x t IH]; intros i; cbn; [intros [] |].
  intros [<- | H].
  - exists x, i. auto.
  - destruct (IH _ H) as (x' & k & Hin & ->). exists x', k. auto.
Qed.

(** X27.  For a step of a route transformed from the provider's answer,
    the comfort notes never mention a steep hill, a busy road crossing, a
    bench or a park, and they mention a signalized crossing exactly when
    the maneuver is a turn. *)
Theorem transformed_step_notes (route : RawRoute) (index : nat)
  (st : RouteStep) :
  In st (steps (transformRoute route index)) ->
  let notes := StepByStep.getComfortDescription st in
  ~ In "Steep hill ahead"%string notes
  /\ ~ In "Busy road crossing"%string notes
  /\ ~ In "Bench available"%string notes
  /\ ~ In "Park rest area"%string notes
  /\ (In "Signalized crossing"%string notes
      <-> maneuver_type (maneuver st) = "turn"%string).
Proof.
  cbn [steps transformRoute]. unfold stepsWithComfort.
  destruct (legs route) as [| leg _]; [intros [] |].
  unfold mapi. intro Hin.
  destruct (mapi_from_In _ _ _ _ Hin) as (raw & k & _ & ->).
  unfold StepByStep.getComfortDescription, stepWithComfort,
    StepByStep.pushIf.
  cbn [step_comfort step_lighting step_shade terrain crossing restSpot
       maneuver maneuver_type].
  destruct (String.eqb_spec (raw_type (raw_maneuver raw)) "turn") as [E | E];
    destruct (k mod 3)%nat as [| [| [| [| n]]]];
    destruct (k mod 2 =? 0)%nat; destruct (k mod 4 =? 0)%nat;
    cbn [nth comfortTypes terrainTypes app In];
    repeat split;
    try (intro H; intuition discriminate);
    try (intros _; exact E);
    try (intros _; cbn; auto 10; fail);
    try (intro H; contradiction).
Qed.

Lemma transformed_step_notes_witness :
  ~ In "Steep hill ahead"%string
      (StepByStep.getComfortDescription
         (stepWithComfort (Sample.sampleStep "turn" "Turn left" 200) 1)).
Proof.
  apply (transformed_step_notes
           {| legs := [ {| raw_steps :=
                             [Sample.sampleStep "depart" "Head south" 200;
                              Sample.sampleStep "turn" "Turn left" 200] |} ];
              raw_distance := 400; raw_duration := 400;
              raw_geometry := [] |} 0).
  right. left. reflexivity.
Defined.

(** ** Navigation *)

Lemma sum_from (f : RouteStep -> Q) (l : list RouteStep) (a : Q) :
  fold_left (fun acc step => acc + f step) l a
  == a + fold_left (fun acc step => acc + f step) l 0.
Proof.
  revert a. induction l as [| x t IH]; intro a; cbn [fold_left].
  - ring.
  - rewrite (IH (a + f x)), (IH (0 + f x)). ring.
Qed.

Lemma sum_nonneg (f : RouteStep -> Q) (l : list RouteStep) :
  Forall (fun s => 0 <= f s) l ->
  0 <= fold_left (fun acc step => acc + f step) l 0.
Proof.
  induction 1 as [| x t Hx Ht IH]; cbn [fold_left]; [lra |].
  rewrite sum_from. lra.
Qed.

Lemma skipn_step {A} (l : list A) (i : nat) (x : A) :
  nth_error l i = Some x -> skipn i l = x :: skipn (S i) l.
Proof.
  revert i. induction l as [| y t IH]; intros [| i]; cbn; try discriminate.
  - now intros [= ->].
  - intro H. now rewrite (IH _ H).
Qed.

(** X28.  The automatic advance of the navigation never leaves the step
    list: from a valid step it stays or moves one step on, it moves only
    when the user is within 20 m and a next step exists, and on the last
    step it stays.  With non-negative step lengths the remaining distance
    never grows by it. *)
Theorem auto_advance_stays_in_route (steps : list RouteStep) (dist : Q)
  (i : nat) :
  (i < List.length steps)%nat ->
  let j := Navigation.autoAdvance steps dist i in
  (j < List.length steps)%nat
  /\ (j = i \/ j = S i)
  /\ (j = S i <-> dist < 20 /\ (S i < List.length steps)%nat)
  /\ (Forall (fun s => 0 <= step_distance s) steps ->
      Navigation.remainingDistance steps j
      <= Navigation.remainingDistance steps i).
Proof.
  intros Hi j. subst j. unfold Navigation.autoAdvance.
  destruct (nth_error steps i) as [step |] eqn:E;
    [| apply nth_error_None in E; lia].
  assert (Hnear : Qltb dist 20 = true <-> dist < 20).
  { unfold Qltb. rewrite negb_true_iff. split; intro H.
    - destruct (Qlt_le_dec dist 20) as [| Hle]; [assumption |].
      apply Qle_bool_iff in Hle. congruence.
    - apply not_true_is_false. rewrite Qle_bool_iff. lra. }
  destruct (Qltb dist 20) eqn:Enear;
    destruct (Nat.ltb_spec i (List.length steps - 1)) as [Hlt | Hge];
    cbn [andb].
  - rewrite Nat.add_1_r. split; [lia |]. split; [now right |]. split.
    + split; [intros _; split; [now apply Hnear | lia] | reflexivity].
    + intro Hpos. unfold Navigation.remainingDistance,
        Navigation.remainingSteps.
      rewrite (skipn_step _ _ E). cbn [fold_left].
      rewrite (sum_from _ _ (0 + step_distance step)).
      rewrite Forall_forall in Hpos.
      assert (0 <= step_distance step) by (apply Hpos; eapply nth_error_In; eauto).
      lra.
  - split; [lia |]. split; [now left |]. split.
    + split; [lia | intros [_ H]; lia].
    + intros _. apply Qle_refl.
  - split; [lia |]. split; [now left |]. split.
    + split; [lia | intros [H _]; apply Hnear in H; discriminate H].
    + intros _. apply Qle_refl.
  - split; [lia |]. split; [now left |]. split.
    + split; [lia | intros [H _]; apply Hnear in H; discriminate H].
    + intros _. apply Qle_refl.
Qed.

Lemma auto_advance_stays_in_route_witness :
  (Navigation.autoAdvance (steps Sample.base) 5 0
   < List.length (steps Sample.base))%nat.
Proof.
  refine (proj1 (@auto_advance_stays_in_route (steps Sample.base) 5 0%nat _)).
  vm_compute. lia.
Defined.

(** ** Formatting a duration *)

(** X29.  A duration is shown in whole minutes, rounded to the nearest:
    below 60 of them as "N min", from 60 on as "Hh Mm" with at least one
    hour, fewer than 60 minutes, and [60 H + M] the rounded minutes. *)
Theorem formatDuration_parts (seconds : Q) :
  let mins := round (seconds / 60) in
  ((mins < 60)%Z ->
   formatDuration seconds = (showZ mins ++ " min")%string)
  /\ ((60 <= mins)%Z ->
      exists hours remainMins,
        formatDuration seconds
        = (showZ hours ++ "h " ++ showZ remainMins ++ "m")%string
        /\ (1 <= hours)%Z /\ (0 <= remainMins < 60)%Z
        /\ (60 * hours + remainMins = mins)%Z).
Proof.
  cbv zeta. unfold formatDuration. split; intro H.
  - rewrite (proj2 (Z.ltb_lt _ _) H). reflexivity.
  - rewrite (proj2 (Z.ltb_ge _ _) H).
    exists (round (seconds / 60) / 60)%Z, (round (seconds / 60) mod 60)%Z.
    split; [reflexivity |].
    assert (Hmod := Z.mod_pos_bound (round (seconds / 60)) 60 ltac:(lia)).
    assert (Hdiv := Z.div_mod (round (seconds / 60)) 60 ltac:(lia)).
    repeat split; lia.
Qed.
